(** * wapi.session: a shallow embedding of the Session class

    The embedding follows [src/wapi/session.py] method by method.  Python
    values that reach the Session from parsed JSON are kept dynamically
    typed ([pyval]); exceptions are an explicit result; the mutable
    Session (its [auth], [urlbase] and the two caches), the objects it
    allocates and the calls it makes to the HTTP transport are threaded
    through a state monad.  Library code (requests, json, urljoin, the
    OAuth provider, the builtin [int] on text) is not part of the
    repository's own logic: it enters as the fields of [Externals].
    [Session.events], which only constructs the listener of the [events]
    module, is left out. *)

From Stdlib Require Import Ascii.
From stdpp Require Import gmap strings list fin_maps pretty.

Local Open Scope Z_scope.
Local Open Scope string_scope.

(** ** Python values *)

(** The JSON fragment of Python's values: [None], [bool], [int], [str],
    [list] and [dict] (keys are text, in document order).  JSON reals are
    left out of the value universe. *)
#[local] Set Warnings "-register-all".
Inductive pyval : Type :=
  | PNone
  | PBool (b : bool)
  | PInt (z : Z)
  | PStr (s : string)
  | PList (l : list pyval)
  | PDict (d : list (string * pyval)).

(** Hashable values as dictionary keys.  [True == 1] and [False == 0] in
    Python and they hash alike, so a [bool] is the same key as its [int]. *)
Inductive pykey : Type :=
  | KNone
  | KInt (z : Z)
  | KStr (s : string).

Global Instance pykey_eq_dec : EqDecision pykey.
Proof. solve_decision. Defined.

Definition pykey_enc (k : pykey) : unit + (Z + string) :=
  match k with
  | KNone => inl tt
  | KInt z => inr (inl z)
  | KStr s => inr (inr s)
  end.

Definition pykey_dec (x : unit + (Z + string)) : pykey :=
  match x with
  | inl _ => KNone
  | inr (inl z) => KInt z
  | inr (inr s) => KStr s
  end.

Global Instance pykey_countable : Countable pykey.
Proof.
  apply (inj_countable' pykey_enc pykey_dec).
  intros []; reflexivity.
Defined.

(** ** Exceptions and results *)

Inductive PyExc : Type :=
  | ConfigException (msg : string)
  | MetadataException (msg : string)
  | CurveException (msg : string)
  | ValueError (msg : string)
  | TypeError (msg : string)
  | AttributeError (msg : string)
  | KeyError (key : string)
  | NoSectionError (section : string)
  | NoOptionError (option section : string)
  | UnicodeDecodeError (msg : string)
  | ExternalError (msg : string).

Inductive Result (A : Type) : Type :=
  | Ok (a : A)
  | Raise (e : PyExc).
Arguments Ok {A} a.
Arguments Raise {A} e.

Definition is_metadata_error (e : PyExc) : bool :=
  match e with MetadataException _ => true | _ => false end.

Definition is_curve_error (e : PyExc) : bool :=
  match e with CurveException _ => true | _ => false end.

(** [hash(v)]: lists and dicts are unhashable. *)
Definition py_hash (v : pyval) : Result pykey :=
  match v with
  | PNone => Ok KNone
  | PBool b => Ok (KInt (if b then 1 else 0))
  | PInt z => Ok (KInt z)
  | PStr s => Ok (KStr s)
  | PList _ => Raise (TypeError "unhashable type: 'list'")
  | PDict _ => Raise (TypeError "unhashable type: 'dict'")
  end.

(** A dict built from [key: value] pairs read left to right: the last
    binding of a key is the one that stays. *)
Definition dict_of_pairs (d : list (string * pyval)) : gmap string pyval :=
  fold_left (fun m kv => <[kv.1 := kv.2]> m) d ∅.

(** ** HTTP messages *)

Record Request : Type := mkRequest {
  req_method : string;
  req_url : string;
  req_data : option string;
  req_headers : gmap string string;
  req_auth : option (string * string)
}.

(** [content] is the body as the bytes received. *)
Record Response : Type := mkResponse {
  status_code : Z;
  content : string
}.

(** [requests.Response.ok]: [raise_for_status] raises for 400..599. *)
Definition response_ok (r : Response) : bool :=
  negb (bool_decide (400 <= status_code r < 600)).

(** ** The OAuth provider *)

(** Modelled from the spec: [auth.OAuth] is not under src/; the provider
    holds the credentials it is constructed with, and its token state is
    left to the oracles [validate_auth] and [get_headers] below.
    Constructing a provider is modelled as storing the three values;
    what else the constructor may do through the Session is outside the
    model. *)
Record OAuth : Type := mkOAuth {
  client_id : string;
  client_secret : string;
  auth_urlbase : string
}.

(** ** Curves *)

Inductive CurveClass : Type :=
  | TimeSeriesCurve
  | TaggedCurve
  | InstanceCurve
  | TaggedInstanceCurve.

Global Instance CurveClass_eq_dec : EqDecision CurveClass.
Proof. solve_decision. Defined.

(** Modelled from the spec: the classes of [curves] are not under src/; a
    curve is constructed "with the metadata and a back-reference to the
    owning Session", carries the id it was given, and the fields of its
    metadata record are its attributes ([c.name] is [metadata['name']]).
    The back-reference is the one Session of the machine and is left
    implicit. *)
Record Curve : Type := mkCurve {
  curve_class : CurveClass;
  curve_id : Z;
  curve_metadata : option pyval
}.

Definition curve_getattr (c : Curve) (attr : string) : Result pyval :=
  match curve_metadata c with
  | Some (PDict d) =>
      match dict_of_pairs d !! attr with
      | Some v => Ok v
      | None => Raise (AttributeError attr)
      end
  | _ => Raise (AttributeError attr)
  end.

(** ** Library code the Session calls *)

Record Externals : Type := mkExternals {
  (** [prepare_request] followed by [send] on the shared
      [requests.Session]; the first argument counts the sends made
      before this one. *)
  transport : nat -> Request -> Result Response;
  (** [auth.validate_auth()], by the number of earlier validations. *)
  validate_auth : nat -> OAuth -> Result unit;
  (** [auth.get_headers(databytes)], after that many validations. *)
  get_headers : nat -> OAuth -> option string -> gmap string string;
  urljoin : string -> string -> string;
  (** [json.dumps(data).encode()] *)
  json_dumps : pyval -> string;
  (** [response.json()] on the body *)
  json_loads : string -> Result pyval;
  (** [response.content.decode()]: the text of a body, or the
      UnicodeDecodeError of a body that is not UTF-8 *)
  decode : string -> Result string;
  (** the builtin [int] on text; [None] is its [ValueError] *)
  int_of_str : string -> option Z;
  (** [str] of a list or dict *)
  str_container : pyval -> string;
  (** [repr] of text *)
  repr_str : string -> string;
  (** the four tag constants of [util] *)
  TIME_SERIES : string;
  TAGGED : string;
  INSTANCES : string;
  TAGGED_INSTANCES : string
}.

(** ** The Session and the machine around it *)

Definition ref := nat.

Record Session : Type := mkSession {
  urlbase : string;
  auth : option OAuth;
  _curve_cache : gmap Z ref;
  _name_cache : gmap pykey Z
}.

(** The heap holds the curve objects by reference, [sent] is every call
    made to the transport with what it answered (oldest first),
    [validations] counts the calls to [validate_auth] and [sleeps] the
    retry delays taken. *)
Record Machine : Type := mkMachine {
  session : Session;
  heap : list Curve;
  sent : list (Request * Result Response);
  validations : nat;
  sleeps : nat
}.

Definition M (A : Type) : Type := Machine -> Result A * Machine.

Definition ret {A} (a : A) : M A := fun m => (Ok a, m).

Definition raise {A} (e : PyExc) : M A := fun m => (Raise e, m).

Definition bind {A B} (c : M A) (k : A -> M B) : M B :=
  fun m =>
    match c m with
    | (Ok a, m') => k a m'
    | (Raise e, m') => (Raise e, m')
    end.

Notation "'let!' x := c 'in' k" := (bind c (fun x => k))
  (at level 10, x name, c at level 100, k at level 200).

Definition lift {A} (r : Result A) : M A := fun m => (r, m).

Definition get_session : M Session := fun m => (Ok (session m), m).

Definition modify_session (f : Session -> Session) : M unit :=
  fun m => (Ok tt, mkMachine (f (session m)) (heap m) (sent m)
                             (validations m) (sleeps m)).

Definition set_urlbase (u : string) (s : Session) : Session :=
  mkSession u (auth s) (_curve_cache s) (_name_cache s).

Definition set_auth (a : OAuth) (s : Session) : Session :=
  mkSession (urlbase s) (Some a) (_curve_cache s) (_name_cache s).

Definition set_curve_cache (i : Z) (r : ref) (s : Session) : Session :=
  mkSession (urlbase s) (auth s) (<[i := r]> (_curve_cache s)) (_name_cache s).

Definition set_name_cache (k : pykey) (i : Z) (s : Session) : Session :=
  mkSession (urlbase s) (auth s) (_curve_cache s) (<[k := i]> (_name_cache s)).

(** Object construction: the new object gets the next free reference. *)
Definition alloc (c : Curve) : M ref :=
  fun m => (Ok (length (heap m)),
            mkMachine (session m) (heap m ++ [c]) (sent m)
                      (validations m) (sleeps m)).

Definition RETRY_COUNT : Z := 4.

(** [Session.__init__] with no arguments. *)
Definition new_session : Session :=
  mkSession "https://api.wattsight.com" None ∅ ∅.

Definition new_machine : Machine := mkMachine new_session [] [] 0%nat 0%nat.

(** ** configparser *)

(** What [RawConfigParser] holds once the configuration source is read:
    the options of each named section and those of the DEFAULT section of
    the source.  Option names are lower-cased by the parser on reading
    and on lookup; the names asked for below are lower case already. *)
Record ConfigFile : Type := mkConfigFile {
  cfg_sections : gmap string (gmap string string);
  cfg_defaults : gmap string string
}.

(** Reading the source either fails in the parser or yields its content. *)
Definition ConfigSource : Type := Result ConfigFile.

(** ** A scripted environment *)

(** Decimal text: ASCII digits after an optional minus sign.  The builtin
    accepts more (blanks around, a plus sign, underscores between
    digits); the inputs below do not use it. *)
Fixpoint parse_digits (s : string) (acc : Z) : option Z :=
  match s with
  | EmptyString => Some acc
  | String a s' =>
      let n := Z.of_N (Ascii.N_of_ascii a) - 48 in
      if (0 <=? n)%Z && (n <=? 9)%Z then parse_digits s' (10 * acc + n) else None
  end.

Definition decimal_of_str (s : string) : option Z :=
  match s with
  | EmptyString => None
  | String "-"%char EmptyString => None
  | String "-"%char s' => Z.opp <$> parse_digits s' 0
  | _ => parse_digits s 0
  end.

(** [bytes.decode()]: strict UTF-8.  Text is kept as its UTF-8 bytes, so
    a well-formed body decodes to itself; the byte ranges are those of
    the well-formed sequences of one to four bytes (no overlong forms, no
    surrogates, nothing above U+10FFFF). *)
Definition byte_in (lo hi : N) (a : ascii) : bool :=
  ((lo <=? Ascii.N_of_ascii a) && (Ascii.N_of_ascii a <=? hi))%N.

Definition utf8_lead3 (a b : ascii) : bool :=
  byte_in 224 224 a && byte_in 160 191 b
  || byte_in 225 236 a && byte_in 128 191 b
  || byte_in 237 237 a && byte_in 128 159 b
  || byte_in 238 239 a && byte_in 128 191 b.

Definition utf8_lead4 (a b : ascii) : bool :=
  byte_in 240 240 a && byte_in 144 191 b
  || byte_in 241 243 a && byte_in 128 191 b
  || byte_in 244 244 a && byte_in 128 143 b.

Fixpoint utf8_wellformed (s : string) : bool :=
  match s with
  | EmptyString => true
  | String a s1 =>
      if byte_in 0 127 a then utf8_wellformed s1
      else
        match s1 with
        | EmptyString => false
        | String b s2 =>
            if byte_in 194 223 a then byte_in 128 191 b && utf8_wellformed s2
            else
              match s2 with
              | EmptyString => false
              | String c s3 =>
                  if utf8_lead3 a b
                  then byte_in 128 191 c && utf8_wellformed s3
                  else
                    match s3 with
                    | EmptyString => false
                    | String d s4 =>
                        utf8_lead4 a b && byte_in 128 191 c
                        && byte_in 128 191 d && utf8_wellformed s4
                    end
              end
        end
  end.

Definition utf8_decode (body : string) : Result string :=
  if utf8_wellformed body then Ok body
  else Raise (UnicodeDecodeError "'utf-8' codec can't decode bytes").

(** A server that answers the first three calls with 503 and every
    later one with 200 and an empty list, a provider that always
    validates, and the tag constants spelled as their names. *)
Definition demo : Externals := {|
  transport := fun k _ =>
    Ok (mkResponse (if (k <? 3)%nat then 503 else 200) "[]");
  validate_auth := fun _ _ => Ok tt;
  get_headers := fun _ a _ => {[ "Authorization" := "Bearer " +:+ client_id a ]};
  urljoin := fun base url => base +:+ url;
  json_dumps := fun _ => "{}";
  json_loads := fun _ => Ok (PList []);
  decode := utf8_decode;
  int_of_str := decimal_of_str;
  str_container := fun _ => "[]";
  repr_str := fun s => "'" +:+ s +:+ "'";
  TIME_SERIES := "TIME_SERIES";
  TAGGED := "TAGGED";
  INSTANCES := "INSTANCES";
  TAGGED_INSTANCES := "TAGGED_INSTANCES"
|}.

(** The same, with a server that answers 503 to every call. *)
Definition demo_busy : Externals := {|
  transport := fun _ _ => Ok (mkResponse 503 "");
  validate_auth := validate_auth demo;
  get_headers := get_headers demo;
  urljoin := urljoin demo;
  json_dumps := json_dumps demo;
  json_loads := json_loads demo;
  decode := decode demo;
  int_of_str := int_of_str demo;
  str_container := str_container demo;
  repr_str := repr_str demo;
  TIME_SERIES := TIME_SERIES demo;
  TAGGED := TAGGED demo;
  INSTANCES := INSTANCES demo;
  TAGGED_INSTANCES := TAGGED_INSTANCES demo
|}.

(** The record of the specification's example, the same without its
    [curve_type], and with an id that is not a number. *)
Definition oslo_temp : list (string * pyval) :=
  [("id", PStr "42"); ("name", PStr "Oslo Temp"); ("frequency", PStr "H");
   ("time_zone", PStr "CET"); ("curve_type", PStr "TIME_SERIES")].

Definition oslo_temp_untyped : list (string * pyval) :=
  [("id", PStr "42"); ("name", PStr "Oslo Temp"); ("frequency", PStr "H");
   ("time_zone", PStr "CET")].

Definition oslo_temp_bad_id : list (string * pyval) :=
  [("id", PStr "abc"); ("name", PStr "Oslo Temp"); ("frequency", PStr "H");
   ("time_zone", PStr "CET"); ("curve_type", PStr "TIME_SERIES")].

(** A configuration with a [common] section and no OAuth. *)
Definition basic_common : gmap string string :=
  {[ "urlbase" := "https://example.test"; "auth_type" := "Basic" ]}.

Definition basic_config : ConfigFile :=
  mkConfigFile {[ "common" := basic_common ]} ∅.

(** [demo] with another server and other parsed bodies. *)
Definition demo_with (server : nat -> Request -> Result Response)
    (loads : string -> Result pyval) : Externals := {|
  transport := server;
  validate_auth := validate_auth demo;
  get_headers := get_headers demo;
  urljoin := urljoin demo;
  json_dumps := json_dumps demo;
  json_loads := loads;
  decode := decode demo;
  int_of_str := int_of_str demo;
  str_container := str_container demo;
  repr_str := repr_str demo;
  TIME_SERIES := TIME_SERIES demo;
  TAGGED := TAGGED demo;
  INSTANCES := INSTANCES demo;
  TAGGED_INSTANCES := TAGGED_INSTANCES demo
|}.

(** A server that knows no curve. *)
Definition not_found : Response := mkResponse 404 "not found".

Definition demo_404 : Externals :=
  demo_with (fun _ _ => Ok not_found) (json_loads demo).

(** A server whose error answers carry a body that is not UTF-8 (the
    single byte FF). *)
Definition garbled : Response :=
  mkResponse 404 (String (Ascii.ascii_of_N 255) EmptyString).

Definition demo_garbled : Externals :=
  demo_with (fun _ _ => Ok garbled) (json_loads demo).

(** The record of the example under another name, and with a name that
    is a list. *)
Definition oslo_renamed : list (string * pyval) :=
  [("id", PInt 42); ("name", PStr "Oslo Temperature"); ("frequency", PStr "H");
   ("time_zone", PStr "CET"); ("curve_type", PStr "TAGGED")].

Definition oslo_listed : list (string * pyval) :=
  [("id", PStr "42"); ("name", PList [PStr "Oslo"; PStr "Temp"]);
   ("frequency", PStr "H"); ("time_zone", PStr "CET");
   ("curve_type", PStr "TIME_SERIES")].

(** Servers that answer 200 with one record, with two, and with a text
    between two records. *)
Definition demo_one : Externals :=
  demo_with (fun _ _ => Ok (mkResponse 200 "{}"))
            (fun _ => Ok (PDict oslo_temp)).

Definition demo_two : Externals :=
  demo_with (fun _ _ => Ok (mkResponse 200 "[]"))
            (fun _ => Ok (PList [PDict oslo_temp; PDict oslo_renamed])).

Definition demo_broken : Externals :=
  demo_with (fun _ _ => Ok (mkResponse 200 "[]"))
            (fun _ => Ok (PList [PDict oslo_temp; PStr "junk";
                                 PDict oslo_renamed])).

(** Configurations: with OAuth, with a urlbase alone, and without one. *)
Definition oauth_common : gmap string string :=
  {[ "urlbase" := "https://example.test"; "auth_type" := "OAuth" ]}.

Definition oauth_section : gmap string string :=
  {[ "id" := "me"; "secret" := "s3cret";
     "auth_urlbase" := "https://auth.example.test" ]}.

Definition oauth_config : ConfigFile :=
  mkConfigFile {[ "common" := oauth_common; "OAuth" := oauth_section ]} ∅.

Definition urlbase_only : gmap string string :=
  {[ "urlbase" := "https://example.test" ]}.

Definition urlbase_only_config : ConfigFile :=
  mkConfigFile {[ "common" := urlbase_only ]} ∅.

Definition auth_type_only : gmap string string :=
  {[ "auth_type" := "Basic" ]}.

Definition auth_type_only_config : ConfigFile :=
  mkConfigFile {[ "common" := auth_type_only ]} ∅.

(** A Session configured from credentials. *)
Definition configured_machine : Machine :=
  mkMachine
    (mkSession "https://api.wattsight.com"
               (Some (mkOAuth "id" "secret" "https://auth.wattsight.com/")) ∅ ∅)
    [] [] 0%nat 0%nat.

Section WithExternals.

Variable E : Externals.

(** [RawConfigParser({"common": {"urlbase": self.urlbase}})]: the
    positional argument is the parser's [defaults], the initial options of
    the DEFAULT section.  It therefore defines ONE default option, named
    [common], whose value is the text of the inner dict; options the
    source gives in its DEFAULT section are read afterwards, over it. *)
Definition parser_defaults (self_urlbase : string) (f : ConfigFile)
  : gmap string string :=
  cfg_defaults f ∪
  {[ "common" := "{'urlbase': " +:+ repr_str E self_urlbase +:+ "}" ]}.

(** [config.get(section, option)]: the section's own options first, then
    the defaults; [NoSectionError] for a section that is neither in the
    source nor DEFAULT, [NoOptionError] for an option found in neither. *)
Definition config_get (defaults : gmap string string) (f : ConfigFile)
    (section option : string) : Result string :=
  match cfg_sections f !! section with
  | None =>
      if decide (section = "DEFAULT")
      then match defaults !! option with
           | Some v => Ok v
           | None => Raise (NoOptionError option section)
           end
      else Raise (NoSectionError section)
  | Some opts =>
      match opts !! option with
      | Some v => Ok v
      | None =>
          match defaults !! option with
          | Some v => Ok v
          | None => Raise (NoOptionError option section)
          end
      end
  end.

(** ** Session.read_config_file *)
Definition read_config_file (config_file : ConfigSource) : M unit :=
  let! s := get_session in
  match auth s with
  | Some _ => raise (ConfigException "Session configuration is already done")
  | None =>
      let! f := lift config_file in
      let config := config_get (parser_defaults (urlbase s) f) f in
      let! ub := lift (config "common" "urlbase") in
      (* [get] never returns None here: the parser was not created with
         allow_no_value, so the test [urlbase is not None] holds. *)
      let! _ := modify_session (set_urlbase ub) in
      let! auth_type := lift (config "common" "auth_type") in
      if decide (auth_type = "OAuth") then
        let! cid := lift (config auth_type "id") in
        let! secret := lift (config auth_type "secret") in
        let! aub := lift (config auth_type "auth_urlbase") in
        modify_session (set_auth (mkOAuth cid secret aub))
      else ret tt
  end.

(** ** Session.configure *)
Definition configure (cid secret : string) (aub : option string) : M unit :=
  let! s := get_session in
  match auth s with
  | Some _ => raise (ConfigException "Session configuration is already done")
  | None =>
      let aub' := match aub with
                  | None => "https://auth.wattsight.com/"
                  | Some u => u
                  end in
      modify_session (set_auth (mkOAuth cid secret aub'))
  end.

(** ** Session.data_request *)

(** The retry test of the source:
    [(500 <= res.status_code < 600) or res.status_code == 408]. *)
Definition retry_status (res : Response) : bool :=
  bool_decide (500 <= status_code res < 600)
  || bool_decide (status_code res = 408).

(** [data] is either text or a structure to serialise. *)
Inductive ReqData : Type :=
  | DataStr (s : string)
  | DataJson (v : pyval).

(** [self.auth.validate_auth()] *)
Definition call_validate_auth (a : OAuth) : M unit :=
  fun m =>
    (validate_auth E (validations m) a,
     mkMachine (session m) (heap m) (sent m) (S (validations m)) (sleeps m)).

(** [self.auth.get_headers(databytes)] *)
Definition call_get_headers (a : OAuth) (databytes : option string)
  : M (gmap string string) :=
  fun m => (Ok (get_headers E (validations m) a databytes), m).

(** [self._session.send(self._session.prepare_request(req))]: the call is
    recorded whether it answers or raises. *)
Definition send (req : Request) : M Response :=
  fun m =>
    let res := transport E (length (sent m)) req in
    (res, mkMachine (session m) (heap m) (sent m ++ [(req, res)])
                    (validations m) (sleeps m)).

(** [time.sleep(RETRY_DELAY)]; RETRY_DELAY is 0.5, so the guard
    [RETRY_DELAY > 0] holds. *)
Definition sleep_retry_delay : M unit :=
  fun m => (Ok tt, mkMachine (session m) (heap m) (sent m)
                             (validations m) (S (sleeps m))).

(** One pass through the body of [data_request] up to and including
    [send]: the request is built afresh on every attempt. *)
Definition attempt (req_type : string) (ub : option string) (url : string)
    (data : option ReqData) (rawdata : option string)
    (authval : option (string * string)) : M Response :=
  let! s := get_session in
  let headers : gmap string string := ∅ in
  (* [if not urlbase]: None and the empty text are both false *)
  let ub' := match ub with
             | None => urlbase s
             | Some u => if decide (u = "") then urlbase s else u
             end in
  let longurl := urljoin E ub' url in
  let '(headers, databytes) :=
    match data with
    | Some d =>
        (<["content_type" := "application/json"]> headers,
         Some match d with
              | DataStr t => t
              | DataJson v => json_dumps E v
              end)
    | None => (headers, rawdata)
    end in
  let! headers :=
    match auth s with
    | Some a =>
        let! _ := call_validate_auth a in
        let! h := call_get_headers a databytes in
        (* dict.update: the provider's headers win *)
        ret (h ∪ headers)
    | None => ret headers
    end in
  send (mkRequest req_type longurl databytes headers authval).

(** The recursion of the source is on [retries]; the call with
    [retries - 1] is made only when [retries > 0], so it is structural on
    the number of retries left. *)
Fixpoint data_request_rec (req_type : string) (ub : option string)
    (url : string) (data : option ReqData) (rawdata : option string)
    (authval : option (string * string)) (retries : nat) : M Response :=
  let! res := attempt req_type ub url data rawdata authval in
  match retries with
  | S retries' =>
      if retry_status res then
        let! _ := sleep_retry_delay in
        data_request_rec req_type ub url data rawdata authval retries'
      else ret res
  | O => ret res
  end.

(** [retries] is any Python int; [retries > 0] fails for the negative
    ones as it does for 0. *)
Definition data_request (req_type : string) (ub : option string)
    (url : string) (data : option ReqData) (rawdata : option string)
    (authval : option (string * string)) (retries : Z) : M Response :=
  data_request_rec req_type ub url data rawdata authval (Z.to_nat retries).

(** ** Operations of Python values used by the Session *)

(** [int(v)] *)
Definition py_int (v : pyval) : Result Z :=
  match v with
  | PBool b => Ok (if b then 1 else 0)
  | PInt z => Ok z
  | PStr s =>
      match int_of_str E s with
      | Some z => Ok z
      | None =>
          Raise (ValueError ("invalid literal for int() with base 10: "
                             +:+ repr_str E s))
      end
  | PNone | PList _ | PDict _ =>
      Raise (TypeError "int() argument must be a string, a bytes-like object or a real number")
  end.

(** [str(v)], which is what ['{}'.format(v)] prints. *)
Definition py_str (v : pyval) : string :=
  match v with
  | PNone => "None"
  | PBool true => "True"
  | PBool false => "False"
  | PInt z => pretty z
  | PStr s => s
  | PList _ | PDict _ => str_container E v
  end.

(** The keys of a dict in iteration order: each key once, at the place
    of its first binding. *)
Definition dict_keys (d : list (string * pyval)) : list string :=
  reverse (remove_dups (reverse (d.*1))).

Fixpoint string_chars (s : string) : list string :=
  match s with
  | EmptyString => []
  | String a s' => String a EmptyString :: string_chars s'
  end.

Definition is_substring (k s : string) : bool :=
  match String.index 0 k s with Some _ => true | None => false end.

(** [key in container] for a text key. *)
Definition py_contains (container : pyval) (key : string) : Result bool :=
  match container with
  | PDict d => Ok (bool_decide (is_Some (dict_of_pairs d !! key)))
  | PList l =>
      Ok (existsb (fun v => match v with
                            | PStr s => bool_decide (s = key)
                            | _ => false
                            end) l)
  | PStr s => Ok (is_substring key s)
  | PNone | PBool _ | PInt _ =>
      Raise (TypeError "argument is not iterable")
  end.

(** [container[key]] for a text key. *)
Definition py_getitem (container : pyval) (key : string) : Result pyval :=
  match container with
  | PDict d =>
      match dict_of_pairs d !! key with
      | Some v => Ok v
      | None => Raise (KeyError key)
      end
  | PList _ | PStr _ => Raise (TypeError "indices must be integers")
  | PNone | PBool _ | PInt _ => Raise (TypeError "object is not subscriptable")
  end.

(** [iter(v)], run to the end. *)
Definition py_iter (v : pyval) : Result (list pyval) :=
  match v with
  | PList l => Ok l
  | PDict d => Ok (PStr <$> dict_keys d)
  | PStr s => Ok (PStr <$> string_chars s)
  | PNone | PBool _ | PInt _ => Raise (TypeError "object is not iterable")
  end.

(** ** Session._curve_types and Session._build_curve *)

(** The dict display of the source, its four entries in order. *)
Definition _curve_types : gmap string CurveClass :=
  <[TAGGED_INSTANCES E := TaggedInstanceCurve]>
    (<[INSTANCES E := InstanceCurve]>
       (<[TAGGED E := TaggedCurve]>
          (<[TIME_SERIES E := TimeSeriesCurve]> ∅))).

(** [curve_type in self._curve_types] followed by the lookup: the value
    is hashed first, and only text can equal one of the keys. *)
Definition curve_types_find (curve_type : pyval) : Result (option CurveClass) :=
  match py_hash curve_type with
  | Raise e => Raise e
  | Ok (KStr t) => Ok (_curve_types !! t)
  | Ok _ => Ok None
  end.

Definition _meta_keys : list string :=
  ["id"; "name"; "frequency"; "time_zone"; "curve_type"].

(** The loop [for key in self._meta_keys]. *)
Fixpoint check_meta_keys (keys : list string) (metadata : pyval) : Result unit :=
  match keys with
  | [] => Ok tt
  | key :: keys' =>
      match py_contains metadata key with
      | Raise e => Raise e
      | Ok false =>
          Raise (MetadataException
                   ("Mandatory key " +:+ key +:+ " not found in metadata"))
      | Ok true => check_meta_keys keys' metadata
      end
  end.

Definition _build_curve (metadata : pyval) : M ref :=
  let! _ := lift (check_meta_keys _meta_keys metadata) in
  let! id_val := lift (py_getitem metadata "id") in
  let! curve_id := lift (py_int id_val) in
  let! curve_type := lift (py_getitem metadata "curve_type") in
  let! found := lift (curve_types_find curve_type) in
  match found with
  | Some cls =>
      let! c := alloc (mkCurve cls curve_id (Some metadata)) in
      let! _ := modify_session (set_curve_cache curve_id c) in
      let! m := (fun m => (Ok m, m)) in
      let! obj := lift (match heap m !! c with
                        | Some obj => Ok obj
                        | None => Raise (ExternalError "dangling reference")
                        end) in
      let! name := lift (curve_getattr obj "name") in
      let! key := lift (py_hash name) in
      let! _ := modify_session (set_name_cache key curve_id) in
      ret c
  | None =>
      raise (CurveException
               ("Unknown curve type (" +:+ py_str curve_type +:+ ")"))
  end.

(** ** Response handlers *)

Definition handle_single_curve_response (response : Response) : M ref :=
  if response_ok response then
    let! metadata := lift (json_loads E (content response)) in
    _build_curve metadata
  else
    let! text := lift (decode E (content response)) in
    raise (MetadataException ("Failed to load curve: " +:+ text)).

(** The loop [for metadata in metadata_list: result.append(...)]. *)
Fixpoint build_curves (metadata_list : list pyval) (result : list ref)
  : M (list ref) :=
  match metadata_list with
  | [] => ret result
  | metadata :: rest =>
      let! c := _build_curve metadata in
      build_curves rest (result ++ [c])
  end.

Definition handle_multi_curve_response (response : Response) : M (list ref) :=
  if response_ok response then
    let! metadata_list := lift (json_loads E (content response)) in
    let! items := lift (py_iter metadata_list) in
    build_curves items []
  else
    let! text := lift (decode E (content response)) in
    raise (MetadataException ("Curve search failed: " +:+ text)).

(** ** Session.get_curve *)
Definition get_curve (id : option Z) (name : option string) : M ref :=
  match id, name with
  | None, None => raise (MetadataException "No curve specified")
  | _, _ =>
      let! s := get_session in
      let id :=
        match id with
        | None =>
            (* [name in self._name_cache]; [None] is a key like any other *)
            match _name_cache s !! (match name with
                                    | Some n => KStr n
                                    | None => KNone
                                    end) with
            | Some i => Some i
            | None => None
            end
        | Some i => Some i
        end in
      match id ≫= (fun i => _curve_cache s !! i) with
      | Some c => ret c
      | None =>
          let arg := match id with
                     | Some i => "id=" +:+ pretty i
                     | None => "name=" +:+ match name with
                                           | Some n => n
                                           | None => "None"
                                           end
                     end in
          let! response :=
            data_request "GET" (Some (urlbase s)) ("/api/curves/get?" +:+ arg)
                         None None None RETRY_COUNT in
          handle_single_curve_response response
      end
  end.

(** ** Session.search *)

Definition _search_terms : list string :=
  ["query"; "id"; "name"; "commodity"; "category"; "area"; "station";
   "source"; "scenario"; "unit"; "time_zone"; "version"; "frequency";
   "data_type"; "curve_state"].

(** [hasattr(val, '__iter__') and not isinstance(val, str)] *)
Definition iterable_not_str (val : pyval) : bool :=
  match val with
  | PList _ | PDict _ => true
  | PStr _ | PNone | PBool _ | PInt _ => false
  end.

(** ['{}={}'.format(key, v)] *)
Definition format_pair (key : string) (v : pyval) : string :=
  key +:+ "=" +:+ py_str v.

(** The loop [for key, val in kwargs.items()], [args] being the list
    built so far. *)
Fixpoint search_args (kwargs : list (string * pyval)) (args : list string)
  : Result (list string) :=
  match kwargs with
  | [] => Ok args
  | (key, val) :: rest =>
      if bool_decide (key ∈ _search_terms) then
        if iterable_not_str val then
          match py_iter val with
          | Ok vs => search_args rest (args ++ (format_pair key <$> vs))
          | Raise e => Raise e
          end
        else search_args rest (args ++ [format_pair key val])
      else Raise (MetadataException ("Illegal search parameter " +:+ key))
  end.

(** [astr]: empty, or ["?"] and the arguments joined by ["&"]. *)
Definition search_astr (args : list string) : string :=
  match args with
  | [] => ""
  | _ => "?" +:+ String.concat "&" args
  end.

Definition search (kwargs : list (string * pyval)) : M (list ref) :=
  let! args := lift (search_args kwargs []) in
  let! s := get_session in
  let! response :=
    data_request "GET" (Some (urlbase s)) ("/api/curves" +:+ search_astr args)
                 None None None RETRY_COUNT in
  handle_multi_curve_response response.

(** ** Session.make_curve *)
Definition make_curve (id : Z) (curve_type : pyval) : M ref :=
  let! found := lift (curve_types_find curve_type) in
  match found with
  | Some cls => alloc (mkCurve cls id None)
  | None => raise (CurveException "Bad curve type requested")
  end.

(** ** Session.get_attribute *)

Definition _attributes : list string :=
  ["commodities"; "categories"; "areas"; "stations"; "sources"; "scenarios";
   "units"; "time_zones"; "versions"; "frequencies"; "data_types";
   "curve_states"; "curve_types"].

(** The answer is the parsed body, or Python's [None] for 204. *)
Definition get_attribute (attribute : string) : M pyval :=
  if bool_decide (attribute ∈ _attributes) then
    let! s := get_session in
    let! response :=
      data_request "GET" (Some (urlbase s)) ("/api/" +:+ attribute)
                   None None None RETRY_COUNT in
    if bool_decide (status_code response = 200) then
      lift (json_loads E (content response))
    else if bool_decide (status_code response = 204) then ret PNone
    else
      let! text := lift (decode E (content response)) in
      raise (MetadataException ("Failed loading " +:+ attribute +:+ ": "
                                +:+ text))
  else raise (MetadataException ("Attribute " +:+ attribute +:+ " is not valid")).

(** ** The operations of a Session, as the steps of its life *)

Inductive Op : Type :=
  | OpReadConfigFile (config_file : ConfigSource)
  | OpConfigure (cid secret : string) (aub : option string)
  | OpGetCurve (id : option Z) (name : option string)
  | OpSearch (kwargs : list (string * pyval))
  | OpMakeCurve (id : Z) (curve_type : pyval)
  | OpGetAttribute (attribute : string)
  | OpBuildCurve (metadata : pyval)
  | OpDataRequest (req_type : string) (ub : option string) (url : string)
      (data : option ReqData) (rawdata : option string)
      (authval : option (string * string)) (retries : Z)
  | OpHandleSingle (response : Response)
  | OpHandleMulti (response : Response).

Inductive Value : Type :=
  | VNone
  | VCurve (c : ref)
  | VCurves (cs : list ref)
  | VJson (v : pyval)
  | VResponse (r : Response).

Definition fmapM {A B} (f : A -> B) (c : M A) : M B :=
  let! a := c in ret (f a).

Definition run_op (op : Op) : M Value :=
  match op with
  | OpReadConfigFile f => fmapM (fun _ => VNone) (read_config_file f)
  | OpConfigure cid secret aub => fmapM (fun _ => VNone) (configure cid secret aub)
  | OpGetCurve id name => fmapM VCurve (get_curve id name)
  | OpSearch kwargs => fmapM VCurves (search kwargs)
  | OpMakeCurve id ct => fmapM VCurve (make_curve id ct)
  | OpGetAttribute a => fmapM VJson (get_attribute a)
  | OpBuildCurve md => fmapM VCurve (_build_curve md)
  | OpDataRequest t ub url d rd av n =>
      fmapM VResponse (data_request t ub url d rd av n)
  | OpHandleSingle r => fmapM VCurve (handle_single_curve_response r)
  | OpHandleMulti r => fmapM VCurves (handle_multi_curve_response r)
  end.

(** A caller that goes on after an exception: every operation is run, and
    its outcome noted. *)
Fixpoint run_ops (ops : list Op) (m : Machine) : list (Result Value) * Machine :=
  match ops with
  | [] => ([], m)
  | op :: ops' =>
      let '(r, m') := run_op op m in
      let '(rs, m'') := run_ops ops' m' in
      (r :: rs, m'')
  end.

Definition is_config_op (op : Op) : bool :=
  match op with
  | OpReadConfigFile _ | OpConfigure _ _ _ => true
  | _ => false
  end.

(** The values [auth] takes along a run, the starting one first. *)
Fixpoint auth_trace (ops : list Op) (m : Machine) : list (option OAuth) :=
  auth (session m) ::
  match ops with
  | [] => []
  | op :: ops' => auth_trace ops' (run_op op m).2
  end.

(** How often a list of [auth] values steps from absent to present. *)
Fixpoint absent_to_present (l : list (option OAuth)) : nat :=
  match l with
  | [] => 0%nat
  | a :: t =>
      match a, t with
      | None, Some _ :: _ => S (absent_to_present t)
      | _, _ => absent_to_present t
      end
  end.

(** ** Vocabulary of the statements *)

(** [c] keeps a property of the Session, whatever it returns or raises. *)
Definition keeps {A} (Q : Session -> Prop) (c : M A) : Prop :=
  forall m r m', c m = (r, m') -> Q (session m) -> Q (session m').

(** The machine once the new curve is built and entered in
    [_curve_cache], and once its name is entered too. *)
Definition with_curve (m : Machine) (cls : CurveClass) (i : Z) (md : pyval)
  : Machine :=
  mkMachine (set_curve_cache i (length (heap m)) (session m))
            (heap m ++ [mkCurve cls i (Some md)])
            (sent m) (validations m) (sleeps m).

Definition with_name (m : Machine) (k : pykey) (i : Z) : Machine :=
  mkMachine (set_name_cache k i (session m)) (heap m)
            (sent m) (validations m) (sleeps m).

Definition already_done : PyExc :=
  ConfigException "Session configuration is already done".

(** The base a call resolves its path against. *)
Definition effective_urlbase (ub : option string) (s : Session) : string :=
  match ub with
  | None => urlbase s
  | Some u => if decide (u = "") then urlbase s else u
  end.

(** The provider validates whenever it is asked. *)
Definition auth_validates (s : Session) : Prop :=
  forall k a, auth s = Some a -> validate_auth E k a = Ok tt.

(** A record has a key when its dict binds it. *)
Definition has_key (d : list (string * pyval)) (key : string) : Prop :=
  is_Some (dict_of_pairs d !! key).

Definition missing_key_error (key : string) : PyExc :=
  MetadataException ("Mandatory key " +:+ key +:+ " not found in metadata").

Definition unknown_curve_type (ct : pyval) : PyExc :=
  CurveException ("Unknown curve type (" +:+ py_str ct +:+ ")").

(** Every id [_name_cache] gives is a key of [_curve_cache]. *)
Definition cache_consistent (s : Session) : Prop :=
  forall k i, _name_cache s !! k = Some i -> is_Some (_curve_cache s !! i).

(** The elements of a criterion that is iterable and not text. *)
Definition iter_elements (val : pyval) : list pyval :=
  match val with
  | PList l => l
  | PDict d => PStr <$> dict_keys d
  | PStr _ | PNone | PBool _ | PInt _ => []
  end.

(** The pairs as the specification words them: a criterion that is
    iterable and not text gives one [key=value] pair per element, in the
    order of the elements; any other gives a single pair; the criteria are
    taken in their order. *)
Definition spec_query_pairs (kwargs : list (string * pyval)) : list string :=
  concat ((fun kv => if iterable_not_str kv.2
                     then format_pair kv.1 <$> iter_elements kv.2
                     else [format_pair kv.1 kv.2]) <$> kwargs).

Definition allowed_keys (kwargs : list (string * pyval)) : Prop :=
  Forall (fun kv => fst kv ∈ _search_terms) kwargs.

Definition illegal_search_parameter (key : string) : PyExc :=
  MetadataException ("Illegal search parameter " +:+ key).

(** The call [search] makes once its criteria are accepted. *)
Definition search_request (kwargs : list (string * pyval)) : M (list ref) :=
  let! s := get_session in
  let! response :=
    data_request "GET" (Some (urlbase s))
      ("/api/curves" +:+ search_astr (spec_query_pairs kwargs))
      None None None RETRY_COUNT in
  handle_multi_curve_response response.

(** ** Session.__init__ *)

(** The constructor, run on the machine the new Session lives in: the
    four fields are set first, then the Session is configured from the
    file when one is given, from the credentials when both are given and
    no file is, and last an explicit [urlbase] is applied. *)
Definition __init__ (ub : option string) (config_file : option ConfigSource)
    (cid secret aub : option string) : M unit :=
  let! _ := modify_session (fun _ => new_session) in
  let! _ :=
    match config_file with
    | Some f => read_config_file f
    | None =>
        match cid, secret with
        | Some c, Some s => configure c s aub
        | _, _ => ret tt
        end
    end in
  match ub with
  | Some u => modify_session (set_urlbase u)
  | None => ret tt
  end.

(** ** What a call of data_request sends *)

(** [databytes]: the text of [data], its JSON, or else [rawdata]. *)
Definition request_data (data : option ReqData) (rawdata : option string)
  : option string :=
  match data with
  | Some (DataStr t) => Some t
  | Some (DataJson v) => Some (json_dumps E v)
  | None => rawdata
  end.

(** [headers] before the provider's are merged in. *)
Definition base_headers (data : option ReqData) : gmap string string :=
  match data with
  | Some _ => <["content_type" := "application/json"]> ∅
  | None => ∅
  end.

(** The request of an attempt made after [v] validations. *)
Definition request_of (t : string) (ub : option string) (url : string)
    (data : option ReqData) (rawdata : option string)
    (authval : option (string * string)) (s : Session) (v : nat) : Request :=
  mkRequest t (urljoin E (effective_urlbase ub s) url)
    (request_data data rawdata)
    (match auth s with
     | Some a =>
         get_headers E (S v) a (request_data data rawdata) ∪ base_headers data
     | None => base_headers data
     end)
    authval.

Definition bump_validations (m : Machine) : Machine :=
  mkMachine (session m) (heap m) (sent m) (S (validations m)) (sleeps m).

Definition record_sent (req : Request) (res : Result Response) (m : Machine)
  : Machine :=
  mkMachine (session m) (heap m) (sent m ++ [(req, res)])
            (validations m) (sleeps m).

(** [m1] is [m] after an attempt that reached the transport. *)
Definition attempted (t : string) (ub : option string) (url : string)
    (d : option ReqData) (rd : option string) (av : option (string * string))
    (m m1 : Machine) (req : Request) (r0 : Result Response) : Prop :=
  session m1 = session m /\ heap m1 = heap m
  /\ sent m1 = (sent m ++ [(req, r0)])%list
  /\ sleeps m1 = sleeps m
  /\ r0 = transport E (length (sent m)) req
  /\ req = request_of t ub url d rd av (session m) (validations m)
  /\ (auth (session m) = None -> validations m1 = validations m)
  /\ (forall a, auth (session m) = Some a -> validations m1 = S (validations m)).

(** The answer asks for a retry. *)
Definition retried (e : Request * Result Response) : Prop :=
  exists res, e.2 = Ok res /\ retry_status res = true.

(** What one call adds to the machine. *)
Record call_log (t : string) (ub : option string) (url : string)
    (d : option ReqData) (rd : option string) (av : option (string * string))
    (n : nat) (m : Machine) (r : Result Response) (m' : Machine)
    (new : list (Request * Result Response)) : Prop := mkCallLog {
  log_sent : sent m' = (sent m ++ new)%list;
  log_session : session m' = session m;
  log_heap : heap m' = heap m;
  log_bound : (length new <= S n)%nat;
  log_sleeps : (sleeps m <= sleeps m' <= sleeps m + n)%nat;
  log_sleeps_sent : (sleeps m' - sleeps m <= length new)%nat;
  log_sleeps_ok :
    forall res, r = Ok res -> (sleeps m' + 1 = sleeps m + length new)%nat;
  log_answers :
    forall i e, new !! i = Some e ->
      e.2 = transport E (length (sent m) + i) e.1;
  log_requests :
    forall i e, new !! i = Some e ->
      exists v, (validations m <= v)%nat
                /\ e.1 = request_of t ub url d rd av (session m) v;
  log_retried :
    forall i e, new !! i = Some e -> (S i < length new)%nat -> retried e;
  log_validations_none :
    auth (session m) = None -> validations m' = validations m;
  log_validations_some :
    forall a, auth (session m) = Some a ->
      (validations m + length new <= validations m'
       <= validations m + length new + 1)%nat
      /\ (forall res, r = Ok res ->
            validations m' = (validations m + length new)%nat)
}.

(** ['id={}'] or ['name={}'] of [get_curve], [id] being the id after the
    name was looked up. *)
Definition curve_query (id : option Z) (name : option string) : string :=
  match id with
  | Some i => "id=" +:+ pretty i
  | None => "name=" +:+ match name with
                        | Some n => n
                        | None => "None"
                        end
  end.

(** ** Properties of the whole machine *)

(** [c] keeps a property of the machine, whatever it returns or raises. *)
Definition preserves {A} (P : Machine -> Prop) (c : M A) : Prop :=
  forall m r m', c m = (r, m') -> P m -> P m'.

(** The curve is what [_build_curve] makes of a metadata record for the
    id [i]: it holds the record, a dict with the five mandatory keys
    whose id [int] converts to [i], and is of the class registered for
    the record's curve type. *)
Definition built_from_record (obj : Curve) (i : Z) : Prop :=
  exists d id_val ct,
    curve_metadata obj = Some (PDict d)
    /\ (forall key, key ∈ _meta_keys -> has_key d key)
    /\ dict_of_pairs d !! "id" = Some id_val
    /\ py_int id_val = Ok i
    /\ curve_id obj = i
    /\ dict_of_pairs d !! "curve_type" = Some ct
    /\ curve_types_find ct = Ok (Some (curve_class obj)).

(** Every cached reference designates an object, and that object was
    built from a record for the id it is cached under. *)
Definition cache_wellformed (m : Machine) : Prop :=
  forall i c, _curve_cache (session m) !! i = Some c ->
    exists obj, heap m !! c = Some obj /\ built_from_record obj i.

(** Nothing [m0] held is lost in [m]: the objects are there unchanged,
    the keys of both caches are still keys, and what was sent is still
    on record. *)
Definition extends (m0 m : Machine) : Prop :=
  heap m0 `prefix_of` heap m
  /\ sent m0 `prefix_of` sent m
  /\ dom (_curve_cache (session m0)) ⊆ dom (_curve_cache (session m))
  /\ dom (_name_cache (session m0)) ⊆ dom (_name_cache (session m))
  /\ (validations m0 <= validations m)%nat
  /\ (sleeps m0 <= sleeps m)%nat.

(** A property of the machine that every elementary step of the
    Session keeps: more traffic, a new object, a new curve cached for a
    record, a name entered for a cached id, a new urlbase, a provider. *)
Record step_closed (P : Machine -> Prop) : Prop := mkStepClosed {
  sc_traffic :
    forall m s v sl,
      sent m `prefix_of` s -> (validations m <= v)%nat -> (sleeps m <= sl)%nat ->
      P m -> P (mkMachine (session m) (heap m) s v sl);
  sc_alloc :
    forall m c,
      P m -> P (mkMachine (session m) (heap m ++ [c]) (sent m)
                          (validations m) (sleeps m));
  sc_curve :
    forall m cls i md,
      built_from_record (mkCurve cls i (Some md)) i ->
      P m -> P (with_curve m cls i md);
  sc_name :
    forall m k i,
      is_Some (_curve_cache (session m) !! i) -> P m -> P (with_name m k i);
  sc_urlbase :
    forall m u,
      P m -> P (mkMachine (set_urlbase u (session m)) (heap m) (sent m)
                          (validations m) (sleeps m));
  sc_auth :
    forall m a,
      P m -> P (mkMachine (set_auth a (session m)) (heap m) (sent m)
                          (validations m) (sleeps m))
}.

(** The id [get_curve] goes on with: the one given, or else the one
    [_name_cache] has for the name. *)
Definition resolved_id (id : option Z) (name : option string) (s : Session)
  : option Z :=
  match id with
  | Some i => Some i
  | None => name ≫= (fun n => _name_cache s !! KStr n)
  end.

(** What the handlers raise for an answer they turn down, [text] being
    the decoded body. *)
Definition failed_to_load (text : string) : PyExc :=
  MetadataException ("Failed to load curve: " +:+ text).

Definition search_failed (text : string) : PyExc :=
  MetadataException ("Curve search failed: " +:+ text).

Definition is_error_status (response : Response) : Prop :=
  400 <= status_code response < 600.

(** * Properties *)

(** ** What an operation may do to the Session *)

Lemma keeps_ret {A} Q (a : A) : keeps Q (ret a).
Proof. intros m r m' [= _ <-]. done. Qed.

Lemma keeps_raise {A} Q e : keeps Q (@raise A e).
Proof. intros m r m' [= _ <-]. done. Qed.

Lemma keeps_lift {A} Q (x : Result A) : keeps Q (lift x).
Proof. intros m r m' [= _ <-]. done. Qed.

Lemma keeps_get_session Q : keeps Q get_session.
Proof. intros m r m' [= _ <-]. done. Qed.

Lemma keeps_bind {A B} Q (c : M A) (k : A -> M B) :
  keeps Q c -> (forall a, keeps Q (k a)) -> keeps Q (bind c k).
Proof.
  intros Hc Hk m r m' Hrun HQ. unfold bind in Hrun.
  destruct (c m) as [[a|e] m1] eqn:Hcm.
  - eapply Hk; [exact Hrun|]. eapply Hc; eauto.
  - injection Hrun as _ <-. eapply Hc; eauto.
Qed.

Lemma keeps_modify Q f :
  (forall s, Q s -> Q (f s)) -> keeps Q (modify_session f).
Proof. intros Hf m r m' [= _ <-]. cbn. auto. Qed.

Lemma keeps_alloc Q c : keeps Q (alloc c).
Proof. intros m r m' [= _ <-]. done. Qed.

Lemma keeps_send Q req : keeps Q (send req).
Proof. intros m r m' [= _ <-]. done. Qed.

Lemma keeps_validate Q a : keeps Q (call_validate_auth a).
Proof. intros m r m' [= _ <-]. done. Qed.

Lemma keeps_headers Q a d : keeps Q (call_get_headers a d).
Proof. intros m r m' [= _ <-]. done. Qed.

Lemma keeps_sleep Q : keeps Q sleep_retry_delay.
Proof. intros m r m' [= _ <-]. done. Qed.

Lemma keeps_fmapM {A B} Q (f : A -> B) (c : M A) :
  keeps Q c -> keeps Q (fmapM f c).
Proof. intros Hc. apply keeps_bind; [done|]. intros a. apply keeps_ret. Qed.

Create HintDb keeps.
#[local] Hint Resolve keeps_ret keeps_raise keeps_lift keeps_get_session
  keeps_alloc keeps_send keeps_validate keeps_headers keeps_sleep : keeps.

Ltac keeps_step :=
  first
    [ apply keeps_bind; [|intros ?]
    | apply keeps_fmapM
    | solve [auto with keeps] ].

Lemma keeps_attempt Q t ub url d rd av : keeps Q (attempt t ub url d rd av).
Proof.
  unfold attempt. apply keeps_bind; [auto with keeps|]. intros s.
  destruct d as [d|]; (apply keeps_bind; [|intros ?; auto with keeps]);
    (destruct (auth s); [|auto with keeps]);
    repeat keeps_step.
Qed.

Lemma keeps_data_request_rec Q t ub url d rd av n :
  keeps Q (data_request_rec t ub url d rd av n).
Proof.
  induction n as [|n IH]; cbn.
  - apply keeps_bind; [apply keeps_attempt|]. intros; auto with keeps.
  - apply keeps_bind; [apply keeps_attempt|]. intros res.
    destruct (retry_status res); [|auto with keeps].
    apply keeps_bind; [auto with keeps|]. intros _. exact IH.
Qed.

Lemma keeps_data_request Q t ub url d rd av n :
  keeps Q (data_request t ub url d rd av n).
Proof. apply keeps_data_request_rec. Qed.

(** ** The three ways [_build_curve] can end *)

#[local] Arguments curve_getattr : simpl never.

Lemma _build_curve_cases md m r m' :
  _build_curve md m = (r, m') ->
  (exists e, r = Raise e /\ m' = m) \/
  (exists cls i,
      (exists e, r = Raise e /\ m' = with_curve m cls i md) \/
      (exists k v, r = Ok (length (heap m))
                   /\ m' = with_name (with_curve m cls i md) k i
                   /\ curve_getattr (mkCurve cls i (Some md)) "name" = Ok v
                   /\ py_hash v = Ok k)).
Proof.
  unfold _build_curve, bind, lift, raise, ret, alloc, modify_session.
  intros H.
  destruct (check_meta_keys _meta_keys md); [|left; naive_solver].
  destruct (py_getitem md "id"); [|left; naive_solver].
  destruct (py_int _); [|left; naive_solver].
  destruct (py_getitem md "curve_type"); [|left; naive_solver].
  destruct (curve_types_find _) as [[cls|]|]; [|left; naive_solver..].
  right. exists cls, a1. cbn in H.
  rewrite list_lookup_middle in H by done. cbn in H.
  destruct (curve_getattr _ _) as [v|] eqn:Hattr; cbn in H;
    [|left; injection H as <- <-; by eexists].
  destruct (py_hash v) as [k|] eqn:Hk; cbn in H;
    [|left; injection H as <- <-; by eexists].
  right. exists k, v. by injection H as <- <-.
Qed.

Lemma keeps_build_curve Q md :
  (forall s i c, Q s -> Q (set_curve_cache i c s)) ->
  (forall s k i, Q s -> Q (set_name_cache k i s)) ->
  keeps Q (_build_curve md).
Proof.
  intros Hc Hn m r m' Hrun HQ.
  destruct (_build_curve_cases _ _ _ _ Hrun)
    as [(e & _ & ->)|(cls & i & [(e & _ & ->)|(k & v & _ & -> & _)])];
    cbn; auto.
Qed.

Lemma keeps_build_curves Q mds acc :
  (forall md, keeps Q (_build_curve md)) -> keeps Q (build_curves mds acc).
Proof.
  intros Hb. revert acc.
  induction mds as [|md mds IH]; intros acc; cbn; [auto with keeps|].
  apply keeps_bind; [apply Hb|]. intros c. apply IH.
Qed.

Lemma keeps_handle_single Q response :
  (forall md, keeps Q (_build_curve md)) ->
  keeps Q (handle_single_curve_response response).
Proof.
  intros Hb. unfold handle_single_curve_response.
  destruct (response_ok response); [|repeat keeps_step].
  apply keeps_bind; [auto with keeps|]. intros md. apply Hb.
Qed.

Lemma keeps_handle_multi Q response :
  (forall md, keeps Q (_build_curve md)) ->
  keeps Q (handle_multi_curve_response response).
Proof.
  intros Hb. unfold handle_multi_curve_response.
  destruct (response_ok response); [|repeat keeps_step].
  apply keeps_bind; [auto with keeps|]. intros mds.
  apply keeps_bind; [auto with keeps|]. intros items.
  by apply keeps_build_curves.
Qed.

Lemma keeps_get_curve Q id name :
  (forall md, keeps Q (_build_curve md)) -> keeps Q (get_curve id name).
Proof.
  intros Hb. unfold get_curve.
  destruct id as [i|], name as [n|]; try apply keeps_raise;
    (apply keeps_bind; [auto with keeps|]; intros s; cbn zeta;
     destruct (_ ≫= _); [auto with keeps|];
     apply keeps_bind; [apply keeps_data_request|]; intros resp;
     by apply keeps_handle_single).
Qed.

Lemma keeps_search Q kwargs :
  (forall md, keeps Q (_build_curve md)) -> keeps Q (search kwargs).
Proof.
  intros Hb. unfold search.
  apply keeps_bind; [auto with keeps|]. intros args.
  apply keeps_bind; [auto with keeps|]. intros s.
  apply keeps_bind; [apply keeps_data_request|]. intros resp.
  by apply keeps_handle_multi.
Qed.

Lemma keeps_make_curve Q id ct : keeps Q (make_curve id ct).
Proof.
  unfold make_curve. apply keeps_bind; [auto with keeps|].
  intros [cls|]; auto with keeps.
Qed.

Lemma keeps_get_attribute Q a : keeps Q (get_attribute a).
Proof.
  unfold get_attribute. case_bool_decide; [|auto with keeps].
  apply keeps_bind; [auto with keeps|]. intros s.
  apply keeps_bind; [apply keeps_data_request|]. intros resp.
  repeat case_bool_decide; repeat keeps_step.
Qed.

(** ** Configuration is done once *)

Lemma read_config_file_configured config_file m a :
  auth (session m) = Some a ->
  read_config_file config_file m = (Raise already_done, m).
Proof. intros Ha. unfold read_config_file, bind, get_session. by rewrite Ha. Qed.

Lemma configure_configured cid secret aub m a :
  auth (session m) = Some a ->
  configure cid secret aub m = (Raise already_done, m).
Proof. intros Ha. unfold configure, bind, get_session. by rewrite Ha. Qed.

Lemma run_op_config_configured op m a :
  is_config_op op = true ->
  auth (session m) = Some a ->
  run_op op m = (Raise already_done, m).
Proof.
  intros Hop Ha. destruct op; try discriminate; cbn; unfold fmapM, bind.
  - by rewrite (read_config_file_configured _ _ _ Ha).
  - by rewrite (configure_configured _ _ _ _ _ Ha).
Qed.

(** No operation changes an [auth] that is set. *)
Lemma run_op_keeps_auth op a :
  keeps (fun s => auth s = Some a) (run_op op).
Proof.
  assert (Hb : forall md, keeps (fun s => auth s = Some a) (_build_curve md))
    by (intros md; by apply keeps_build_curve).
  destruct op; cbn [run_op]; apply keeps_fmapM;
    auto using keeps_get_curve, keeps_search, keeps_make_curve,
      keeps_get_attribute, keeps_data_request, keeps_handle_single,
      keeps_handle_multi.
  - intros m r m' Hrun Ha.
    rewrite (read_config_file_configured _ _ _ Ha) in Hrun. by simplify_eq.
  - intros m r m' Hrun Ha.
    rewrite (configure_configured _ _ _ _ _ Ha) in Hrun. by simplify_eq.
Qed.

Lemma run_ops_keeps_auth ops m a :
  auth (session m) = Some a -> auth (session (run_ops ops m).2) = Some a.
Proof.
  revert m. induction ops as [|op ops IH]; intros m Ha; cbn; [done|].
  destruct (run_op op m) as [r m1] eqn:Hop.
  specialize (IH m1 (run_op_keeps_auth op a _ _ _ Hop Ha)).
  by destruct (run_ops ops m1).
Qed.

Lemma run_ops_config_raises ops m a i op :
  auth (session m) = Some a ->
  ops !! i = Some op -> is_config_op op = true ->
  (run_ops ops m).1 !! i = Some (Raise already_done).
Proof.
  revert m i. induction ops as [|op0 ops IH]; intros m i Ha Hi Hop; [done|].
  cbn. destruct (run_op op0 m) as [r m1] eqn:Hop0.
  pose proof (run_op_keeps_auth op0 a _ _ _ Hop0 Ha) as Ha1.
  specialize (IH m1). destruct (run_ops ops m1) as [rs m2]. cbn in *.
  destruct i as [|i]; cbn in *.
  - simplify_eq. rewrite (run_op_config_configured _ _ _ Hop Ha) in Hop0.
    by simplify_eq.
  - by apply IH.
Qed.

Lemma auth_trace_present ops m a :
  auth (session m) = Some a -> absent_to_present (auth_trace ops m) = 0%nat.
Proof.
  revert m. induction ops as [|op ops IH]; intros m Ha; cbn; rewrite Ha; [done|].
  apply IH. destruct (run_op op m) as [r m1] eqn:Hop.
  exact (run_op_keeps_auth op a _ _ _ Hop Ha).
Qed.

Lemma auth_trace_head ops m :
  exists t, auth_trace ops m = auth (session m) :: t.
Proof. destruct ops; cbn; eauto. Qed.

Lemma absent_to_present_le_1 ops m :
  (absent_to_present (auth_trace ops m) <= 1)%nat.
Proof.
  revert m. induction ops as [|op ops IH]; intros m; cbn.
  - destruct (auth (session m)); lia.
  - set (m1 := (run_op op m).2).
    destruct (auth_trace_head ops m1) as [t Ht].
    destruct (auth (session m)) as [a|] eqn:Ha.
    + rewrite (auth_trace_present ops m1 a); [lia|].
      subst m1. destruct (run_op op m) as [r m1] eqn:Hop.
      exact (run_op_keeps_auth op a _ _ _ Hop Ha).
    + rewrite Ht. destruct (auth (session m1)) as [a|] eqn:Ha1.
      * rewrite <- Ht. rewrite (auth_trace_present ops m1 a Ha1). lia.
      * rewrite <- Ht. apply IH.
Qed.

(** C1.  Once [auth] is set, every later [read_config_file] or
    [configure], in any order and among any other operations, raises
    ConfigException and [auth] stays what it was; along any run of
    operations [auth] steps from absent to present at most once. *)
Theorem C1_configured_once (ops : list Op) (m : Machine) (a : OAuth) :
  auth (session m) = Some a ->
  (forall config_file, read_config_file config_file m = (Raise already_done, m))
  /\ (forall cid secret aub, configure cid secret aub m = (Raise already_done, m))
  /\ auth (session (run_ops ops m).2) = Some a
  /\ (forall i op, ops !! i = Some op -> is_config_op op = true ->
         (run_ops ops m).1 !! i = Some (Raise already_done))
  /\ (forall ops' m0, (absent_to_present (auth_trace ops' m0) <= 1)%nat).
Proof.
  intros Ha. split_and!.
  - intros f. by eapply read_config_file_configured.
  - intros. by eapply configure_configured.
  - by apply run_ops_keeps_auth.
  - intros i op. by eapply run_ops_config_raises.
  - apply absent_to_present_le_1.
Qed.

(** ** data_request: attempts and retries *)

(** An attempt either stops in [validate_auth], before anything is sent,
    or makes exactly one call to the transport and ends as that call
    does.  Session and heap are as before in both cases. *)
Lemma attempt_cases t ub url d rd av m r m1 :
  attempt t ub url d rd av m = (r, m1) ->
  session m1 = session m /\ heap m1 = heap m /\
  ((exists e a, r = Raise e /\ auth (session m) = Some a
                /\ validate_auth E (validations m) a = Raise e
                /\ sent m1 = sent m)
   \/ (exists req, r = transport E (length (sent m)) req
                   /\ sent m1 = (sent m ++ [(req, r)])%list
                   /\ req_method req = t
                   /\ req_url req = urljoin E (effective_urlbase ub (session m)) url)).
Proof.
  unfold attempt, bind, get_session, call_validate_auth, call_get_headers,
    send, ret, effective_urlbase.
  intros H.
  destruct d as [dv|]; destruct (auth (session m)) as [a|] eqn:Ha; cbn in H;
    try destruct (validate_auth E (validations m) a) as [[]|e] eqn:Hv;
    cbn in H; simplify_eq; cbn; split_and!; try done;
    solve [ left; eauto 10 | right; eexists; split_and!; done ].
Qed.

Lemma data_request_rec_outcome t ub url d rd av n m r m' :
  data_request_rec t ub url d rd av n m = (r, m') ->
  session m' = session m /\ heap m' = heap m /\
  match r with
  | Ok res => exists req, last (sent m') = Some (req, Ok res)
  | Raise e =>
      (exists k a, auth (session m) = Some a /\ validate_auth E k a = Raise e)
      \/ (exists req, last (sent m') = Some (req, Raise e))
  end.
Proof.
  revert m. induction n as [|n IH]; intros m; cbn; unfold bind;
    destruct (attempt t ub url d rd av m) as [[res|e] m1] eqn:Hat;
    destruct (attempt_cases _ _ _ _ _ _ _ _ _ Hat)
      as (Hs & Hh & [(e' & a & ? & Ha & Hv & Hsent)|(req & Hr & Hsent & _)]);
    try discriminate.
  - intros [= <- <-]. split_and!; [done..|].
    exists req. by rewrite Hsent, last_snoc.
  - intros [= <- <-]. simplify_eq. split_and!; [done..|]. left; eauto.
  - intros [= <- <-]. split_and!; [done..|]. right.
    exists req. by rewrite Hsent, last_snoc.
  - destruct (retry_status res).
    + unfold sleep_retry_delay. intros Hrec.
      apply IH in Hrec as (Hs' & Hh' & Hout). cbn in *.
      split_and!; [congruence..|].
      destruct r; [done|]. by rewrite <- Hs.
    + intros [= <- <-]. split_and!; [done..|].
      exists req. by rewrite Hsent, last_snoc.
  - intros [= <- <-]. simplify_eq. split_and!; [done..|]. left; eauto.
  - intros [= <- <-]. split_and!; [done..|]. right.
    exists req. by rewrite Hsent, last_snoc.
Qed.

(** If the first [j] answers ask for a retry and answer [j] either does
    not or finds the budget spent, the call ends with answer [j], after
    [j + 1] calls to the transport and [j] delays. *)
Lemma data_request_rec_stops t ub url d rd av n j m :
  (j <= n)%nat ->
  auth_validates (session m) ->
  (forall k req, (k < j)%nat ->
     exists res, transport E (length (sent m) + k) req = Ok res
                 /\ retry_status res = true) ->
  (forall req, exists res, transport E (length (sent m) + j) req = Ok res
                 /\ (j = n \/ retry_status res = false)) ->
  exists res req m',
    data_request_rec t ub url d rd av n m = (Ok res, m')
    /\ transport E (length (sent m) + j) req = Ok res
    /\ req_url req = urljoin E (effective_urlbase ub (session m)) url
    /\ length (sent m') = (length (sent m) + j + 1)%nat
    /\ last (sent m') = Some (req, Ok res)
    /\ session m' = session m /\ heap m' = heap m
    /\ sleeps m' = (sleeps m + j)%nat.
Proof.
  revert j m. induction n as [|n IH]; intros j m Hj Hauth Hretry Hstop.
  - assert (j = 0)%nat as -> by lia. cbn. unfold bind.
    destruct (attempt t ub url d rd av m) as [r m1] eqn:Hat.
    destruct (attempt_cases _ _ _ _ _ _ _ _ _ Hat)
      as (Hs & Hh & [(e' & a & ? & Ha & Hv & Hsent)|(req & Hr & Hsent & _ & Hurl)]).
    { rewrite (Hauth _ _ Ha) in Hv. discriminate. }
    destruct (Hstop req) as (res & Htr & _).
    rewrite Nat.add_0_r in Htr. rewrite Htr in Hr. subst r.
    exists res, req, m1. rewrite Nat.add_0_r. split_and!; try done.
    + by rewrite Hsent, length_app; cbn.
    + by rewrite Hsent, last_snoc.
    + unfold attempt, bind, get_session, call_validate_auth, call_get_headers,
        send, ret in Hat.
      destruct d, (auth (session m)); cbn in Hat;
        try destruct (validate_auth _ _ _) as [[]|]; cbn in Hat; simplify_eq;
        cbn; lia.
  - cbn. unfold bind.
    destruct (attempt t ub url d rd av m) as [r m1] eqn:Hat.
    destruct (attempt_cases _ _ _ _ _ _ _ _ _ Hat)
      as (Hs & Hh & [(e' & a & ? & Ha & Hv & Hsent)|(req & Hr & Hsent & _ & Hurl)]).
    { rewrite (Hauth _ _ Ha) in Hv. discriminate. }
    assert (Hsl : sleeps m1 = sleeps m).
    { unfold attempt, bind, get_session, call_validate_auth, call_get_headers,
        send, ret in Hat.
      destruct d, (auth (session m)); cbn in Hat;
        try destruct (validate_auth _ _ _) as [[]|]; cbn in Hat; by simplify_eq. }
    destruct j as [|j].
    + destruct (Hstop req) as (res & Htr & [?|Hno]); [lia|].
      rewrite Nat.add_0_r in Htr. rewrite Htr in Hr. subst r. rewrite Hno.
      exists res, req, m1. rewrite Nat.add_0_r. split_and!; try done.
      * by rewrite Hsent, length_app; cbn.
      * by rewrite Hsent, last_snoc.
      * lia.
    + destruct (Hretry 0%nat req ltac:(lia)) as (res & Htr & Hyes).
      rewrite Nat.add_0_r in Htr. rewrite Htr in Hr. subst r. rewrite Hyes.
      unfold sleep_retry_delay.
      set (m2 := mkMachine _ _ _ _ _).
      assert (Hlen : length (sent m2) = S (length (sent m))).
      { subst m2. cbn. rewrite Hsent, length_app. cbn. lia. }
      destruct (IH j m2) as (res' & req' & m' & Hrun & Htr' & Hurl' & Hl & Hlast & Hs' & Hh' & Hsl').
      * lia.
      * subst m2. cbn. by rewrite Hs.
      * intros k rq Hk. rewrite Hlen.
        destruct (Hretry (S k) rq ltac:(lia)) as (x & Hx & Hx').
        exists x. split; [|done]. rewrite <- Hx. f_equal. lia.
      * intros rq. rewrite Hlen.
        destruct (Hstop rq) as (x & Hx & Hx').
        exists x. split; [rewrite <- Hx; f_equal; lia|].
        destruct Hx' as [?|?]; [left; lia|by right].
      * exists res', req', m'. split_and!; try done.
        -- rewrite <- Htr'. f_equal. lia.
        -- rewrite Hurl'. subst m2. cbn. by rewrite Hs.
        -- lia.
        -- subst m2. cbn in *. congruence.
        -- subst m2. cbn in *. congruence.
        -- subst m2. cbn in *. lia.
Qed.

(** Every attempt leaves a trace: a validation counted or a call
    recorded. *)
Lemma attempt_progress t ub url d rd av m r m1 :
  attempt t ub url d rd av m = (r, m1) ->
  (validations m + length (sent m) < validations m1 + length (sent m1))%nat
  /\ (validations m <= validations m1)%nat
  /\ (length (sent m) <= length (sent m1))%nat.
Proof.
  unfold attempt, bind, get_session, call_validate_auth, call_get_headers,
    send, ret.
  intros H.
  destruct d, (auth (session m)); cbn in H;
    try destruct (validate_auth _ _ _) as [[]|]; cbn in H; simplify_eq;
    cbn; rewrite ?length_app; cbn; lia.
Qed.

Lemma data_request_rec_progress t ub url d rd av n m r m' :
  data_request_rec t ub url d rd av n m = (r, m') ->
  (validations m + length (sent m) < validations m' + length (sent m'))%nat.
Proof.
  revert m. induction n as [|n IH]; intros m; cbn; unfold bind;
    destruct (attempt t ub url d rd av m) as [[res|e] m1] eqn:Hat;
    apply attempt_progress in Hat as (Hlt & Hv & Hs);
    try (intros [= <- <-]; lia).
  destruct (retry_status res); [|intros [= <- <-]; lia].
  unfold sleep_retry_delay. intros Hrec. apply IH in Hrec. cbn in Hrec. lia.
Qed.

Lemma retry_status_true res :
  retry_status res = true <->
  (500 <= status_code res < 600 \/ status_code res = 408).
Proof.
  unfold retry_status. rewrite orb_true_iff, !bool_decide_eq_true. tauto.
Qed.

Lemma retry_status_false res :
  retry_status res = false <->
  (~ 500 <= status_code res < 600) /\ status_code res <> 408.
Proof.
  unfold retry_status. rewrite orb_false_iff, !bool_decide_eq_false. tauto.
Qed.

(** C2.  With a provider that validates, a budget of [retries >= 0] and
    a transport that answers every attempt with a status in [500,600) or
    408, [data_request] calls the transport [retries + 1] times and
    returns the last answer.  With 503 for the first three attempts and
    200 for the fourth, a budget of 4 returns the 200 after 4 calls and a
    budget of 2 returns a 503 after 3 calls. *)
Theorem C2_retry_budget t ub url d rd av (retries : Z) (m : Machine) :
  0 <= retries ->
  auth_validates (session m) ->
  ((forall k req, (k <= Z.to_nat retries)%nat ->
      exists res, transport E (length (sent m) + k) req = Ok res
                  /\ (500 <= status_code res < 600 \/ status_code res = 408)) ->
   exists res req m',
     data_request t ub url d rd av retries m = (Ok res, m')
     /\ (500 <= status_code res < 600 \/ status_code res = 408)
     /\ length (sent m') = (length (sent m) + (Z.to_nat retries + 1))%nat
     /\ last (sent m') = Some (req, Ok res))
  /\
  ((forall k req, (k < 3)%nat ->
      exists res, transport E (length (sent m) + k) req = Ok res
                  /\ status_code res = 503) ->
   (forall req, exists res, transport E (length (sent m) + 3) req = Ok res
                  /\ status_code res = 200) ->
   (exists res req m',
      data_request t ub url d rd av 4 m = (Ok res, m')
      /\ status_code res = 200
      /\ length (sent m') = (length (sent m) + 4)%nat
      /\ last (sent m') = Some (req, Ok res))
   /\
   (exists res req m',
      data_request t ub url d rd av 2 m = (Ok res, m')
      /\ status_code res = 503
      /\ length (sent m') = (length (sent m) + 3)%nat
      /\ last (sent m') = Some (req, Ok res))).
Proof.
  intros Hn Hauth. split.
  - intros Hall. unfold data_request.
    destruct (data_request_rec_stops t ub url d rd av
                (Z.to_nat retries) (Z.to_nat retries) m)
      as (res & req & m' & Hrun & Htr & _ & Hlen & Hlast & _); [lia|done|..].
    + intros k rq Hk. destruct (Hall k rq ltac:(lia)) as (x & ? & Hx).
      exists x. by rewrite retry_status_true.
    + intros rq. destruct (Hall (Z.to_nat retries) rq ltac:(lia)) as (x & ? & _).
      exists x. auto.
    + exists res, req, m'. split_and!; try done; [|lia].
      destruct (Hall (Z.to_nat retries) req ltac:(lia)) as (x & Hx & Hst).
      congruence.
  - intros H503 H200. split.
    + destruct (data_request_rec_stops t ub url d rd av 4 3 m)
        as (res & req & m' & Hrun & Htr & _ & Hlen & Hlast & _); [lia|done|..].
      * intros k rq Hk. destruct (H503 k rq Hk) as (x & ? & Hx).
        exists x. rewrite retry_status_true. split; [done|lia].
      * intros rq. destruct (H200 rq) as (x & ? & Hx).
        exists x. rewrite retry_status_false. split; [done|right; lia].
      * exists res, req, m'. split_and!; try done; [|lia].
        destruct (H200 req) as (x & Hx & Hst). congruence.
    + destruct (data_request_rec_stops t ub url d rd av 2 2 m)
        as (res & req & m' & Hrun & Htr & _ & Hlen & Hlast & _); [lia|done|..].
      * intros k rq Hk. destruct (H503 k rq ltac:(lia)) as (x & ? & Hx).
        exists x. rewrite retry_status_true. split; [done|lia].
      * intros rq. destruct (H503 2%nat rq ltac:(lia)) as (x & ? & Hx).
        exists x. auto.
      * exists res, req, m'. split_and!; try done; [|lia].
        destruct (H503 2%nat req ltac:(lia)) as (x & Hx & Hst). congruence.
Qed.

(** C3.  With a provider that validates, the first answer whose status
    is neither 408 nor in [500,600) is returned as it is and is the last
    call made to the transport; and whatever the statuses, a call that
    raises raises what [validate_auth] or the transport itself raised,
    while a call that returns returns the last answer of the transport
    (so a 4xx, or a 5xx that finds the budget spent, is returned). *)
Theorem C3_status_never_raises t ub url d rd av (retries : Z) (m : Machine) :
  (forall j, (j <= Z.to_nat retries)%nat ->
     auth_validates (session m) ->
     (forall k req, (k < j)%nat ->
        exists res, transport E (length (sent m) + k) req = Ok res
                    /\ (500 <= status_code res < 600 \/ status_code res = 408)) ->
     (forall req, exists res, transport E (length (sent m) + j) req = Ok res
                    /\ (~ 500 <= status_code res < 600)
                    /\ status_code res <> 408) ->
     exists res req m',
       data_request t ub url d rd av retries m = (Ok res, m')
       /\ transport E (length (sent m) + j) req = Ok res
       /\ length (sent m') = (length (sent m) + j + 1)%nat
       /\ last (sent m') = Some (req, Ok res))
  /\
  (forall r m',
     data_request t ub url d rd av retries m = (r, m') ->
     match r with
     | Ok res => exists req, last (sent m') = Some (req, Ok res)
     | Raise e =>
         (exists k a, auth (session m) = Some a /\ validate_auth E k a = Raise e)
         \/ (exists req, last (sent m') = Some (req, Raise e))
     end).
Proof.
  split.
  - intros j Hj Hauth Hretry Hstop. unfold data_request.
    destruct (data_request_rec_stops t ub url d rd av (Z.to_nat retries) j m)
      as (res & req & m' & Hrun & Htr & _ & Hlen & Hlast & _); [done..| | |].
    + intros k rq Hk. destruct (Hretry k rq Hk) as (x & ? & Hx).
      exists x. by rewrite retry_status_true.
    + intros rq. destruct (Hstop rq) as (x & ? & Hx).
      exists x. rewrite retry_status_false. auto.
    + exists res, req, m'. by split_and!.
  - intros r m' Hrun. unfold data_request in Hrun.
    by apply data_request_rec_outcome in Hrun as (_ & _ & ?).
Qed.

(** ** _build_curve on metadata records *)

Lemma check_meta_keys_ok keys d :
  (forall key, key ∈ keys -> has_key d key) ->
  check_meta_keys keys (PDict d) = Ok tt.
Proof.
  induction keys as [|key keys IH]; intros Hall; cbn; [done|].
  rewrite bool_decide_eq_true_2 by (apply Hall; left).
  apply IH. intros k Hk. apply Hall. by right.
Qed.

Lemma check_meta_keys_missing keys d :
  (exists key, key ∈ keys /\ ~ has_key d key) ->
  exists key, key ∈ keys /\ ~ has_key d key
              /\ check_meta_keys keys (PDict d) = Raise (missing_key_error key).
Proof.
  induction keys as [|key keys IH]; intros (k & Hk & Hno).
  - by apply elem_of_nil in Hk.
  - cbn. destruct (decide (has_key d key)) as [Hyes|Hmiss].
    + rewrite bool_decide_eq_true_2 by done.
      destruct IH as (k' & Hk' & Hno' & Hrun).
      * apply elem_of_cons in Hk as [->|Hk]; [done|eauto].
      * exists k'. split_and!; [by right|done..].
    + rewrite bool_decide_eq_false_2 by done.
      exists key. split_and!; [by left|done..].
Qed.

Lemma heap_lookup_new (h : list Curve) (c : Curve) :
  (h ++ [c])%list !! length h = Some c.
Proof. by apply list_lookup_middle. Qed.

Lemma _build_curve_ok d m id_val n ct cls name k :
  (forall key, key ∈ _meta_keys -> has_key d key) ->
  dict_of_pairs d !! "id" = Some id_val -> py_int id_val = Ok n ->
  dict_of_pairs d !! "curve_type" = Some ct ->
  curve_types_find ct = Ok (Some cls) ->
  dict_of_pairs d !! "name" = Some name -> py_hash name = Ok k ->
  _build_curve (PDict d) m
  = (Ok (length (heap m)), with_name (with_curve m cls n (PDict d)) k n).
Proof.
  intros Hkeys Hid Hint Hct Hfind Hname Hhash.
  unfold _build_curve, bind, lift, alloc, modify_session, ret.
  rewrite (check_meta_keys_ok _ _ Hkeys). cbn.
  rewrite Hid, Hint, Hct, Hfind. cbn.
  rewrite heap_lookup_new. unfold curve_getattr. cbn.
  by rewrite Hname, Hhash.
Qed.

Lemma _curve_types_lookup tag :
  is_Some (_curve_types !! tag) <->
  tag ∈ [TIME_SERIES E; TAGGED E; INSTANCES E; TAGGED_INSTANCES E].
Proof.
  unfold _curve_types.
  rewrite !lookup_insert, lookup_empty, !elem_of_cons, elem_of_nil.
  repeat case_decide; split;
    first [ by intros [? [=]] | intros _; by eauto | intros; exfalso; intuition congruence
          | intros _; subst; tauto ].
Qed.

Lemma _curve_types_registered tag cls :
  NoDup [TIME_SERIES E; TAGGED E; INSTANCES E; TAGGED_INSTANCES E] ->
  (tag, cls) ∈ [(TIME_SERIES E, TimeSeriesCurve); (TAGGED E, TaggedCurve);
                (INSTANCES E, InstanceCurve);
                (TAGGED_INSTANCES E, TaggedInstanceCurve)] ->
  _curve_types !! tag = Some cls.
Proof.
  intros Hnd Hin. unfold _curve_types.
  apply NoDup_cons in Hnd as [H1 Hnd]. apply NoDup_cons in Hnd as [H2 Hnd].
  apply NoDup_cons in Hnd as [H3 _].
  repeat match goal with
         | H : _ ∉ _ :: _ |- _ => apply not_elem_of_cons in H as [? ?]
         end.
  rewrite !elem_of_cons, elem_of_nil in Hin.
  rewrite !lookup_insert.
  destruct Hin as [[= -> ->]|[[= -> ->]|[[= -> ->]|[[= -> ->]|[]]]]];
    repeat case_decide; try done; exfalso; intuition congruence.
Qed.

(** C4.  A metadata record with the five mandatory keys, an id that
    [int] converts and one of the four registered tags as its curve type
    (the four tag constants being distinct, and the name hashable, as
    the text it is in the data model) yields a new curve of the variant
    registered for the tag: TimeSeriesCurve for TIME_SERIES, TaggedCurve
    for TAGGED, InstanceCurve for INSTANCES, TaggedInstanceCurve for
    TAGGED_INSTANCES.  The curve has the converted id; afterwards
    [_curve_cache[id]] is that curve and [_name_cache[name]] is the id.
    So for the record of the example, when [int("42")] is 42 and
    TIME_SERIES differs from the other three tags. *)
Theorem C4_build_curve_caches (d : list (string * pyval)) (m : Machine)
    (id_val name : pyval) (n : Z) (tag : string) (cls : CurveClass)
    (k : pykey) :
  NoDup [TIME_SERIES E; TAGGED E; INSTANCES E; TAGGED_INSTANCES E] ->
  (forall key, key ∈ _meta_keys -> has_key d key) ->
  dict_of_pairs d !! "id" = Some id_val -> py_int id_val = Ok n ->
  dict_of_pairs d !! "curve_type" = Some (PStr tag) ->
  (tag, cls) ∈ [(TIME_SERIES E, TimeSeriesCurve); (TAGGED E, TaggedCurve);
                (INSTANCES E, InstanceCurve);
                (TAGGED_INSTANCES E, TaggedInstanceCurve)] ->
  dict_of_pairs d !! "name" = Some name -> py_hash name = Ok k ->
  (exists c m',
     _build_curve (PDict d) m = (Ok c, m')
     /\ heap m !! c = None
     /\ heap m' !! c = Some (mkCurve cls n (Some (PDict d)))
     /\ _curve_cache (session m') !! n = Some c
     /\ _name_cache (session m') !! k = Some n)
  /\
  (int_of_str E "42" = Some 42 ->
   exists c m',
     _build_curve
       (PDict [("id", PStr "42"); ("name", PStr "Oslo Temp");
               ("frequency", PStr "H"); ("time_zone", PStr "CET");
               ("curve_type", PStr (TIME_SERIES E))]) m = (Ok c, m')
     /\ (exists md, heap m' !! c = Some (mkCurve TimeSeriesCurve 42 md))
     /\ _curve_cache (session m') !! 42 = Some c
     /\ _name_cache (session m') !! KStr "Oslo Temp" = Some 42).
Proof.
  intros Hnd Hkeys Hid Hint Hct Hreg Hname Hhash.
  assert (Hfind : curve_types_find (PStr tag) = Ok (Some cls)).
  { cbn. by rewrite (_curve_types_registered _ _ Hnd Hreg). }
  split.
  - eexists _, _. split; [by eapply _build_curve_ok|]. cbn. split_and!.
    + by apply lookup_ge_None_2.
    + apply heap_lookup_new.
    + apply lookup_insert_eq.
    + apply lookup_insert_eq.
  - intros H42. eexists _, _. split.
    + eapply (_build_curve_ok _ _ (PStr "42") 42 (PStr (TIME_SERIES E))
                TimeSeriesCurve (PStr "Oslo Temp") (KStr "Oslo Temp")).
      * intros key Hkey. unfold has_key, _meta_keys in *.
        repeat (apply elem_of_cons in Hkey as [->|Hkey]; [by vm_compute; eauto|]).
        by apply elem_of_nil in Hkey.
      * by vm_compute.
      * cbn. by rewrite H42.
      * by vm_compute.
      * cbn. rewrite (_curve_types_registered (TIME_SERIES E) TimeSeriesCurve);
          [done|done|constructor].
      * by vm_compute.
      * done.
    + cbn. split_and!.
      * eexists. apply heap_lookup_new.
      * apply lookup_insert_eq.
      * apply lookup_insert_eq.
Qed.

Lemma curve_types_find_unknown ct k :
  py_hash ct = Ok k ->
  (forall tag, tag ∈ [TIME_SERIES E; TAGGED E; INSTANCES E; TAGGED_INSTANCES E] ->
               k <> KStr tag) ->
  curve_types_find ct = Ok None.
Proof.
  intros Hk Hno. unfold curve_types_find. rewrite Hk.
  destruct k as [| |t]; try done.
  destruct (_curve_types !! t) eqn:Hl; [|done].
  exfalso. apply (Hno t); [|done]. apply _curve_types_lookup. eauto.
Qed.

(** C5.  A record that lacks one of the mandatory keys raises
    MetadataException, its message naming the first key that is
    missing; a record with all of them, an id that [int] converts and a
    curve type (a hashable value, as a tag is) that is none of the four
    registered raises CurveException.  The machine, and with it both
    caches, is as before in either case. *)
Theorem C5_build_curve_errors (d : list (string * pyval)) (m : Machine) :
  ((exists key, key ∈ _meta_keys /\ ~ has_key d key) ->
   exists key, key ∈ _meta_keys /\ ~ has_key d key
     /\ _build_curve (PDict d) m = (Raise (missing_key_error key), m))
  /\
  (forall id_val n ct k,
     (forall key, key ∈ _meta_keys -> has_key d key) ->
     dict_of_pairs d !! "id" = Some id_val -> py_int id_val = Ok n ->
     dict_of_pairs d !! "curve_type" = Some ct ->
     py_hash ct = Ok k ->
     (forall tag,
        tag ∈ [TIME_SERIES E; TAGGED E; INSTANCES E; TAGGED_INSTANCES E] ->
        k <> KStr tag) ->
     _build_curve (PDict d) m = (Raise (unknown_curve_type ct), m)
     /\ is_curve_error (unknown_curve_type ct) = true).
Proof.
  split.
  - intros Hmiss.
    destruct (check_meta_keys_missing _ _ Hmiss) as (key & Hin & Hno & Hrun).
    exists key. split_and!; [done..|].
    unfold _build_curve, bind, lift. by rewrite Hrun.
  - intros id_val n ct k Hkeys Hid Hint Hct Hk Hno. split; [|done].
    unfold _build_curve, bind, lift, raise.
    rewrite (check_meta_keys_ok _ _ Hkeys). cbn.
    rewrite Hid, Hint, Hct. by rewrite (curve_types_find_unknown _ _ Hk Hno).
Qed.

Lemma py_int_error v e :
  py_int v = Raise e -> is_metadata_error e = false.
Proof.
  destruct v as [|b|z|s|l|d0]; cbn; try (by intros [= <-]).
  destruct (int_of_str E s); by intros [= <-].
Qed.

(** C6 (as amended).  A record with the five mandatory keys whose id
    [int] does not convert raises what [int] raises, a ValueError or a
    TypeError and not a MetadataException, and leaves the machine, and
    with it both caches, as before. *)
Theorem C6_id_not_convertible (d : list (string * pyval)) (m : Machine)
    (id_val : pyval) (e : PyExc) :
  (forall key, key ∈ _meta_keys -> has_key d key) ->
  dict_of_pairs d !! "id" = Some id_val ->
  py_int id_val = Raise e ->
  _build_curve (PDict d) m = (Raise e, m)
  /\ is_metadata_error e = false
  /\ (exists msg, e = ValueError msg \/ e = TypeError msg).
Proof.
  intros Hkeys Hid Hint. split_and!.
  - unfold _build_curve, bind, lift.
    rewrite (check_meta_keys_ok _ _ Hkeys). cbn. by rewrite Hid, Hint.
  - by eapply py_int_error.
  - destruct id_val as [|b|z|s|l|d0]; cbn in Hint; simplify_eq; eauto.
    destruct (int_of_str E s); simplify_eq; eauto.
Qed.

(** C7.  When [_name_cache] has the name and [_curve_cache] the id it
    gives, [get_curve(name=...)] returns the cached reference and leaves
    the machine as it was: nothing is sent.  The same for
    [get_curve(id=...)] with a cached id.  In particular the curve
    [_build_curve] has just returned for a record is the one a lookup by
    that record's name returns.  A call of [data_request] would have
    changed the machine. *)
Theorem C7_get_curve_cached (m : Machine) :
  (forall name i c,
     _name_cache (session m) !! KStr name = Some i ->
     _curve_cache (session m) !! i = Some c ->
     get_curve None (Some name) m = (Ok c, m))
  /\
  (forall i c name,
     _curve_cache (session m) !! i = Some c ->
     get_curve (Some i) name m = (Ok c, m))
  /\
  (forall d m0 c name,
     _build_curve (PDict d) m0 = (Ok c, m) ->
     dict_of_pairs d !! "name" = Some (PStr name) ->
     get_curve None (Some name) m = (Ok c, m) /\ sent m = sent m0)
  /\
  (forall t ub url d rd av retries r m',
     data_request t ub url d rd av retries m = (r, m') -> m' <> m).
Proof.
  assert (Hname : forall name i c,
     _name_cache (session m) !! KStr name = Some i ->
     _curve_cache (session m) !! i = Some c ->
     get_curve None (Some name) m = (Ok c, m)).
  { intros name i c Hn Hc. unfold get_curve, bind, get_session, ret.
    rewrite Hn. cbn. by rewrite Hc. }
  split_and!; [done| | |].
  - intros i c name Hc. unfold get_curve.
    destruct name; unfold bind, get_session, ret; cbn; by rewrite Hc.
  - intros d m0 c name Hrun Hnm.
    destruct (_build_curve_cases _ _ _ _ Hrun)
      as [(e & ? & _)|(cls & i & [(e & ? & _)|(k & v & Hc & -> & Hattr & Hk)])];
      try discriminate.
    injection Hc as ->. unfold curve_getattr in Hattr. cbn in Hattr.
    rewrite Hnm in Hattr. injection Hattr as <-. injection Hk as <-.
    split; [|done]. apply (Hname name i); cbn; apply lookup_insert_eq.
  - intros t ub url d rd av retries r m' Hrun ->.
    apply data_request_rec_progress in Hrun. lia.
Qed.

(** ** Cache consistency *)

Lemma keeps_read_config_file Q config_file :
  (forall s u, Q s -> Q (set_urlbase u s)) ->
  (forall s a, Q s -> Q (set_auth a s)) ->
  keeps Q (read_config_file config_file).
Proof.
  intros Hu Ha. unfold read_config_file.
  apply keeps_bind; [auto with keeps|]. intros s.
  destruct (auth s); [auto with keeps|].
  apply keeps_bind; [auto with keeps|]. intros f.
  apply keeps_bind; [auto with keeps|]. intros ub.
  apply keeps_bind; [apply keeps_modify; intros; by apply Hu|]. intros _.
  apply keeps_bind; [auto with keeps|]. intros auth_type.
  case_decide; [|auto with keeps].
  apply keeps_bind; [auto with keeps|]. intros cid.
  apply keeps_bind; [auto with keeps|]. intros secret.
  apply keeps_bind; [auto with keeps|]. intros aub.
  apply keeps_modify; intros; by apply Ha.
Qed.

Lemma keeps_configure Q cid secret aub :
  (forall s a, Q s -> Q (set_auth a s)) ->
  keeps Q (configure cid secret aub).
Proof.
  intros Ha. unfold configure.
  apply keeps_bind; [auto with keeps|]. intros s.
  destruct (auth s); [auto with keeps|].
  apply keeps_modify; intros; by apply Ha.
Qed.

Lemma build_curve_consistent md :
  keeps cache_consistent (_build_curve md).
Proof.
  intros m r m' Hrun Hc.
  destruct (_build_curve_cases _ _ _ _ Hrun)
    as [(e & _ & ->)|(cls & i & [(e & _ & ->)|(k & v & _ & -> & _)])];
    [done| |]; intros k' i'; cbn.
  - intros Hk'. rewrite lookup_insert_is_Some.
    destruct (decide (i = i')); [by left|right]. split; [done|]. by eapply Hc.
  - rewrite lookup_insert. case_decide.
    + intros [= <-]. rewrite lookup_insert_eq. eauto.
    + intros Hk'. rewrite lookup_insert_is_Some.
      destruct (decide (i = i')); [by left|right]. split; [done|]. by eapply Hc.
Qed.

Lemma run_op_consistent op : keeps cache_consistent (run_op op).
Proof.
  pose proof build_curve_consistent as Hb.
  destruct op; cbn [run_op]; apply keeps_fmapM;
    auto using keeps_get_curve, keeps_search, keeps_make_curve,
      keeps_get_attribute, keeps_data_request, keeps_handle_single,
      keeps_handle_multi.
  - by apply keeps_read_config_file.
  - by apply keeps_configure.
Qed.

Lemma run_ops_consistent ops m :
  cache_consistent (session m) ->
  cache_consistent (session (run_ops ops m).2).
Proof.
  revert m. induction ops as [|op ops IH]; intros m Hc; cbn; [done|].
  destruct (run_op op m) as [r m1] eqn:Hop.
  specialize (IH m1 (run_op_consistent op _ _ _ Hop Hc)).
  by destruct (run_ops ops m1).
Qed.

(** C9.  Cache consistency holds of a new Session and every operation
    keeps it, whether it returns or raises: an id that [_name_cache]
    gives for a name is a key of [_curve_cache].  When [_build_curve]
    enters a name, the curve cached at the id it is entered for is the
    one just built, and that curve's name is the name entered. *)
Theorem C9_cache_consistency :
  cache_consistent new_session
  /\ (forall op m r m',
        run_op op m = (r, m') ->
        cache_consistent (session m) -> cache_consistent (session m'))
  /\ (forall ops m,
        cache_consistent (session m) ->
        cache_consistent (session (run_ops ops m).2))
  /\ (forall ops, cache_consistent (session (run_ops ops new_machine).2))
  /\ (forall md m c m',
        _build_curve md m = (Ok c, m') ->
        exists k i obj name,
          _name_cache (session m') = <[k := i]> (_name_cache (session m))
          /\ _curve_cache (session m') !! i = Some c
          /\ heap m' !! c = Some obj
          /\ curve_id obj = i
          /\ curve_getattr obj "name" = Ok name
          /\ py_hash name = Ok k).
Proof.
  split_and!.
  - intros k i Hk. cbn in Hk. by rewrite lookup_empty in Hk.
  - intros op m r m'. apply run_op_consistent.
  - apply run_ops_consistent.
  - intros ops. apply run_ops_consistent. intros k i Hk. cbn in Hk.
    by rewrite lookup_empty in Hk.
  - intros md m c m' Hrun.
    destruct (_build_curve_cases _ _ _ _ Hrun)
      as [(e & ? & _)|(cls & i & [(e & ? & _)|(k & v & Hc & -> & Hattr & Hk)])];
      try discriminate.
    injection Hc as ->.
    exists k, i, (mkCurve cls i (Some md)), v. cbn. split_and!; try done.
    + apply lookup_insert_eq.
    + apply heap_lookup_new.
Qed.

(** ** Configuration files without OAuth *)

Lemma config_get_section ub f section opts option v :
  cfg_sections f !! section = Some opts ->
  (opts ∪ cfg_defaults f) !! option = Some v ->
  option <> "common" ->
  config_get (parser_defaults ub f) f section option = Ok v.
Proof.
  intros Hsec Hv Hne. unfold config_get. rewrite Hsec.
  apply lookup_union_Some_raw in Hv as [->|[-> Hd]]; [done|].
  unfold parser_defaults.
  by rewrite (lookup_union_Some_l _ _ _ _ Hd).
Qed.

Lemma config_get_missing ub f section opts option :
  cfg_sections f !! section = Some opts ->
  (opts ∪ cfg_defaults f) !! option = None ->
  option <> "common" ->
  config_get (parser_defaults ub f) f section option
  = Raise (NoOptionError option section).
Proof.
  intros Hsec Hv Hne. unfold config_get. rewrite Hsec.
  apply lookup_union_None in Hv as [-> Hd].
  unfold parser_defaults.
  rewrite lookup_union_r by done. by rewrite lookup_singleton_ne.
Qed.

(** X23.  What the [defaults] argument of the parser does not do: it
    gives the [common] section no default [urlbase].  When neither the
    [common] section nor the DEFAULT section of the source gives one,
    [read_config_file] raises NoOptionError and the Session is as
    before. *)
Lemma read_config_file_without_urlbase f common m :
  auth (session m) = None ->
  cfg_sections f !! "common" = Some common ->
  (common ∪ cfg_defaults f) !! "urlbase" = None ->
  read_config_file (Ok f) m = (Raise (NoOptionError "urlbase" "common"), m).
Proof.
  intros Hnone Hsec Hno.
  apply lookup_union_None in Hno as [Hc Hd].
  unfold read_config_file, bind, get_session, lift.
  rewrite Hnone. cbn. unfold config_get. rewrite Hsec, Hc.
  unfold parser_defaults. rewrite lookup_union_r by done.
  by rewrite lookup_singleton_ne.
Qed.

(** C10.  On an unconfigured Session, a configuration whose [common]
    section gives (itself or through the DEFAULT section of the source)
    a [urlbase] and an [auth_type] other than OAuth makes
    [read_config_file] return with that urlbase applied and [auth] still
    absent; a [configure] that follows succeeds and sets [auth], and a
    [read_config_file] that follows does not raise ConfigException. *)
Theorem C10_non_oauth_config (f : ConfigFile) (common : gmap string string)
    (u auth_type : string) (m : Machine) :
  auth (session m) = None ->
  cfg_sections f !! "common" = Some common ->
  (common ∪ cfg_defaults f) !! "urlbase" = Some u ->
  (common ∪ cfg_defaults f) !! "auth_type" = Some auth_type ->
  auth_type <> "OAuth" ->
  exists m',
    read_config_file (Ok f) m = (Ok tt, m')
    /\ auth (session m') = None
    /\ urlbase (session m') = u
    /\ _curve_cache (session m') = _curve_cache (session m)
    /\ _name_cache (session m') = _name_cache (session m)
    /\ sent m' = sent m
    /\ (forall cid secret aub, exists m'' a,
          configure cid secret aub m' = (Ok tt, m'')
          /\ auth (session m'') = Some a
          /\ client_id a = cid /\ client_secret a = secret)
    /\ (forall f' r m'',
          read_config_file (Ok f') m' = (r, m'') ->
          forall msg, r <> Raise (ConfigException msg)).
Proof.
  intros Hnone Hsec Hub Hty Hne.
  eexists. split.
  { unfold read_config_file, bind, get_session, lift, modify_session, ret.
    rewrite Hnone. cbn.
    rewrite (config_get_section _ _ _ _ _ _ Hsec Hub) by done. cbn.
    rewrite (config_get_section _ _ _ _ _ _ Hsec Hty) by done. cbn.
    rewrite decide_False by done. reflexivity. }
  cbn. split_and!; try done.
  - intros cid secret aub. eexists _, _. split.
    + unfold configure, bind, get_session, modify_session. cbn.
      rewrite Hnone. reflexivity.
    + cbn. split_and!; reflexivity.
  - intros f' r m'' Hrun msg ->.
    unfold read_config_file, bind, get_session, lift, modify_session, ret in Hrun.
    cbn in Hrun. rewrite Hnone in Hrun. cbn in Hrun.
    unfold config_get in Hrun.
    repeat (case_match; simplify_eq; cbn in * ).
Qed.

(** ** search: the query string *)

Lemma search_args_spec kwargs args :
  allowed_keys kwargs ->
  search_args kwargs args = Ok (args ++ spec_query_pairs kwargs)%list.
Proof.
  revert args. induction kwargs as [|[key val] kwargs IH]; intros args Hall.
  - cbn. by rewrite app_nil_r.
  - apply Forall_cons in Hall as [Hkey Hall]. cbn in Hkey |- *.
    rewrite bool_decide_eq_true_2 by done.
    unfold spec_query_pairs in *. cbn.
    destruct val; cbn; rewrite IH by done; by rewrite <- app_assoc.
Qed.

Lemma search_args_illegal kwargs args :
  ~ allowed_keys kwargs ->
  exists key, key ∈ kwargs.*1 /\ (key ∉ _search_terms)
              /\ search_args kwargs args = Raise (illegal_search_parameter key).
Proof.
  revert args. induction kwargs as [|[key val] kwargs IH]; intros args Hno.
  - destruct Hno. constructor.
  - cbn. destruct (decide (key ∈ _search_terms)) as [Hin|Hout].
    + rewrite bool_decide_eq_true_2 by done.
      assert (Hrest : ~ allowed_keys kwargs).
      { intros Hall. apply Hno. by constructor. }
      destruct val; cbn;
        (edestruct IH as (k & Hk & Hk' & ->); [exact Hrest|];
         exists k; split_and!; [by right|done..]).
    + rewrite bool_decide_eq_false_2 by done.
      exists key. split_and!; [by left|done..].
Qed.

Lemma effective_urlbase_self s :
  effective_urlbase (Some (urlbase s)) s = urlbase s.
Proof. unfold effective_urlbase. by case_decide. Qed.

(** What a call adds to [sent]: its own requests, and at least one
    unless the provider refuses to validate. *)
Lemma data_request_rec_sent t ub url d rd av n m r m' :
  data_request_rec t ub url d rd av n m = (r, m') ->
  exists new,
    sent m' = (sent m ++ new)%list
    /\ Forall (fun e => req_method e.1 = t
                /\ req_url e.1 = urljoin E (effective_urlbase ub (session m)) url)
              new
    /\ (auth_validates (session m) -> new <> []).
Proof.
  revert m. induction n as [|n IH]; intros m; cbn; unfold bind;
    destruct (attempt t ub url d rd av m) as [[res|e] m1] eqn:Hat;
    destruct (attempt_cases _ _ _ _ _ _ _ _ _ Hat)
      as (Hs & Hh & [(e' & a & ? & Ha & Hv & Hsent)|(req & Hr & Hsent & Hm & Hu)]);
    try discriminate.
  - intros [= <- <-]. exists [(req, Ok res)]. rewrite Hsent.
    split_and!; [done|by repeat constructor|done].
  - intros [= <- <-]. exists []. rewrite app_nil_r. split_and!;
      [done|constructor|].
    intros Hauth. simplify_eq. rewrite (Hauth _ _ Ha) in Hv. discriminate.
  - intros [= <- <-]. exists [(req, Raise e)]. rewrite Hsent.
    split_and!; [done|by repeat constructor|done].
  - destruct (retry_status res).
    + unfold sleep_retry_delay. intros Hrec.
      apply IH in Hrec as (new & Hnew & Hall & _). cbn in *.
      exists ((req, Ok res) :: new). split_and!.
      * rewrite Hnew, Hsent. by rewrite <- app_assoc.
      * constructor; [done|]. by rewrite Hs in Hall.
      * done.
    + intros [= <- <-]. exists [(req, Ok res)]. rewrite Hsent.
      split_and!; [done|by repeat constructor|done].
  - intros [= <- <-]. exists []. rewrite app_nil_r. split_and!;
      [done|constructor|].
    intros Hauth. simplify_eq. rewrite (Hauth _ _ Ha) in Hv. discriminate.
  - intros [= <- <-]. exists [(req, Raise e)]. rewrite Hsent.
    split_and!; [done|by repeat constructor|done].
Qed.

Lemma build_curve_sent md m r m' :
  _build_curve md m = (r, m') -> sent m' = sent m.
Proof.
  intros Hrun.
  by destruct (_build_curve_cases _ _ _ _ Hrun)
    as [(e & _ & ->)|(cls & i & [(e & _ & ->)|(k & v & _ & -> & _)])].
Qed.

Lemma build_curves_sent mds acc m r m' :
  build_curves mds acc m = (r, m') -> sent m' = sent m.
Proof.
  revert acc m. induction mds as [|md mds IH]; intros acc m; cbn.
  - by intros [= _ <-].
  - unfold bind. destruct (_build_curve md m) as [[c|e] m1] eqn:Hb.
    + intros Hrec. apply IH in Hrec. rewrite Hrec. by eapply build_curve_sent.
    + intros [= _ <-]. by eapply build_curve_sent.
Qed.

Lemma handle_multi_sent response m r m' :
  handle_multi_curve_response response m = (r, m') -> sent m' = sent m.
Proof.
  unfold handle_multi_curve_response, bind, lift, raise.
  destruct (response_ok response);
    [|destruct (decode E _); by intros [= _ <-]].
  destruct (json_loads E _); [|by intros [= _ <-]].
  destruct (py_iter _); [|by intros [= _ <-]].
  apply build_curves_sent.
Qed.

(** C8.  When every key is in the allow-list, the arguments [search]
    builds are the pairs of the specification, and every request it
    sends is a GET of [/api/curves] followed by ["?"] and those pairs
    joined by ["&"] (nothing, when there is no pair); for
    [area=["NO","SE"]] that is [?area=NO&area=SE].  When some key is not
    in the allow-list, [search] raises MetadataException for the first
    such key and the machine is as before: nothing was sent. *)
Theorem C8_search_query (kwargs : list (string * pyval)) (m : Machine) :
  (allowed_keys kwargs ->
   search_args kwargs [] = Ok (spec_query_pairs kwargs)
   /\ search kwargs m = search_request kwargs m
   /\ forall r m',
        search kwargs m = (r, m') ->
        exists new,
          sent m' = (sent m ++ new)%list
          /\ Forall (fun e =>
                 req_method e.1 = "GET"
                 /\ req_url e.1
                    = urljoin E (urlbase (session m))
                        ("/api/curves"
                         +:+ search_astr (spec_query_pairs kwargs))) new
          /\ (auth_validates (session m) -> new <> []))
  /\ search_astr (spec_query_pairs [("area", PList [PStr "NO"; PStr "SE"])])
     = "?area=NO&area=SE"
  /\ (~ allowed_keys kwargs ->
      exists key, key ∈ kwargs.*1 /\ (key ∉ _search_terms)
        /\ search kwargs m = (Raise (illegal_search_parameter key), m)).
Proof.
  split_and!.
  - intros Hall.
    pose proof (search_args_spec kwargs [] Hall) as Hargs. cbn in Hargs.
    assert (Hsearch : search kwargs m = search_request kwargs m).
    { unfold search, search_request, bind at 1, lift. by rewrite Hargs. }
    split_and!; [done..|].
    intros r m'. rewrite Hsearch. unfold search_request, bind, get_session.
    unfold data_request.
    destruct (data_request_rec _ _ _ _ _ _ _ m) as [[resp|e] m1] eqn:Hreq;
      apply data_request_rec_sent in Hreq as (new & Hnew & Hforall & Hne);
      rewrite effective_urlbase_self in Hforall.
    + intros Hh. apply handle_multi_sent in Hh. exists new.
      split_and!; [congruence|done..].
    + intros [= _ <-]. by exists new.
  - reflexivity.
  - intros Hno.
    destruct (search_args_illegal kwargs [] Hno) as (key & Hin & Hout & Hrun).
    exists key. split_and!; [done..|].
    unfold search, bind, lift. by rewrite Hrun.
Qed.

(** * Further properties of the Session *)

(** ** data_request, attempt by attempt *)

Lemma attempt_unfold t ub url d rd av m :
  attempt t ub url d rd av m
  = let req := request_of t ub url d rd av (session m) (validations m) in
    match auth (session m) with
    | None =>
        (transport E (length (sent m)) req,
         record_sent req (transport E (length (sent m)) req) m)
    | Some a =>
        match validate_auth E (validations m) a with
        | Raise e => (Raise e, bump_validations m)
        | Ok _ =>
            (transport E (length (sent m)) req,
             record_sent req (transport E (length (sent m)) req)
                         (bump_validations m))
        end
    end.
Proof.
  unfold attempt, bind, get_session, call_validate_auth, call_get_headers,
    send, ret, request_of, request_data, base_headers, effective_urlbase.
  destruct d as [[dt|dv]|], (auth (session m)) as [a|]; cbn;
    try destruct (validate_auth E (validations m) a) as [[]|e]; reflexivity.
Qed.

Lemma attempted_none t ub url d rd av m req :
  auth (session m) = None ->
  req = request_of t ub url d rd av (session m) (validations m) ->
  attempted t ub url d rd av m (record_sent req (transport E (length (sent m)) req) m)
            req (transport E (length (sent m)) req).
Proof. intros Ha Hreq. unfold attempted. cbn. split_and!; try done. congruence. Qed.

Lemma attempted_some t ub url d rd av m req a :
  auth (session m) = Some a ->
  req = request_of t ub url d rd av (session m) (validations m) ->
  attempted t ub url d rd av m (record_sent req (transport E (length (sent m)) req)
                           (bump_validations m))
            req (transport E (length (sent m)) req).
Proof. intros Ha Hreq. unfold attempted. cbn. split_and!; try done. congruence. Qed.

Lemma call_log_refused t ub url d rd av n m e a :
  auth (session m) = Some a ->
  call_log t ub url d rd av n m (Raise e) (bump_validations m) [].
Proof.
  intros Ha. constructor; cbn; try done; try lia.
  - by rewrite app_nil_r.
  - congruence.
  - intros a0 _. split; [lia|]. intros; discriminate.
Qed.

Lemma call_log_stop t ub url d rd av n m m1 req r0 :
  attempted t ub url d rd av m m1 req r0 ->
  call_log t ub url d rd av n m r0 m1 [(req, r0)].
Proof.
  intros (Hs & Hh & Hsent & Hsl & Hr & Hreq & Hvn & Hvs).
  constructor; cbn; try done; try lia.
  - intros [|i] e [=]. subst e. cbn. by rewrite Nat.add_0_r.
  - intros [|i] e [=]. subst e. cbn. exists (validations m). by split.
  - intros a Ha. rewrite (Hvs a Ha). split; [lia|]. intros; lia.
Qed.

Lemma call_log_retry t ub url d rd av n m m1 req res r m' new :
  attempted t ub url d rd av m m1 req (Ok res) ->
  retry_status res = true ->
  call_log t ub url d rd av n
    (mkMachine (session m1) (heap m1) (sent m1) (validations m1) (S (sleeps m1)))
    r m' new ->
  call_log t ub url d rd av (S n) m r m' ((req, Ok res) :: new).
Proof.
  intros (Hs & Hh & Hsent & Hsl & Hr & Hreq & Hvn & Hvs) Hyes
    [L1 L2 L3 L4 L5 L6 L7 L8 L9 L10 L11 L12]; cbn in *.
  assert (Hlen : length (sent m1) = S (length (sent m))).
  { rewrite Hsent, length_app. cbn. lia. }
  constructor; cbn.
  - rewrite L1, Hsent. by rewrite <- app_assoc.
  - congruence.
  - congruence.
  - lia.
  - lia.
  - lia.
  - intros res' Hres. specialize (L7 res' Hres). lia.
  - intros [|i] e Hi; cbn in Hi.
    + injection Hi as <-. cbn. by rewrite Nat.add_0_r.
    + rewrite (L8 i e Hi), Hlen. f_equal. lia.
  - intros [|i] e Hi; cbn in Hi.
    + injection Hi as <-. cbn. exists (validations m). by split.
    + destruct (L9 i e Hi) as (v & Hv & He). exists v. rewrite Hs in He.
      split; [|done].
      destruct (auth (session m)) as [a|] eqn:Ha.
      * rewrite (Hvs a eq_refl) in Hv. lia.
      * rewrite (Hvn eq_refl) in Hv. lia.
  - intros [|i] e Hi Hlt; cbn in Hi.
    + injection Hi as <-. by exists res.
    + apply (L10 i e Hi). lia.
  - intros Ha. rewrite L11 by congruence. by apply Hvn.
  - intros a Ha. rewrite Hs in L12. destruct (L12 a Ha) as [Hb Hok].
    rewrite (Hvs a Ha) in Hb, Hok. split; [lia|].
    intros res' Hres. rewrite (Hok res' Hres). lia.
Qed.

Lemma data_request_rec_log t ub url d rd av n m r m' :
  data_request_rec t ub url d rd av n m = (r, m') ->
  exists new, call_log t ub url d rd av n m r m' new.
Proof.
  revert m. induction n as [|n IH]; intros m; cbn; unfold bind;
    rewrite attempt_unfold; cbv zeta;
    set (req := request_of t ub url d rd av (session m) (validations m)).
  - destruct (auth (session m)) as [a|] eqn:Ha.
    + destruct (validate_auth E (validations m) a) as [[]|e] eqn:Hv.
      * pose proof (attempted_some t ub url d rd av m req a Ha eq_refl) as Hat.
        destruct (transport E (length (sent m)) req) as [res|e];
          intros [= <- <-]; eexists; by apply call_log_stop.
      * intros [= <- <-]. eexists. by eapply call_log_refused.
    + pose proof (attempted_none t ub url d rd av m req Ha eq_refl) as Hat.
      destruct (transport E (length (sent m)) req) as [res|e];
        intros [= <- <-]; eexists; by apply call_log_stop.
  - assert (Hsend : forall m1 r0,
              attempted t ub url d rd av m m1 req r0 ->
              match r0 with
              | Ok res =>
                  (if retry_status res
                   then bind sleep_retry_delay
                          (fun _ => data_request_rec t ub url d rd av n)
                   else ret res) m1
              | Raise e => (Raise e, m1)
              end = (r, m') ->
              exists new, call_log t ub url d rd av (S n) m r m' new).
    { intros m1 [res|e] Hat.
      - destruct (retry_status res) eqn:Hyes.
        + unfold bind, sleep_retry_delay. intros Hrec.
          apply IH in Hrec as [new Hnew]. eexists.
          by eapply call_log_retry.
        + intros [= <- <-]. eexists. by apply call_log_stop.
      - intros [= <- <-]. eexists. by apply call_log_stop. }
    destruct (auth (session m)) as [a|] eqn:Ha.
    + destruct (validate_auth E (validations m) a) as [[]|e] eqn:Hv.
      * apply Hsend. by eapply attempted_some.
      * intros [= <- <-]. eexists. by eapply call_log_refused.
    + apply Hsend. by apply attempted_none.
Qed.

Lemma data_request_log t ub url d rd av retries m r m' :
  data_request t ub url d rd av retries m = (r, m') ->
  exists new, call_log t ub url d rd av (Z.to_nat retries) m r m' new.
Proof. apply data_request_rec_log. Qed.

Lemma call_log_ok_nonempty t ub url d rd av n m res m' new :
  call_log t ub url d rd av n m (Ok res) m' new -> new <> [].
Proof.
  intros L ->. pose proof (log_sleeps_ok _ _ _ _ _ _ _ _ _ _ _ L res eq_refl).
  pose proof (log_sleeps _ _ _ _ _ _ _ _ _ _ _ L). cbn in *. lia.
Qed.

(** X1.  Whatever the transport and the provider do, a call makes at
    most [retries + 1] calls to the transport and takes at most
    [retries] delays, never more delays than calls; with a budget of 0
    or less it makes at most one call and takes no delay.  A call that
    returns has made one call more than it took delays.  The Session and
    the objects are as before. *)
Theorem X1_data_request_bounds t ub url d rd av (retries : Z) (m : Machine)
    (r : Result Response) (m' : Machine) :
  data_request t ub url d rd av retries m = (r, m') ->
  exists new,
    sent m' = (sent m ++ new)%list
    /\ (length new <= Z.to_nat retries + 1)%nat
    /\ (sleeps m <= sleeps m' <= sleeps m + Z.to_nat retries)%nat
    /\ (sleeps m' - sleeps m <= length new)%nat
    /\ (retries <= 0 -> (length new <= 1)%nat /\ sleeps m' = sleeps m)
    /\ (forall res, r = Ok res ->
          new <> [] /\ (sleeps m' + 1 = sleeps m + length new)%nat)
    /\ session m' = session m
    /\ heap m' = heap m.
Proof.
  intros Hrun. destruct (data_request_log _ _ _ _ _ _ _ _ _ _ Hrun) as [new L].
  exists new. destruct L as [L1 L2 L3 L4 L5 L6 L7 L8 L9 L10 L11 L12].
  split_and!; try done; try lia.
  intros res ->. specialize (L7 res eq_refl). split; [|done].
  intros ->. cbn in *. lia.
Qed.

(** X2.  The answers a call has gone past are all answers whose status
    is in [500,600) or 408; each recorded answer is what the transport
    gave at that call; and a call that returns returns the answer of the
    last call it made. *)
Theorem X2_data_request_retries_only_transient t ub url d rd av (retries : Z)
    (m : Machine) (r : Result Response) (m' : Machine) :
  data_request t ub url d rd av retries m = (r, m') ->
  exists new,
    sent m' = (sent m ++ new)%list
    /\ (forall i e, new !! i = Some e -> (S i < length new)%nat ->
          exists res,
            e.2 = Ok res
            /\ (500 <= status_code res < 600 \/ status_code res = 408))
    /\ (forall i e, new !! i = Some e ->
          e.2 = transport E (length (sent m) + i) e.1)
    /\ (forall res, r = Ok res ->
          exists req, last new = Some (req, Ok res)).
Proof.
  intros Hrun. destruct (data_request_log _ _ _ _ _ _ _ _ _ _ Hrun) as [new L].
  exists new. split_and!.
  - apply L.
  - intros i e Hi Hlt.
    destruct (log_retried _ _ _ _ _ _ _ _ _ _ _ L i e Hi Hlt) as (res & He & Hst).
    exists res. split; [done|]. by apply retry_status_true.
  - apply L.
  - intros res ->. unfold data_request in Hrun.
    apply data_request_rec_outcome in Hrun as (_ & _ & req & Hlast).
    exists req. rewrite (log_sent _ _ _ _ _ _ _ _ _ _ _ L) in Hlast.
    pose proof (call_log_ok_nonempty _ _ _ _ _ _ _ _ _ _ _ L) as Hne.
    destruct (exists_last Hne) as (new0 & x & ->).
    rewrite app_assoc, last_snoc in Hlast. by rewrite last_snoc.
Qed.

(** X3.  Every request a call sends has the method and the credentials
    it was given, the URL joined from the base in force (the Session's,
    when the call names none or an empty one) and the path, and as its
    body the text of [data], or its JSON, or [rawdata] when there is no
    [data]: [rawdata] is dropped whenever [data] is given.  When the
    Session has no provider, the headers are [content_type] alone when
    [data] is given and none otherwise; with a provider, a header it
    gives replaces one of the same name. *)
Theorem X3_data_request_requests t ub url d rd av (retries : Z)
    (m : Machine) (r : Result Response) (m' : Machine) :
  data_request t ub url d rd av retries m = (r, m') ->
  exists new,
    sent m' = (sent m ++ new)%list
    /\ forall i e, new !! i = Some e ->
         req_method e.1 = t
         /\ req_auth e.1 = av
         /\ req_url e.1
            = urljoin E (match ub with
                         | Some u => if decide (u = "") then urlbase (session m)
                                     else u
                         | None => urlbase (session m)
                         end) url
         /\ req_data e.1
            = match d with
              | Some (DataStr text) => Some text
              | Some (DataJson v) => Some (json_dumps E v)
              | None => rd
              end
         /\ (auth (session m) = None ->
             req_headers e.1
             = match d with
               | Some _ => {[ "content_type" := "application/json" ]}
               | None => ∅
               end)
         /\ (forall a, auth (session m) = Some a ->
             exists v, forall h,
               req_headers e.1 !! h
               = match get_headers E v a (req_data e.1) !! h with
                 | Some x => Some x
                 | None =>
                     match d with
                     | Some _ =>
                         ({[ "content_type" := "application/json" ]}
                            : gmap string string) !! h
                     | None => None
                     end
                 end).
Proof.
  intros Hrun. destruct (data_request_log _ _ _ _ _ _ _ _ _ _ Hrun) as [new L].
  exists new. split; [apply L|]. intros i e Hi.
  destruct (log_requests _ _ _ _ _ _ _ _ _ _ _ L i e Hi) as (v & _ & ->).
  unfold request_of, effective_urlbase, request_data, base_headers. cbn.
  split_and!; try done.
  - intros ->. destruct d; [|done]. by rewrite insert_empty.
  - intros a ->. exists (S v). intros h. rewrite lookup_union.
    destruct (get_headers E (S v) a _ !! h) as [x|]; destruct d;
      cbn; rewrite ?insert_empty, ?lookup_empty; try done;
      by destruct (_ !! h).
Qed.

(** X4.  A Session with a provider validates it anew for every attempt:
    the validations a call makes are as many as its calls to the
    transport, or one more when the last validation raised; exactly as
    many when the call returns.  A Session without a provider validates
    nothing. *)
Theorem X4_data_request_validates_each_attempt t ub url d rd av (retries : Z)
    (m : Machine) (r : Result Response) (m' : Machine) :
  data_request t ub url d rd av retries m = (r, m') ->
  exists new,
    sent m' = (sent m ++ new)%list
    /\ (auth (session m) = None -> validations m' = validations m)
    /\ (forall a, auth (session m) = Some a ->
          (validations m + length new <= validations m'
           <= validations m + length new + 1)%nat
          /\ (forall res, r = Ok res ->
                validations m' = (validations m + length new)%nat)).
Proof.
  intros Hrun. destruct (data_request_log _ _ _ _ _ _ _ _ _ _ Hrun) as [new L].
  exists new. split_and!; apply L.
Qed.

(** ** What every operation keeps of the machine *)

Lemma preserves_ret {A} P (a : A) : preserves P (ret a).
Proof. intros m r m' [= _ <-]. done. Qed.

Lemma preserves_raise {A} P e : preserves P (@raise A e).
Proof. intros m r m' [= _ <-]. done. Qed.

Lemma preserves_lift {A} P (x : Result A) : preserves P (lift x).
Proof. intros m r m' [= _ <-]. done. Qed.

Lemma preserves_get_session P : preserves P get_session.
Proof. intros m r m' [= _ <-]. done. Qed.

Lemma preserves_bind {A B} P (c : M A) (k : A -> M B) :
  preserves P c -> (forall a, preserves P (k a)) -> preserves P (bind c k).
Proof.
  intros Hc Hk m r m' Hrun HP. unfold bind in Hrun.
  destruct (c m) as [[a|e] m1] eqn:Hcm.
  - eapply Hk; [exact Hrun|]. eapply Hc; eauto.
  - injection Hrun as _ <-. eapply Hc; eauto.
Qed.

Lemma preserves_fmapM {A B} P (f : A -> B) (c : M A) :
  preserves P c -> preserves P (fmapM f c).
Proof.
  intros Hc. apply preserves_bind; [done|]. intros a. apply preserves_ret.
Qed.

#[local] Hint Resolve preserves_ret preserves_raise preserves_lift
  preserves_get_session : keeps.

Lemma check_meta_keys_inv keys d :
  check_meta_keys keys (PDict d) = Ok tt ->
  forall key, key ∈ keys -> has_key d key.
Proof.
  induction keys as [|key0 keys IH]; cbn; intros Hrun key Hkey.
  - by apply elem_of_nil in Hkey.
  - case_bool_decide as Hhas; [|discriminate].
    apply elem_of_cons in Hkey as [->|Hkey]; [done|by apply IH].
Qed.

(** [_build_curve_cases], with what the new curve was built from. *)
Lemma _build_curve_built md m r m' :
  _build_curve md m = (r, m') ->
  (exists e, r = Raise e /\ m' = m) \/
  (exists cls i,
      built_from_record (mkCurve cls i (Some md)) i
      /\ ((exists e, r = Raise e /\ m' = with_curve m cls i md) \/
          (exists k v, r = Ok (length (heap m))
                       /\ m' = with_name (with_curve m cls i md) k i
                       /\ curve_getattr (mkCurve cls i (Some md)) "name" = Ok v
                       /\ py_hash v = Ok k))).
Proof.
  intros Hrun.
  destruct (_build_curve_cases _ _ _ _ Hrun)
    as [Hsame|(cls & i & Hcases)]; [by left|right].
  exists cls, i. split.
  - assert (Hne : m' <> m).
    { intros ->. destruct Hcases as [(e & _ & Heq)|(k & v & _ & Heq & _)];
        apply (f_equal (fun x => length (heap x))) in Heq; cbn in Heq;
        rewrite length_app in Heq; cbn in Heq; lia. }
    revert Hrun. unfold _build_curve, bind, lift, raise.
    destruct (check_meta_keys _meta_keys md) as [[]|] eqn:Hkeys;
      [|by intros [= _ <-]].
    destruct md as [| | | | |d]; try (by intros [= _ <-]).
    cbn [py_getitem].
    destruct (dict_of_pairs d !! "id") as [id_val|] eqn:Hid;
      [|by intros [= _ <-]].
    destruct (py_int id_val) as [n|] eqn:Hint; [|by intros [= _ <-]].
    destruct (dict_of_pairs d !! "curve_type") as [ct|] eqn:Hct;
      [|by intros [= _ <-]].
    destruct (curve_types_find ct) as [[cls'|]|] eqn:Hfind;
      try (by intros [= _ <-]).
    intros Hrun.
    assert (cls' = cls /\ n = i) as [-> ->].
    { unfold alloc, modify_session, ret in Hrun. cbn in Hrun.
      rewrite list_lookup_middle in Hrun by done. cbn in Hrun.
      assert (Hh : heap m' = (heap m ++ [mkCurve cls' n (Some (PDict d))])%list).
      { destruct (curve_getattr _ _); cbn in Hrun;
          [destruct (py_hash _); cbn in Hrun|]; by injection Hrun as _ <-. }
      destruct Hcases as [(e & _ & Heq)|(k & v & _ & Heq & _)];
        rewrite Heq in Hh; cbn in Hh; apply app_inv_head in Hh;
        by injection Hh as -> ->. }
    exists d, id_val, ct. split_and!; try done.
    by apply check_meta_keys_inv.
  - destruct Hcases as [?|(k & v & ? & ? & ? & ?)]; [by left|right].
    by exists k, v.
Qed.

Lemma preserves_build_curve P md :
  step_closed P -> preserves P (_build_curve md).
Proof.
  intros HP m r m' Hrun Hm.
  destruct (_build_curve_built _ _ _ _ Hrun)
    as [(e & _ & ->)|(cls & i & Hb & [(e & _ & ->)|(k & v & _ & -> & _)])];
    [done| |].
  - by apply (sc_curve P HP).
  - apply (sc_name P HP); [|by apply (sc_curve P HP)].
    cbn. rewrite lookup_insert_eq. eauto.
Qed.

Lemma preserves_attempt P t ub url d rd av :
  step_closed P -> preserves P (attempt t ub url d rd av).
Proof.
  intros HP m r m' Hrun Hm. rewrite attempt_unfold in Hrun. cbv zeta in Hrun.
  destruct (auth (session m)) as [a|];
    [destruct (validate_auth E (validations m) a) as [[]|e]|];
    injection Hrun as _ <-; unfold record_sent, bump_validations; cbn;
    apply (sc_traffic P HP); first [done | lia | by apply prefix_app_r].
Qed.

Lemma preserves_data_request_rec P t ub url d rd av n :
  step_closed P -> preserves P (data_request_rec t ub url d rd av n).
Proof.
  intros HP. induction n as [|n IH]; cbn.
  - apply preserves_bind; [by apply preserves_attempt|].
    intros; auto with keeps.
  - apply preserves_bind; [by apply preserves_attempt|]. intros res.
    destruct (retry_status res); [|auto with keeps].
    apply preserves_bind; [|intros _; exact IH].
    intros m r m' [= _ <-] Hm. apply (sc_traffic P HP); cbn; [done|lia..|done].
Qed.

Lemma preserves_data_request P t ub url d rd av n :
  step_closed P -> preserves P (data_request t ub url d rd av n).
Proof. apply preserves_data_request_rec. Qed.

Lemma preserves_build_curves P mds acc :
  step_closed P -> preserves P (build_curves mds acc).
Proof.
  intros HP. revert acc.
  induction mds as [|md mds IH]; intros acc; cbn; [auto with keeps|].
  apply preserves_bind; [by apply preserves_build_curve|]. intros c. apply IH.
Qed.

Lemma preserves_handle_single P response :
  step_closed P -> preserves P (handle_single_curve_response response).
Proof.
  intros HP. unfold handle_single_curve_response.
  destruct (response_ok response);
    [|apply preserves_bind; [|intros ?]; auto with keeps].
  apply preserves_bind; [auto with keeps|]. intros md.
  by apply preserves_build_curve.
Qed.

Lemma preserves_handle_multi P response :
  step_closed P -> preserves P (handle_multi_curve_response response).
Proof.
  intros HP. unfold handle_multi_curve_response.
  destruct (response_ok response);
    [|apply preserves_bind; [|intros ?]; auto with keeps].
  apply preserves_bind; [auto with keeps|]. intros mds.
  apply preserves_bind; [auto with keeps|]. intros items.
  by apply preserves_build_curves.
Qed.

Lemma preserves_get_curve P id name :
  step_closed P -> preserves P (get_curve id name).
Proof.
  intros HP. unfold get_curve.
  destruct id as [i|], name as [n|]; try apply preserves_raise;
    (apply preserves_bind; [auto with keeps|]; intros s; cbn zeta;
     destruct (_ ≫= _); [auto with keeps|];
     apply preserves_bind; [by apply preserves_data_request|]; intros resp;
     by apply preserves_handle_single).
Qed.

Lemma preserves_search P kwargs :
  step_closed P -> preserves P (search kwargs).
Proof.
  intros HP. unfold search.
  apply preserves_bind; [auto with keeps|]. intros args.
  apply preserves_bind; [auto with keeps|]. intros s.
  apply preserves_bind; [by apply preserves_data_request|]. intros resp.
  by apply preserves_handle_multi.
Qed.

Lemma preserves_make_curve P id ct :
  step_closed P -> preserves P (make_curve id ct).
Proof.
  intros HP. unfold make_curve. apply preserves_bind; [auto with keeps|].
  intros [cls|]; [|auto with keeps].
  intros m r m' [= _ <-] Hm. by apply (sc_alloc P HP).
Qed.

Lemma preserves_get_attribute P a :
  step_closed P -> preserves P (get_attribute a).
Proof.
  intros HP. unfold get_attribute. case_bool_decide; [|auto with keeps].
  apply preserves_bind; [auto with keeps|]. intros s.
  apply preserves_bind; [by apply preserves_data_request|]. intros resp.
  repeat case_bool_decide;
    first [ solve [auto with keeps]
          | apply preserves_bind; [|intros ?]; auto with keeps ].
Qed.

Lemma preserves_read_config_file P config_file :
  step_closed P -> preserves P (read_config_file config_file).
Proof.
  intros HP. unfold read_config_file.
  apply preserves_bind; [auto with keeps|]. intros s.
  destruct (auth s); [auto with keeps|].
  apply preserves_bind; [auto with keeps|]. intros f.
  apply preserves_bind; [auto with keeps|]. intros ub.
  apply preserves_bind.
  { intros m r m' [= _ <-] Hm. by apply (sc_urlbase P HP). }
  intros _. apply preserves_bind; [auto with keeps|]. intros auth_type.
  case_decide; [|auto with keeps].
  apply preserves_bind; [auto with keeps|]. intros cid.
  apply preserves_bind; [auto with keeps|]. intros secret.
  apply preserves_bind; [auto with keeps|]. intros aub.
  intros m r m' [= _ <-] Hm. by apply (sc_auth P HP).
Qed.

Lemma preserves_configure P cid secret aub :
  step_closed P -> preserves P (configure cid secret aub).
Proof.
  intros HP. unfold configure.
  apply preserves_bind; [auto with keeps|]. intros s.
  destruct (auth s); [auto with keeps|].
  intros m r m' [= _ <-] Hm. by apply (sc_auth P HP).
Qed.

Lemma preserves_run_op P op : step_closed P -> preserves P (run_op op).
Proof.
  intros HP. destruct op; cbn [run_op]; apply preserves_fmapM;
    auto using preserves_read_config_file, preserves_configure,
      preserves_get_curve, preserves_search, preserves_make_curve,
      preserves_get_attribute, preserves_build_curve, preserves_data_request,
      preserves_handle_single, preserves_handle_multi.
Qed.

Lemma preserves_run_ops P ops m :
  step_closed P -> P m -> P (run_ops ops m).2.
Proof.
  intros HP. revert m. induction ops as [|op ops IH]; intros m Hm; cbn; [done|].
  destruct (run_op op m) as [r m1] eqn:Hop.
  specialize (IH m1 (preserves_run_op P op HP _ _ _ Hop Hm)).
  by destruct (run_ops ops m1).
Qed.

Lemma cache_wellformed_closed : step_closed cache_wellformed.
Proof.
  constructor; unfold cache_wellformed; cbn; try done.
  - intros m c Hm i c0 Hi. destruct (Hm i c0 Hi) as (obj & Hobj & Hb).
    exists obj. split; [|done]. by apply lookup_app_l_Some.
  - intros m cls i md Hb Hm i' c Hi.
    rewrite lookup_insert in Hi. case_decide as Heq.
    + injection Hi as <-. subst i'. eexists. split; [apply heap_lookup_new|done].
    + destruct (Hm i' c Hi) as (obj & Hobj & Hb'). exists obj.
      split; [|done]. by apply lookup_app_l_Some.
Qed.

Lemma extends_refl m : extends m m.
Proof. unfold extends. by split_and!. Qed.

Lemma extends_closed m0 : step_closed (extends m0).
Proof.
  constructor; unfold extends; cbn.
  - intros m s v sl Hs Hv Hsl (H1 & H2 & H3 & H4 & H5 & H6).
    split_and!; try done; try lia. by etrans.
  - intros m c (H1 & H2 & H3 & H4 & H5 & H6). split_and!; try done.
    by apply prefix_app_r.
  - intros m cls i md _ (H1 & H2 & H3 & H4 & H5 & H6). split_and!; try done.
    + by apply prefix_app_r.
    + rewrite dom_insert_L. set_solver.
  - intros m k i _ (H1 & H2 & H3 & H4 & H5 & H6). split_and!; try done.
    rewrite dom_insert_L. set_solver.
  - intros m u H. exact H.
  - intros m a H. exact H.
Qed.

(** X5.  No operation loses anything: after any operations, whether
    they returned or raised, every object is where it was and as it was,
    every key of [_curve_cache] and of [_name_cache] is still a key, and
    every call made to the transport is still on record, in its place. *)
Theorem X5_nothing_is_lost (ops : list Op) (m : Machine) :
  extends m (run_ops ops m).2
  /\ (forall c obj, heap m !! c = Some obj ->
                    heap (run_ops ops m).2 !! c = Some obj)
  /\ (forall i, is_Some (_curve_cache (session m) !! i) ->
                is_Some (_curve_cache (session (run_ops ops m).2) !! i))
  /\ (forall k, is_Some (_name_cache (session m) !! k) ->
                is_Some (_name_cache (session (run_ops ops m).2) !! k))
  /\ (forall j x, sent m !! j = Some x -> sent (run_ops ops m).2 !! j = Some x).
Proof.
  assert (Hext : extends m (run_ops ops m).2).
  { apply (preserves_run_ops (extends m)); [apply extends_closed|].
    apply extends_refl. }
  split; [done|]. destruct Hext as (H1 & H2 & H3 & H4 & _). split_and!.
  - intros c obj Hc. by eapply prefix_lookup_Some.
  - intros i Hi. apply elem_of_dom. apply H3. by apply elem_of_dom.
  - intros k Hk. apply elem_of_dom. apply H4. by apply elem_of_dom.
  - intros j x Hj. by eapply prefix_lookup_Some.
Qed.

(** X6.  On a Session that starts with empty caches, whatever
    operations are run, every curve in [_curve_cache] is an object built
    by [_build_curve] from a metadata record: it holds a dict with the
    five mandatory keys, is cached under the integer its id converts to
    and is of the class registered for its curve type.  The curves of
    [make_curve], which hold no metadata, are never cached.  Every
    operation keeps this from any machine that has it. *)
Theorem X6_cached_curves_are_built (ops : list Op) :
  (forall i c,
     _curve_cache (session (run_ops ops new_machine).2) !! i = Some c ->
     exists obj d,
       heap (run_ops ops new_machine).2 !! c = Some obj
       /\ curve_id obj = i
       /\ curve_metadata obj = Some (PDict d)
       /\ (forall key, key ∈ _meta_keys -> has_key d key)
       /\ built_from_record obj i)
  /\ (forall op m r m',
        run_op op m = (r, m') -> cache_wellformed m -> cache_wellformed m').
Proof.
  split.
  - intros i c Hc.
    assert (Hwf : cache_wellformed (run_ops ops new_machine).2).
    { apply (preserves_run_ops cache_wellformed);
        [apply cache_wellformed_closed|].
      intros i' c' Hi'. cbn in Hi'. by rewrite lookup_empty in Hi'. }
    destruct (Hwf i c Hc) as (obj & Hobj & Hb).
    pose proof Hb as (d & id_val & ct & Hmd & Hkeys & _ & _ & Hid & _).
    by exists obj, d.
  - intros op m r m'.
    apply (preserves_run_op cache_wellformed), cache_wellformed_closed.
Qed.

(** X7.  Only [read_config_file] and [configure] write [auth] and
    [urlbase]: every other operation leaves both as they were, whether
    it returns or raises.  [configure] never writes [urlbase]. *)
Theorem X7_only_configuration_writes_auth_urlbase (op : Op) (m : Machine)
    (r : Result Value) (m' : Machine) :
  run_op op m = (r, m') ->
  (is_config_op op = false ->
   auth (session m') = auth (session m)
   /\ urlbase (session m') = urlbase (session m))
  /\ (forall cid secret aub, op = OpConfigure cid secret aub ->
        urlbase (session m') = urlbase (session m)).
Proof.
  intros Hrun.
  set (Q := fun s => auth s = auth (session m)
                     /\ urlbase s = urlbase (session m)).
  assert (Hb : forall md, keeps Q (_build_curve md)).
  { intros md. by apply keeps_build_curve. }
  split.
  - intros Hop.
    assert (Hk : keeps Q (run_op op)).
    { destruct op; try discriminate; cbn [run_op]; apply keeps_fmapM;
        auto using keeps_get_curve, keeps_search, keeps_make_curve,
          keeps_get_attribute, keeps_data_request, keeps_handle_single,
          keeps_handle_multi. }
    by apply (Hk m r m' Hrun).
  - intros cid secret aub ->. cbn in Hrun.
    assert (Hk : keeps (fun s => urlbase s = urlbase (session m))
                   (fmapM (fun _ => VNone) (configure cid secret aub))).
    { apply keeps_fmapM, keeps_configure. done. }
    by apply (Hk m r m' Hrun).
Qed.

(** ** Lookups and the requests behind them *)

Lemma handle_single_sent response m r m' :
  handle_single_curve_response response m = (r, m') -> sent m' = sent m.
Proof.
  unfold handle_single_curve_response, bind, lift, raise.
  destruct (response_ok response);
    [|destruct (decode E _); by intros [= _ <-]].
  destruct (json_loads E _); [|by intros [= _ <-]].
  apply build_curve_sent.
Qed.

Lemma get_curve_hit id name m i c :
  resolved_id id name (session m) = Some i ->
  _curve_cache (session m) !! i = Some c ->
  get_curve id name m = (Ok c, m).
Proof.
  unfold resolved_id, get_curve. intros Hid Hc.
  destruct id as [i0|], name as [n|]; cbn in Hid; simplify_eq;
    unfold bind, get_session, ret; cbn; rewrite ?Hid; cbn; by rewrite Hc.
Qed.

(** A lookup that misses the cache is the request and its handler. *)
Lemma get_curve_miss id name m :
  (id = None -> name = None -> False) ->
  resolved_id id name (session m) ≫= (fun i => _curve_cache (session m) !! i)
  = None ->
  get_curve id name m
  = bind (data_request "GET" (Some (urlbase (session m)))
            ("/api/curves/get?"
             +:+ curve_query (resolved_id id name (session m)) name)
            None None None RETRY_COUNT)
         handle_single_curve_response m.
Proof.
  unfold resolved_id, get_curve, curve_query. intros Hsome Hmiss.
  destruct id as [i0|], name as [n|]; cbn in Hmiss |- *;
    try (exfalso; by apply Hsome);
    unfold bind at 1, get_session; cbn;
    try (destruct (_name_cache (session m) !! KStr n) as [i1|] eqn:Hn;
         cbn in Hmiss |- *);
    rewrite ?Hmiss; reflexivity.
Qed.

Lemma get_curve_cases id name m :
  (id = None /\ name = None
   /\ get_curve id name m = (Raise (MetadataException "No curve specified"), m))
  \/ (exists i c, resolved_id id name (session m) = Some i
                  /\ _curve_cache (session m) !! i = Some c
                  /\ get_curve id name m = (Ok c, m))
  \/ get_curve id name m
     = bind (data_request "GET" (Some (urlbase (session m)))
               ("/api/curves/get?"
                +:+ curve_query (resolved_id id name (session m)) name)
               None None None RETRY_COUNT)
            handle_single_curve_response m.
Proof.
  destruct (decide (id = None /\ name = None)) as [[-> ->]|Hsome].
  { left. by split_and!. }
  right.
  destruct (resolved_id id name (session m)
              ≫= (fun i => _curve_cache (session m) !! i)) as [c|] eqn:Hres.
  - left. destruct (resolved_id id name (session m)) as [i|] eqn:Hid;
      [|discriminate]. cbn in Hres. exists i, c. split_and!; try done.
    by apply (get_curve_hit id name m i c).
  - right. apply get_curve_miss; [|done]. intros -> ->. by apply Hsome.
Qed.

(** X8.  [get_curve] with neither id nor name raises MetadataException
    and sends nothing.  Otherwise every request it sends is a GET of
    [/api/curves/get?id=<id>] when an id was given or [_name_cache] has
    one for the name (an id given wins over a name given), and of
    [/api/curves/get?name=<name>] when not; and it sends nothing at all
    when [_curve_cache] has that id. *)
Theorem X8_get_curve_requests (id : option Z) (name : option string)
    (m : Machine) (r : Result ref) (m' : Machine) :
  get_curve id name m = (r, m') ->
  (id = None -> name = None ->
   r = Raise (MetadataException "No curve specified") /\ m' = m)
  /\ (forall i c, resolved_id id name (session m) = Some i ->
        _curve_cache (session m) !! i = Some c -> r = Ok c /\ m' = m)
  /\ exists new,
       sent m' = (sent m ++ new)%list
       /\ forall j e, new !! j = Some e ->
            req_method e.1 = "GET"
            /\ req_url e.1
               = urljoin E (urlbase (session m))
                   ("/api/curves/get?"
                    +:+ match resolved_id id name (session m), name with
                        | Some i, _ => "id=" +:+ pretty i
                        | None, Some n => "name=" +:+ n
                        | None, None => "name=None"
                        end).
Proof.
  intros Hrun. split_and!.
  - intros -> ->. by injection Hrun as <- <-.
  - intros i c Hid Hc. rewrite (get_curve_hit _ _ _ _ _ Hid Hc) in Hrun.
    by injection Hrun as <- <-.
  - destruct (get_curve_cases id name m)
      as [(_ & _ & Heq)|[(i & c & _ & _ & Heq)|Heq]];
      rewrite Heq in Hrun.
    + injection Hrun as _ <-. exists []. rewrite app_nil_r. split; [done|].
      by intros j e [=].
    + injection Hrun as _ <-. exists []. rewrite app_nil_r. split; [done|].
      by intros j e [=].
    + unfold bind in Hrun.
      destruct (data_request _ _ _ _ _ _ _ m) as [[resp|e] m1] eqn:Hreq;
        destruct (data_request_log _ _ _ _ _ _ _ _ _ _ Hreq) as [new L];
        exists new.
      all: split;
        [ first [ apply handle_single_sent in Hrun; rewrite Hrun; apply L
                | injection Hrun as _ <-; apply L ]
        | intros j x Hj;
          destruct (log_requests _ _ _ _ _ _ _ _ _ _ _ L j x Hj) as (v & _ & ->);
          cbn -[effective_urlbase]; rewrite effective_urlbase_self;
          split; [done|];
          unfold curve_query;
          by destruct (resolved_id id name (session m)), name ].
Qed.

(** X9.  On a machine whose cache is well formed, the curve a lookup
    returns, from the cache or from the server, is afterwards cached
    under its own id: a lookup by that id returns the same reference and
    leaves the machine as it is. *)
Theorem X9_get_curve_then_cached (id : option Z) (name : option string)
    (m : Machine) (c : ref) (m' : Machine) :
  cache_wellformed m ->
  get_curve id name m = (Ok c, m') ->
  exists obj,
    heap m' !! c = Some obj
    /\ _curve_cache (session m') !! curve_id obj = Some c
    /\ forall name', get_curve (Some (curve_id obj)) name' m' = (Ok c, m').
Proof.
  intros Hwf Hrun.
  assert (Hgoal : forall i, _curve_cache (session m') !! i = Some c ->
            forall obj, heap m' !! c = Some obj -> curve_id obj = i ->
            exists obj, heap m' !! c = Some obj
              /\ _curve_cache (session m') !! curve_id obj = Some c
              /\ forall name', get_curve (Some (curve_id obj)) name' m'
                               = (Ok c, m')).
  { intros i Hi obj Hobj <-. exists obj. split_and!; try done.
    intros name'.
    by apply (get_curve_hit (Some (curve_id obj)) name' m' (curve_id obj) c). }
  destruct (get_curve_cases id name m)
    as [(_ & _ & Heq)|[(i & c0 & _ & Hc & Heq)|Heq]];
    rewrite Heq in Hrun; [discriminate| |].
  - injection Hrun as <- <-.
    destruct (Hwf i c0 Hc) as (obj & Hobj & (d & ? & ? & _ & _ & _ & _ & Hid & _)).
    by apply (Hgoal i Hc obj).
  - unfold bind in Hrun.
    destruct (data_request _ _ _ _ _ _ _ m) as [[resp|e] m1]; [|discriminate].
    unfold handle_single_curve_response, bind, lift, raise in Hrun.
    destruct (response_ok resp); [|by destruct (decode E _)].
    destruct (json_loads E (content resp)) as [md|]; [|discriminate].
    destruct (_build_curve_cases _ _ _ _ Hrun)
      as [(e & ? & _)|(cls & i & [(e & ? & _)|(k & v & Hok & -> & _)])];
      try discriminate.
    injection Hok as ->.
    apply (Hgoal i) with (obj := mkCurve cls i (Some md)); cbn.
    + apply lookup_insert_eq.
    + apply heap_lookup_new.
    + done.
Qed.

(** ** Attributes, bare curves and error statuses *)

(** X10.  [get_attribute] of a name that is not an attribute raises
    MetadataException and sends nothing.  It never touches the Session
    or the objects.  When it returns, the name is an attribute, the last
    call made was a GET of [/api/<name>], and what is returned is the
    parsed body of a 200 or Python's [None] for a 204.  An answer with
    any other status makes it raise: MetadataException with the decoded
    body, or, when the body does not decode, what [decode] raised
    (UnicodeDecodeError for a body that is not UTF-8). *)
Theorem X10_get_attribute (attribute : string) (m : Machine)
    (r : Result pyval) (m' : Machine) :
  get_attribute attribute m = (r, m') ->
  (attribute ∉ _attributes ->
   r = Raise (MetadataException ("Attribute " +:+ attribute +:+ " is not valid"))
   /\ m' = m)
  /\ session m' = session m
  /\ heap m' = heap m
  /\ (forall v, r = Ok v ->
        attribute ∈ _attributes
        /\ exists req res,
             last (sent m') = Some (req, Ok res)
             /\ req_method req = "GET"
             /\ req_url req
                = urljoin E (urlbase (session m)) ("/api/" +:+ attribute)
             /\ ((status_code res = 200 /\ json_loads E (content res) = Ok v)
                 \/ (status_code res = 204 /\ v = PNone)))
  /\ (forall res m1,
        attribute ∈ _attributes ->
        data_request "GET" (Some (urlbase (session m))) ("/api/" +:+ attribute)
          None None None RETRY_COUNT m = (Ok res, m1) ->
        status_code res <> 200 -> status_code res <> 204 ->
        m' = m1
        /\ (forall text,
              decode E (content res) = Ok text ->
              r = Raise (MetadataException
                           ("Failed loading " +:+ attribute +:+ ": " +:+ text)))
        /\ (forall e, decode E (content res) = Raise e -> r = Raise e)).
Proof.
  unfold get_attribute. intros Hrun.
  case_bool_decide as Hattr.
  - unfold bind, get_session in Hrun.
    destruct (data_request _ _ _ _ _ _ _ m) as [[res|e] m1] eqn:Hreq.
    + destruct (data_request_log _ _ _ _ _ _ _ _ _ _ Hreq) as [new L].
      assert (Hm1 : m' = m1).
      { repeat case_bool_decide; unfold bind, lift, ret, raise in Hrun;
          try destruct (decode E _); by injection Hrun as _ <-. }
      subst m1. split_and!; [done|apply L|apply L| |].
      * intros v ->. split; [done|].
        unfold data_request in Hreq.
        pose proof Hreq as Hout.
        apply data_request_rec_outcome in Hout as (_ & _ & req & Hlast).
        exists req, res. split; [done|].
        rewrite (log_sent _ _ _ _ _ _ _ _ _ _ _ L) in Hlast.
        pose proof (call_log_ok_nonempty _ _ _ _ _ _ _ _ _ _ _ L) as Hne.
        destruct (exists_last Hne) as (new0 & x & ->).
        rewrite app_assoc, last_snoc in Hlast. injection Hlast as ->.
        destruct (log_requests _ _ _ _ _ _ _ _ _ _ _ L (length new0) (req, Ok res))
          as (v0 & _ & Hreq0); [by apply list_lookup_middle|].
        cbn in Hreq0. subst req. cbn -[effective_urlbase].
        rewrite effective_urlbase_self. split_and!; [done..|].
        repeat case_bool_decide; unfold bind, lift, ret, raise in Hrun;
          try destruct (decode E _); simplify_eq; [left|right]; by split.
      * intros res' m1' _ Heq H200 H204. simplify_eq.
        rewrite !bool_decide_eq_false_2 in Hrun by done.
        unfold bind, lift, raise in Hrun.
        split_and!; [done|intros text Ht|intros e Ht];
          rewrite Ht in Hrun; by simplify_eq.
    + injection Hrun as <- <-.
      destruct (data_request_log _ _ _ _ _ _ _ _ _ _ Hreq) as [new L].
      split_and!; try done; try apply L.
  - injection Hrun as <- <-. by split_and!.
Qed.

(** X11.  [make_curve] never touches the Session and sends nothing.
    When it returns, the reference is new and designates a curve of the
    class registered for the type, with the id given and no metadata; no
    entry of a well-formed cache designates it.  When it raises, the
    machine is as before; a hashable type that is none of the four
    registered raises CurveException. *)
Theorem X11_make_curve (id : Z) (curve_type : pyval) (m : Machine)
    (r : Result ref) (m' : Machine) :
  make_curve id curve_type m = (r, m') ->
  session m' = session m
  /\ sent m' = sent m
  /\ (forall c, r = Ok c ->
        c = length (heap m)
        /\ heap m !! c = None
        /\ (exists cls,
              curve_types_find curve_type = Ok (Some cls)
              /\ heap m' = (heap m ++ [mkCurve cls id None])%list)
        /\ (cache_wellformed m ->
            forall i, _curve_cache (session m') !! i <> Some c))
  /\ (forall e, r = Raise e -> m' = m)
  /\ (forall k,
        py_hash curve_type = Ok k ->
        (forall tag,
           tag ∈ [TIME_SERIES E; TAGGED E; INSTANCES E; TAGGED_INSTANCES E] ->
           k <> KStr tag) ->
        r = Raise (CurveException "Bad curve type requested")).
Proof.
  unfold make_curve, bind, lift, alloc, raise. intros Hrun.
  destruct (curve_types_find curve_type) as [[cls|]|e0] eqn:Hfind;
    injection Hrun as <- <-; cbn; split_and!; try done.
  - intros c [= <-]. split_and!; [done|by apply lookup_ge_None_2|by exists cls|].
    intros Hwf i Hi. destruct (Hwf i _ Hi) as (obj & Hobj & _).
    apply lookup_lt_Some in Hobj. lia.
  - intros k Hk Hno. by rewrite (curve_types_find_unknown _ _ Hk Hno) in Hfind.
  - intros k Hk Hno. by rewrite (curve_types_find_unknown _ _ Hk Hno) in Hfind.
Qed.

Lemma data_request_returns_last t ub url d rd av retries m r m1 req res :
  auth_validates (session m) ->
  data_request t ub url d rd av retries m = (r, m1) ->
  sent m1 <> sent m ->
  last (sent m1) = Some (req, Ok res) ->
  r = Ok res.
Proof.
  intros Hauth Hrun Hsent Hlast.
  destruct (data_request_log _ _ _ _ _ _ _ _ _ _ Hrun) as [new L].
  unfold data_request in Hrun.
  apply data_request_rec_outcome in Hrun as (_ & _ & Hout).
  destruct r as [res'|e].
  - destruct Hout as (req' & Hlast'). congruence.
  - destruct Hout as [(k & a & Ha & Hv)|(req' & Hlast')]; [|congruence].
    rewrite (Hauth k a Ha) in Hv. discriminate.
Qed.

(** X12.  With a provider that validates, a lookup or a search whose
    last call to the transport was answered with a status in [400,600)
    raises, and leaves the Session and the objects as they were: nothing
    is cached from an error answer.  What it raises is MetadataException
    carrying the decoded body of that answer, or, when the body does not
    decode, what [decode] raised (UnicodeDecodeError for a body that is
    not UTF-8). *)
Theorem X12_error_status_raises (m : Machine) (req : Request) (res : Response) :
  auth_validates (session m) ->
  is_error_status res ->
  (forall id name r m',
     get_curve id name m = (r, m') ->
     sent m' <> sent m ->
     last (sent m') = Some (req, Ok res) ->
     (forall text, decode E (content res) = Ok text ->
                   r = Raise (failed_to_load text))
     /\ (forall e, decode E (content res) = Raise e -> r = Raise e)
     /\ session m' = session m /\ heap m' = heap m)
  /\ (forall kwargs r m',
        search kwargs m = (r, m') ->
        sent m' <> sent m ->
        last (sent m') = Some (req, Ok res) ->
        (forall text, decode E (content res) = Ok text ->
                      r = Raise (search_failed text))
        /\ (forall e, decode E (content res) = Raise e -> r = Raise e)
        /\ session m' = session m /\ heap m' = heap m).
Proof.
  intros Hauth Herr.
  assert (Hnok : response_ok res = false).
  { unfold response_ok. by rewrite bool_decide_eq_true_2. }
  split.
  - intros id name r m' Hrun Hsent Hlast.
    destruct (get_curve_cases id name m)
      as [(_ & _ & Heq)|[(i & c & _ & _ & Heq)|Heq]];
      rewrite Heq in Hrun; try (injection Hrun as _ <-; by destruct Hsent).
    unfold bind in Hrun.
    destruct (data_request _ _ _ _ _ _ _ m) as [r1 m1] eqn:Hreq.
    destruct (data_request_log _ _ _ _ _ _ _ _ _ _ Hreq) as [new L].
    assert (Hm1 : sent m' = sent m1).
    { destruct r1; [by apply handle_single_sent in Hrun|by injection Hrun as _ <-]. }
    rewrite Hm1 in Hsent, Hlast.
    rewrite (data_request_returns_last _ _ _ _ _ _ _ _ _ _ _ _
               Hauth Hreq Hsent Hlast) in Hrun.
    unfold handle_single_curve_response, bind, lift, raise in Hrun.
    rewrite Hnok in Hrun.
    destruct (decode E (content res)) as [text|e];
      injection Hrun as <- <-;
      (split_and!; [by intros ? [= <-]|by intros ? [= <-]|apply L|apply L]).
  - intros kwargs r m' Hrun Hsent Hlast.
    unfold search, bind, lift, get_session in Hrun.
    destruct (search_args kwargs []); [|injection Hrun as _ <-; by destruct Hsent].
    destruct (data_request _ _ _ _ _ _ _ m) as [r1 m1] eqn:Hreq.
    destruct (data_request_log _ _ _ _ _ _ _ _ _ _ Hreq) as [new L].
    assert (Hm1 : sent m' = sent m1).
    { destruct r1; [by apply handle_multi_sent in Hrun|by injection Hrun as _ <-]. }
    rewrite Hm1 in Hsent, Hlast.
    rewrite (data_request_returns_last _ _ _ _ _ _ _ _ _ _ _ _
               Hauth Hreq Hsent Hlast) in Hrun.
    unfold handle_multi_curve_response, bind, lift, raise in Hrun.
    rewrite Hnok in Hrun.
    destruct (decode E (content res)) as [text|e];
      injection Hrun as <- <-;
      (split_and!; [by intros ? [= <-]|by intros ? [= <-]|apply L|apply L]).
Qed.

(** ** Building several curves *)

Lemma build_curves_app l1 l2 acc m :
  build_curves (l1 ++ l2) acc m
  = bind (build_curves l1 acc) (build_curves l2) m.
Proof.
  revert acc m. induction l1 as [|md l1 IH]; intros acc m; cbn; [done|].
  unfold bind. destruct (_build_curve md m) as [[c|e] m1]; [|done].
  by rewrite IH.
Qed.

(** A run of the loop that ends well: the curves are new objects, one
    per record and in the order of the records. *)
Lemma build_curves_ok mds acc m cs m' :
  build_curves mds acc m = (Ok cs, m') ->
  cs = (acc ++ seq (length (heap m)) (length mds))%list
  /\ length (heap m') = (length (heap m) + length mds)%nat
  /\ heap m `prefix_of` heap m'
  /\ forall j md, mds !! j = Some md ->
       exists cls i,
         heap m' !! (length (heap m) + j)%nat = Some (mkCurve cls i (Some md)).
Proof.
  revert acc m. induction mds as [|md mds IH]; intros acc m; cbn.
  - intros [= <- <-]. rewrite app_nil_r. split_and!; [done|lia|done|].
    by intros j md [=].
  - unfold bind. destruct (_build_curve md m) as [[c|e] m1] eqn:Hb; [|done].
    intros Hrec.
    destruct (_build_curve_cases _ _ _ _ Hb)
      as [(e & ? & _)|(cls & i & [(e & ? & _)|(k & v & Hok & -> & _)])];
      try discriminate.
    injection Hok as ->.
    apply IH in Hrec as (-> & Hlen & Hpre & Hall). cbn in *.
    rewrite length_app in *. cbn in *.
    split_and!.
    + rewrite <- app_assoc. cbn. do 3 f_equal. lia.
    + lia.
    + etrans; [|exact Hpre]. by apply prefix_app_r.
    + intros [|j] md0 Hj; cbn in Hj.
      * injection Hj as <-. exists cls, i. rewrite Nat.add_0_r.
        eapply prefix_lookup_Some; [|exact Hpre]. apply heap_lookup_new.
      * destruct (Hall j md0 Hj) as (cls0 & i0 & Hobj). exists cls0, i0.
        rewrite <- Hobj. f_equal. lia.
Qed.

(** X13.  When the handler of a search returns, the body was a JSON
    value that iterates, and the curves returned are as many as its
    items and in their order: the j-th is a new object, distinct from
    the others, holding the j-th item as its metadata. *)
Theorem X13_multi_curve_order (response : Response) (m : Machine)
    (cs : list ref) (m' : Machine) :
  handle_multi_curve_response response m = (Ok cs, m') ->
  exists body items,
    json_loads E (content response) = Ok body
    /\ py_iter body = Ok items
    /\ length cs = length items
    /\ NoDup cs
    /\ forall j md, items !! j = Some md ->
         exists c obj,
           cs !! j = Some c
           /\ heap m !! c = None
           /\ heap m' !! c = Some obj
           /\ curve_metadata obj = Some md.
Proof.
  unfold handle_multi_curve_response, bind, lift, raise.
  destruct (response_ok response); [|by destruct (decode E _)].
  destruct (json_loads E (content response)) as [body|] eqn:Hbody; [|done].
  destruct (py_iter body) as [items|] eqn:Hitems; [|done].
  intros Hrun. apply build_curves_ok in Hrun as (-> & Hlen & Hpre & Hall).
  exists body, items. cbn. split_and!; try done.
  - apply length_seq.
  - apply NoDup_seq.
  - intros j md Hj. destruct (Hall j md Hj) as (cls & i & Hobj).
    exists (length (heap m) + j)%nat, (mkCurve cls i (Some md)).
    split_and!; try done.
    + apply lookup_seq. split; [done|]. by eapply lookup_lt_Some.
    + apply lookup_ge_None_2. lia.
Qed.

(** X14.  The loop over the records of a search stops at the first
    record that does not build and raises what it raised; the records
    after it are not looked at, and nothing is undone: the machine is the
    one the records before it, and the failing record itself, left. *)
Theorem X14_multi_curve_stops_at_first_failure
    (response : Response) (body : pyval) (before after : list pyval)
    (md : pyval) (m m1 m2 : Machine) (cs : list ref) (e : PyExc) :
  response_ok response = true ->
  json_loads E (content response) = Ok body ->
  py_iter body = Ok (before ++ md :: after)%list ->
  build_curves before [] m = (Ok cs, m1) ->
  _build_curve md m1 = (Raise e, m2) ->
  handle_multi_curve_response response m = (Raise e, m2)
  /\ extends m m1 /\ extends m1 m2
  /\ length (heap m1) = (length (heap m) + length before)%nat.
Proof.
  intros Hok Hbody Hiter Hbefore Hmd. split_and!.
  - unfold handle_multi_curve_response, bind at 1 2, lift.
    rewrite Hok, Hbody, Hiter, build_curves_app.
    unfold bind at 1. rewrite Hbefore. cbn. unfold bind. by rewrite Hmd.
  - apply (preserves_build_curves (extends m) before [] (extends_closed m)
             _ _ _ Hbefore), extends_refl.
  - apply (preserves_build_curve (extends m1) md (extends_closed m1)
             _ _ _ Hmd), extends_refl.
  - by apply build_curves_ok in Hbefore as (_ & ? & _).
Qed.

(** ** Records that share an id, and records that are not records *)

(** X15.  When a second record is built for an id that is already
    cached, under another name, the id's entry is the new curve (the
    last write wins) while the old name still gives the id: a lookup by
    the old name now returns the new curve, whose name is the new one.
    The old curve stays where it was, out of a cache that was well
    formed. *)
Theorem X15_same_id_other_name (d1 d2 : list (string * pyval)) (m : Machine)
    (id1 id2 ct1 ct2 : pyval) (n : Z) (cls1 cls2 : CurveClass)
    (name1 name2 : string) :
  cache_wellformed m ->
  (forall key, key ∈ _meta_keys -> has_key d1 key) ->
  (forall key, key ∈ _meta_keys -> has_key d2 key) ->
  dict_of_pairs d1 !! "id" = Some id1 -> py_int id1 = Ok n ->
  dict_of_pairs d2 !! "id" = Some id2 -> py_int id2 = Ok n ->
  dict_of_pairs d1 !! "curve_type" = Some ct1 ->
  curve_types_find ct1 = Ok (Some cls1) ->
  dict_of_pairs d2 !! "curve_type" = Some ct2 ->
  curve_types_find ct2 = Ok (Some cls2) ->
  dict_of_pairs d1 !! "name" = Some (PStr name1) ->
  dict_of_pairs d2 !! "name" = Some (PStr name2) ->
  name1 <> name2 ->
  exists c1 c2 m1 m2,
    _build_curve (PDict d1) m = (Ok c1, m1)
    /\ _build_curve (PDict d2) m1 = (Ok c2, m2)
    /\ c1 <> c2
    /\ _curve_cache (session m2) !! n = Some c2
    /\ _name_cache (session m2) !! KStr name1 = Some n
    /\ _name_cache (session m2) !! KStr name2 = Some n
    /\ get_curve None (Some name1) m2 = (Ok c2, m2)
    /\ heap m2 !! c1 = Some (mkCurve cls1 n (Some (PDict d1)))
    /\ heap m2 !! c2 = Some (mkCurve cls2 n (Some (PDict d2)))
    /\ (forall i, _curve_cache (session m2) !! i <> Some c1).
Proof.
  intros Hwf Hk1 Hk2 Hid1 Hint1 Hid2 Hint2 Hct1 Hf1 Hct2 Hf2 Hn1 Hn2 Hne.
  set (m1 := with_name (with_curve m cls1 n (PDict d1)) (KStr name1) n).
  set (m2 := with_name (with_curve m1 cls2 n (PDict d2)) (KStr name2) n).
  assert (Hc2 : length (heap m1) = S (length (heap m))).
  { cbn. rewrite length_app. cbn. lia. }
  assert (Hcache : _curve_cache (session m2) !! n = Some (length (heap m1))).
  { apply lookup_insert_eq. }
  assert (Hname : _name_cache (session m2) !! KStr name1 = Some n).
  { cbn. rewrite lookup_insert_ne by congruence. apply lookup_insert_eq. }
  exists (length (heap m)), (length (heap m1)), m1, m2.
  split; [by eapply _build_curve_ok|].
  split; [by eapply _build_curve_ok|].
  split_and!; try done.
  - lia.
  - apply lookup_insert_eq.
  - by apply (get_curve_hit None (Some name1) m2 n).
  - apply lookup_app_l_Some, heap_lookup_new.
  - apply heap_lookup_new.
  - intros i. unfold m2. cbn -[m1]. rewrite lookup_insert.
    case_decide;
      [intros [= Heq]; unfold m1 in Heq; cbn in Heq;
       rewrite length_app in Heq; cbn in Heq; lia|].
    unfold m1. cbn. rewrite lookup_insert. case_decide; [congruence|].
    intros Hi. destruct (Hwf i _ Hi) as (obj & Hobj & _).
    apply lookup_lt_Some in Hobj. lia.
Qed.

(** X16.  The two caches are written one after the other: a record that
    has the five keys, an id that [int] converts and a registered type,
    but a name that cannot be hashed (a JSON array or object), raises
    TypeError after the curve was entered in [_curve_cache].  The curve
    stays cached under its id, a lookup by that id returns it, and
    [_name_cache] is as before. *)
Theorem X16_unhashable_name (d : list (string * pyval)) (m : Machine)
    (id_val ct name : pyval) (n : Z) (cls : CurveClass) (e : PyExc) :
  (forall key, key ∈ _meta_keys -> has_key d key) ->
  dict_of_pairs d !! "id" = Some id_val -> py_int id_val = Ok n ->
  dict_of_pairs d !! "curve_type" = Some ct ->
  curve_types_find ct = Ok (Some cls) ->
  dict_of_pairs d !! "name" = Some name -> py_hash name = Raise e ->
  exists m' msg,
    _build_curve (PDict d) m = (Raise (TypeError msg), m')
    /\ e = TypeError msg
    /\ _curve_cache (session m') !! n = Some (length (heap m))
    /\ heap m' !! length (heap m) = Some (mkCurve cls n (Some (PDict d)))
    /\ _name_cache (session m') = _name_cache (session m)
    /\ forall name', get_curve (Some n) name' m' = (Ok (length (heap m)), m').
Proof.
  intros Hkeys Hid Hint Hct Hfind Hname Hhash.
  assert (exists msg, e = TypeError msg) as [msg ->].
  { destruct name; cbn in Hhash; simplify_eq; eauto. }
  exists (with_curve m cls n (PDict d)), msg.
  assert (Hc : _curve_cache (session (with_curve m cls n (PDict d))) !! n
               = Some (length (heap m))) by apply lookup_insert_eq.
  split_and!; try done.
  - unfold _build_curve, bind, lift, alloc, modify_session, ret.
    rewrite (check_meta_keys_ok _ _ Hkeys). cbn.
    rewrite Hid, Hint, Hct, Hfind. cbn.
    rewrite heap_lookup_new. unfold curve_getattr. cbn.
    by rewrite Hname, Hhash.
  - apply heap_lookup_new.
  - intros name'.
    by apply (get_curve_hit (Some n) name' _ n).
Qed.

(** X17.  A JSON value that is not an object never builds a curve:
    [_build_curve] raises, never a CurveException, and the machine is as
    before.  [null], a number or a boolean raises TypeError at the first
    membership test. *)
Theorem X17_not_a_record (metadata : pyval) (m : Machine) :
  (forall d, metadata <> PDict d) ->
  exists e,
    _build_curve metadata m = (Raise e, m)
    /\ is_curve_error e = false
    /\ (match metadata with
        | PNone | PBool _ | PInt _ => exists msg, e = TypeError msg
        | _ => True
        end).
Proof.
  intros Hnot. unfold _build_curve, bind, lift.
  destruct metadata as [|b|z|s|l|d]; try (by destruct (Hnot d));
    try (cbn; eexists; split_and!; [reflexivity|done|by eexists]).
  - destruct (check_meta_keys _meta_keys (PStr s)) as [[]|e] eqn:Hkeys.
    + cbn. eexists. by split_and!.
    + exists e. split_and!; try done.
      unfold _meta_keys in Hkeys. cbn in Hkeys.
      repeat (case_match; simplify_eq; try done).
  - destruct (check_meta_keys _meta_keys (PList l)) as [[]|e] eqn:Hkeys.
    + cbn. eexists. by split_and!.
    + exists e. split_and!; try done.
      unfold _meta_keys in Hkeys. cbn in Hkeys.
      repeat (case_match; simplify_eq; try done).
Qed.

(** ** Configuration files, read to the end or not *)

Lemma read_config_file_frame config_file m r m' :
  read_config_file config_file m = (r, m') ->
  heap m' = heap m /\ sent m' = sent m
  /\ _curve_cache (session m') = _curve_cache (session m)
  /\ _name_cache (session m') = _name_cache (session m).
Proof.
  unfold read_config_file, bind, get_session, lift, modify_session, raise, ret.
  intros Hrun. cbn in Hrun.
  repeat (case_match; simplify_eq; cbn in * ); by split_and!.
Qed.

Lemma configure_frame cid secret aub m r m' :
  configure cid secret aub m = (r, m') ->
  heap m' = heap m /\ sent m' = sent m
  /\ _curve_cache (session m') = _curve_cache (session m)
  /\ _name_cache (session m') = _name_cache (session m)
  /\ urlbase (session m') = urlbase (session m).
Proof.
  unfold configure, bind, get_session, modify_session, raise.
  intros Hrun. cbn in Hrun.
  repeat (case_match; simplify_eq; cbn in * ); by split_and!.
Qed.

(** X18.  On an unconfigured Session, with a source whose [common]
    section gives a [urlbase] and the [auth_type] OAuth and which has an
    [OAuth] section, [read_config_file] applies the urlbase and reads
    [id], [secret] and [auth_urlbase] from that section, in this order,
    before it constructs the provider: the first of the three that the
    section lacks makes it raise NoOptionError for that option, with the
    Session still without a provider.  When it returns, the provider it
    has set holds exactly the three values of the source.  Whatever
    happens, the caches and the objects are as before. *)
Theorem X18_read_config_file_oauth (f : ConfigFile)
    (common oauth : gmap string string) (u : string)
    (m : Machine) (r : Result unit) (m' : Machine) :
  auth (session m) = None ->
  cfg_sections f !! "common" = Some common ->
  (common ∪ cfg_defaults f) !! "urlbase" = Some u ->
  (common ∪ cfg_defaults f) !! "auth_type" = Some "OAuth" ->
  cfg_sections f !! "OAuth" = Some oauth ->
  read_config_file (Ok f) m = (r, m') ->
  urlbase (session m') = u
  /\ _curve_cache (session m') = _curve_cache (session m)
  /\ _name_cache (session m') = _name_cache (session m)
  /\ heap m' = heap m
  /\ ((oauth ∪ cfg_defaults f) !! "id" = None ->
      r = Raise (NoOptionError "id" "OAuth") /\ auth (session m') = None)
  /\ (is_Some ((oauth ∪ cfg_defaults f) !! "id") ->
      (oauth ∪ cfg_defaults f) !! "secret" = None ->
      r = Raise (NoOptionError "secret" "OAuth") /\ auth (session m') = None)
  /\ (is_Some ((oauth ∪ cfg_defaults f) !! "id") ->
      is_Some ((oauth ∪ cfg_defaults f) !! "secret") ->
      (oauth ∪ cfg_defaults f) !! "auth_urlbase" = None ->
      r = Raise (NoOptionError "auth_urlbase" "OAuth")
      /\ auth (session m') = None)
  /\ (r = Ok tt ->
      exists cid secret aub,
        (oauth ∪ cfg_defaults f) !! "id" = Some cid
        /\ (oauth ∪ cfg_defaults f) !! "secret" = Some secret
        /\ (oauth ∪ cfg_defaults f) !! "auth_urlbase" = Some aub
        /\ auth (session m') = Some (mkOAuth cid secret aub)).
Proof.
  intros Hnone Hsec Hub Hty Hoauth Hrun.
  pose proof (read_config_file_frame _ _ _ _ Hrun) as (Hh & _ & Hc & Hn).
  unfold read_config_file, bind, get_session, lift, modify_session, ret
    in Hrun.
  rewrite Hnone in Hrun. cbn in Hrun.
  rewrite (config_get_section _ _ _ _ _ _ Hsec Hub) in Hrun by done.
  cbn in Hrun.
  rewrite (config_get_section _ _ _ _ _ _ Hsec Hty) in Hrun by done.
  cbn in Hrun.
  destruct ((oauth ∪ cfg_defaults f) !! "id") as [cid|] eqn:Hid.
  2:{ rewrite (config_get_missing _ _ _ _ _ Hoauth Hid) in Hrun by done.
      injection Hrun as <- <-. cbn.
      split_and!; try done; by intros [? [=]]. }
  rewrite (config_get_section _ _ _ _ _ _ Hoauth Hid) in Hrun by done.
  cbn in Hrun.
  destruct ((oauth ∪ cfg_defaults f) !! "secret") as [secret|] eqn:Hsecret.
  2:{ rewrite (config_get_missing _ _ _ _ _ Hoauth Hsecret) in Hrun by done.
      injection Hrun as <- <-. cbn.
      split_and!; try done; by intros _ [? [=]]. }
  rewrite (config_get_section _ _ _ _ _ _ Hoauth Hsecret) in Hrun by done.
  cbn in Hrun.
  destruct ((oauth ∪ cfg_defaults f) !! "auth_urlbase") as [aub|] eqn:Haub.
  2:{ rewrite (config_get_missing _ _ _ _ _ Hoauth Haub) in Hrun by done.
      injection Hrun as <- <-. cbn. by split_and!. }
  rewrite (config_get_section _ _ _ _ _ _ Hoauth Haub) in Hrun by done.
  cbn in Hrun. injection Hrun as <- <-. cbn. split_and!; try done.
  intros _. by exists cid, secret, aub.
Qed.

(** X19.  [read_config_file] applies the urlbase before it reads the
    rest: when the source gives a [urlbase] but no [auth_type], or the
    [auth_type] OAuth but no [OAuth] section, the call raises
    NoOptionError or NoSectionError, and the Session keeps the new
    urlbase, still without a provider. *)
Theorem X19_read_config_file_not_atomic (f : ConfigFile)
    (common : gmap string string) (u : string) (m : Machine) :
  auth (session m) = None ->
  cfg_sections f !! "common" = Some common ->
  (common ∪ cfg_defaults f) !! "urlbase" = Some u ->
  ((common ∪ cfg_defaults f) !! "auth_type" = None ->
   exists m',
     read_config_file (Ok f) m = (Raise (NoOptionError "auth_type" "common"), m')
     /\ urlbase (session m') = u /\ auth (session m') = None)
  /\ ((common ∪ cfg_defaults f) !! "auth_type" = Some "OAuth" ->
      cfg_sections f !! "OAuth" = None ->
      exists m',
        read_config_file (Ok f) m = (Raise (NoSectionError "OAuth"), m')
        /\ urlbase (session m') = u /\ auth (session m') = None).
Proof.
  intros Hnone Hsec Hub. split.
  - intros Hno. apply lookup_union_None in Hno as [Hc Hd].
    eexists. split.
    { unfold read_config_file, bind, get_session, lift, modify_session, ret.
      rewrite Hnone. cbn.
      rewrite (config_get_section _ _ _ _ _ _ Hsec Hub) by done. cbn.
      unfold config_get. rewrite Hsec, Hc. unfold parser_defaults.
      rewrite lookup_union_r by done. rewrite lookup_singleton_ne by done.
      reflexivity. }
    by cbn.
  - intros Hty Hnosec. eexists. split.
    { unfold read_config_file, bind, get_session, lift, modify_session, ret.
      rewrite Hnone. cbn.
      rewrite (config_get_section _ _ _ _ _ _ Hsec Hub) by done. cbn.
      rewrite (config_get_section _ _ _ _ _ _ Hsec Hty) by done. cbn.
      unfold config_get. rewrite Hnosec. cbn. reflexivity. }
    by cbn.
Qed.

(** ** The constructor *)

(** X20.  A Session is constructed with empty caches and makes no
    curve object.  An explicit [urlbase] is what the Session has when
    the constructor returns, whatever the configuration file says.
    Without a file, one credential alone configures nothing: the
    constructor returns, the Session has no provider and nothing was
    sent; with both, the provider the Session has when the constructor
    returns holds them, at the default authentication host when none is
    given.  With a file, the credentials are not looked at, and the
    constructor ends as [read_config_file] on the new Session does:
    what that call raises, the constructor raises. *)
Theorem X20_init (ub : option string) (config_file : option ConfigSource)
    (cid secret aub : option string) (m : Machine)
    (r : Result unit) (m' : Machine) :
  __init__ ub config_file cid secret aub m = (r, m') ->
  _curve_cache (session m') = ∅
  /\ _name_cache (session m') = ∅
  /\ heap m' = heap m
  /\ (forall u, ub = Some u -> r = Ok tt -> urlbase (session m') = u)
  /\ (config_file = None -> cid = None \/ secret = None ->
      r = Ok tt /\ auth (session m') = None /\ sent m' = sent m
      /\ (ub = None -> urlbase (session m') = "https://api.wattsight.com"))
  /\ (forall c s, config_file = None -> cid = Some c -> secret = Some s ->
        r = Ok tt ->
        auth (session m')
        = Some (mkOAuth c s (default "https://auth.wattsight.com/" aub)))
  /\ (forall f, config_file = Some f ->
        __init__ ub config_file cid secret aub m
        = __init__ ub config_file None None None m
        /\ exists m1,
             read_config_file f
               (mkMachine new_session (heap m) (sent m) (validations m)
                          (sleeps m))
             = (r, m1)).
Proof.
  intros Hrun.
  assert (Hfile : forall f, config_file = Some f ->
            __init__ ub config_file cid secret aub m
            = __init__ ub config_file None None None m)
    by (by intros f ->).
  revert Hfile. generalize (__init__ ub config_file None None None m).
  intros other Hfile.
  unfold __init__, bind, modify_session in Hrun. cbn in Hrun.
  set (m0 := mkMachine new_session (heap m) (sent m) (validations m) (sleeps m))
    in *.
  destruct config_file as [f|].
  - destruct (read_config_file f m0) as [[[]|e] m1] eqn:Hcfg;
      pose proof (read_config_file_frame _ _ _ _ Hcfg) as (Hh & Hs & Hc & Hn);
      [destruct ub as [u|]; unfold ret in Hrun|];
      injection Hrun as <- <-; cbn in *; split_and!; try done;
      try (intros; simplify_eq; cbn; try done; eauto; fail);
      (intros f' [= <-]; split; [by apply Hfile|]; by eexists).
  - assert (Hnone : auth (session m0) = None) by done.
    destruct cid as [c|], secret as [s|]; cbn in Hrun;
      [unfold configure, bind, get_session, modify_session in Hrun;
       cbn in Hrun|..];
      (destruct ub as [u|]; unfold ret in Hrun;
       injection Hrun as <- <-; cbn in *; split_and!; try done;
       try (intros; simplify_eq; cbn; try done; eauto; fail);
       try (intros _ [?|?]; simplify_eq; done);
       try (intros; simplify_eq; by destruct aub)).
Qed.

(** ** Searches that ask for nothing *)

(** X21.  A criterion whose value is an empty list (or an empty dict)
    adds no pair, so a search all of whose criteria are such is the
    search without criteria: it requests [/api/curves], without a query
    string. *)
Theorem X21_search_empty_criteria (kwargs : list (string * pyval))
    (m : Machine) :
  allowed_keys kwargs ->
  (forall kv, kv ∈ kwargs ->
     iterable_not_str kv.2 = true /\ iter_elements kv.2 = []) ->
  search_args kwargs [] = Ok []
  /\ search kwargs m = search [] m
  /\ forall r m',
       search kwargs m = (r, m') ->
       exists new,
         sent m' = (sent m ++ new)%list
         /\ forall j e, new !! j = Some e ->
              req_url e.1 = urljoin E (urlbase (session m)) "/api/curves".
Proof.
  intros Hall Hempty.
  assert (Hpairs : spec_query_pairs kwargs = []).
  { unfold spec_query_pairs.
    induction kwargs as [|kv kwargs IH]; [done|]. cbn.
    destruct (Hempty kv) as [-> ->]; [by left|]. cbn.
    apply IH.
    - by apply Forall_inv_tail in Hall.
    - intros kv' Hkv'. apply Hempty. by right. }
  assert (Hargs : search_args kwargs [] = Ok []).
  { rewrite (search_args_spec kwargs [] Hall). by rewrite Hpairs. }
  assert (Hsearch : search kwargs m = search [] m).
  { unfold search, bind at 1 3, lift. rewrite Hargs. reflexivity. }
  split_and!; [done..|].
  intros r m'. rewrite Hsearch. unfold search, bind, lift, get_session. cbn.
  unfold data_request.
  destruct (data_request_rec _ _ _ _ _ _ _ m) as [[resp|e] m1] eqn:Hreq;
    destruct (data_request_rec_log _ _ _ _ _ _ _ _ _ _ Hreq) as [new L].
  - intros Hh. apply handle_multi_sent in Hh. exists new.
    split; [rewrite Hh; apply L|].
    intros j x Hj.
    destruct (log_requests _ _ _ _ _ _ _ _ _ _ _ L j x Hj) as (v & _ & ->).
    cbn -[effective_urlbase]. by rewrite effective_urlbase_self.
  - intros [= _ <-]. exists new. split; [apply L|].
    intros j x Hj.
    destruct (log_requests _ _ _ _ _ _ _ _ _ _ _ L j x Hj) as (v & _ & ->).
    cbn -[effective_urlbase]. by rewrite effective_urlbase_self.
Qed.

(** ** What a lookup builds *)

(** X22.  When the handler of a lookup returns a curve, the answer's
    status was not in [400,600) and its body parsed to a JSON object;
    the curve is a new object built from that object, it is cached under
    the integer its id converts to, its name is entered in [_name_cache]
    for that id, and nothing was sent. *)
Theorem X22_single_curve_built (response : Response) (m : Machine)
    (c : ref) (m' : Machine) :
  handle_single_curve_response response m = (Ok c, m') ->
  ~ is_error_status response
  /\ exists d obj name k,
       json_loads E (content response) = Ok (PDict d)
       /\ c = length (heap m)
       /\ heap m' = (heap m ++ [obj])%list
       /\ curve_metadata obj = Some (PDict d)
       /\ built_from_record obj (curve_id obj)
       /\ _curve_cache (session m') !! curve_id obj = Some c
       /\ dict_of_pairs d !! "name" = Some name
       /\ py_hash name = Ok k
       /\ _name_cache (session m') !! k = Some (curve_id obj)
       /\ sent m' = sent m.
Proof.
  unfold handle_single_curve_response, bind, lift, raise.
  destruct (response_ok response) eqn:Hok; [|by destruct (decode E _)].
  destruct (json_loads E (content response)) as [md|] eqn:Hbody; [|done].
  intros Hrun. split.
  { unfold response_ok in Hok. apply negb_true_iff in Hok.
    by apply bool_decide_eq_false in Hok. }
  destruct (_build_curve_built _ _ _ _ Hrun)
    as [(e & ? & _)
       |(cls & i & Hb & [(e & ? & _)|(k & v & Hc & -> & Hattr & Hk)])];
    try discriminate.
  injection Hc as ->.
  pose proof Hb as (d & id_val & ct & Hmd & _).
  cbn in Hmd. injection Hmd as ->.
  exists d, (mkCurve cls i (Some (PDict d))), v, k.
  cbn. split_and!; try done.
  - apply lookup_insert_eq.
  - unfold curve_getattr in Hattr. cbn in Hattr.
    by destruct (dict_of_pairs d !! "name"); simplify_eq.
  - apply lookup_insert_eq.
Qed.

End WithExternals.

(** * The properties at concrete inputs *)

Ltac each_meta_key Hkey :=
  repeat (apply elem_of_cons in Hkey as [->|Hkey]; [vm_compute; eauto|]);
  by apply elem_of_nil in Hkey.

(** A Session configured once refuses both ways of configuring it. *)
Lemma C1_witness :
  let m := (configure "id" "secret" None new_machine).2 in
  read_config_file demo (Ok basic_config) m = (Raise already_done, m)
  /\ configure "id2" "secret2" None m = (Raise already_done, m).
Proof.
  intros m.
  destruct (C1_configured_once demo [] m
              (mkOAuth "id" "secret" "https://auth.wattsight.com/"))
    as (H1 & H2 & _); [reflexivity|].
  split; [apply H1|apply H2].
Defined.

(** 503, 503, 503, 200 with a budget of 4, and 503 for ever with a
    budget of 1. *)
Lemma C2_witness :
  (exists res req m',
     data_request demo "GET" None "/api/curves" None None None 4 new_machine
     = (Ok res, m')
     /\ status_code res = 200
     /\ length (sent m') = 4%nat
     /\ last (sent m') = Some (req, Ok res))
  /\
  (exists res req m',
     data_request demo_busy "GET" None "/api/curves" None None None 1 new_machine
     = (Ok res, m')
     /\ (500 <= status_code res < 600 \/ status_code res = 408)
     /\ length (sent m') = 2%nat
     /\ last (sent m') = Some (req, Ok res)).
Proof.
  split.
  - destruct (C2_retry_budget demo "GET" None "/api/curves" None None None
                4 new_machine) as [_ H]; [lia|by intros k a _|].
    destruct H as [H4 _]; [| |exact H4].
    + intros k req Hk. exists (mkResponse 503 "[]"). split; [|reflexivity].
      cbn. destruct k as [|[|[|k]]]; [reflexivity..|lia].
    + intros req. eexists. split; reflexivity.
  - destruct (C2_retry_budget demo_busy "GET" None "/api/curves" None None None
                1 new_machine) as [H _]; [lia|by intros k a _|].
    apply H. intros k req _. eexists. split; [reflexivity|]. cbn. lia.
Defined.

(** The 200 that follows three 503 is returned at once. *)
Lemma C3_witness :
  exists res req m',
    data_request demo "GET" None "/api/curves" None None None 4 new_machine
    = (Ok res, m')
    /\ transport demo 3 req = Ok res
    /\ length (sent m') = 4%nat
    /\ last (sent m') = Some (req, Ok res).
Proof.
  destruct (C3_status_never_raises demo "GET" None "/api/curves" None None None
              4 new_machine) as [H _].
  apply (H 3%nat).
  - vm_compute. lia.
  - by intros k a _.
  - intros k req Hk. exists (mkResponse 503 "[]"). split; [|cbn; lia].
    cbn. destruct k as [|[|[|k]]]; [reflexivity..|lia].
  - intros req. eexists. split; [reflexivity|]. cbn. lia.
Defined.

(** The record of the example, as the general statement has it. *)
Lemma C4_witness :
  exists c m',
    _build_curve demo (PDict oslo_temp) new_machine = (Ok c, m')
    /\ heap new_machine !! c = None
    /\ heap m' !! c
       = Some (mkCurve TimeSeriesCurve 42 (Some (PDict oslo_temp)))
    /\ _curve_cache (session m') !! 42 = Some c
    /\ _name_cache (session m') !! KStr "Oslo Temp" = Some 42.
Proof.
  apply (C4_build_curve_caches demo oslo_temp new_machine
           (PStr "42") (PStr "Oslo Temp") 42 "TIME_SERIES" TimeSeriesCurve
           (KStr "Oslo Temp")).
  - apply (bool_decide_unpack _). by vm_compute.
  - intros key Hkey. unfold _meta_keys in Hkey. each_meta_key Hkey.
  - by vm_compute.
  - by vm_compute.
  - by vm_compute.
  - apply (bool_decide_unpack _). by vm_compute.
  - by vm_compute.
  - reflexivity.
Defined.

(** The record without [curve_type]. *)
Lemma C5_witness :
  exists key, key ∈ _meta_keys /\ ~ has_key oslo_temp_untyped key
    /\ _build_curve demo (PDict oslo_temp_untyped) new_machine
       = (Raise (missing_key_error key), new_machine).
Proof.
  apply (C5_build_curve_errors demo oslo_temp_untyped new_machine).
  exists "curve_type". split.
  - unfold _meta_keys. repeat (first [by left|right]).
  - intros [v Hv]. vm_compute in Hv. discriminate.
Defined.

(** The record whose id is ["abc"]. *)
Lemma C6_witness :
  _build_curve demo (PDict oslo_temp_bad_id) new_machine
  = (Raise (ValueError "invalid literal for int() with base 10: 'abc'"),
     new_machine)
  /\ is_metadata_error
       (ValueError "invalid literal for int() with base 10: 'abc'") = false.
Proof.
  destruct (C6_id_not_convertible demo oslo_temp_bad_id new_machine
              (PStr "abc")
              (ValueError "invalid literal for int() with base 10: 'abc'"))
    as (H1 & H2 & _).
  - intros key Hkey. unfold _meta_keys in Hkey. each_meta_key Hkey.
  - by vm_compute.
  - reflexivity.
  - by split.
Defined.

(** C6: the claim as it is stated fails on the record whose id is
    ["abc"]: what is raised is the ValueError of [int]. *)
Lemma C6_counterexample :
  _build_curve demo (PDict oslo_temp_bad_id) new_machine
  = (Raise (ValueError "invalid literal for int() with base 10: 'abc'"),
     new_machine)
  /\ ~ (forall (E : Externals) (d : list (string * pyval)) (m : Machine)
               (id_val : pyval) (e : PyExc),
          (forall key, key ∈ _meta_keys -> has_key d key) ->
          dict_of_pairs d !! "id" = Some id_val ->
          py_int E id_val = Raise e ->
          exists msg,
            (_build_curve E (PDict d) m).1 = Raise (MetadataException msg)).
Proof.
  split; [by vm_compute|].
  intros Hclaim.
  destruct (Hclaim demo oslo_temp_bad_id new_machine (PStr "abc")
              (ValueError "invalid literal for int() with base 10: 'abc'"))
    as [msg Hmsg].
  - intros key Hkey. unfold _meta_keys in Hkey. each_meta_key Hkey.
  - by vm_compute.
  - reflexivity.
  - vm_compute in Hmsg. discriminate.
Qed.

(** After the record of the example is built, a lookup by its name. *)
Lemma C7_witness :
  let m := (_build_curve demo (PDict oslo_temp) new_machine).2 in
  get_curve demo None (Some "Oslo Temp") m = (Ok 0%nat, m)
  /\ sent m = [].
Proof.
  intros m.
  destruct (C7_get_curve_cached demo m) as (_ & _ & H & _).
  apply (H oslo_temp new_machine); by vm_compute.
Defined.

(** [search(area=["NO","SE"])] and [search(foo="x")]. *)
Lemma C8_witness :
  search demo [("area", PList [PStr "NO"; PStr "SE"])] new_machine
  = search_request demo [("area", PList [PStr "NO"; PStr "SE"])] new_machine
  /\ exists key,
       search demo [("foo", PStr "x")] new_machine
       = (Raise (illegal_search_parameter key), new_machine).
Proof.
  split.
  - destruct (C8_search_query demo [("area", PList [PStr "NO"; PStr "SE"])]
                new_machine) as (H & _ & _).
    apply H. unfold allowed_keys.
    apply (bool_decide_unpack _). by vm_compute.
  - destruct (C8_search_query demo [("foo", PStr "x")] new_machine)
      as (_ & _ & H).
    destruct H as (key & _ & _ & Hrun); [|by exists key].
    unfold allowed_keys. apply (bool_decide_eq_false_1 _). by vm_compute.
Defined.

(** Consistency after a build and a search on a new Session. *)
Lemma C9_witness :
  cache_consistent
    (session (run_ops demo [OpBuildCurve (PDict oslo_temp);
                            OpSearch [("area", PStr "NO")]] new_machine).2).
Proof.
  destruct (C9_cache_consistency demo) as (H0 & _ & H & _).
  apply H. exact H0.
Defined.

(** The configuration without OAuth, on a new Session. *)
Lemma C10_witness :
  exists m',
    read_config_file demo (Ok basic_config) new_machine = (Ok tt, m')
    /\ auth (session m') = None
    /\ urlbase (session m') = "https://example.test".
Proof.
  destruct (C10_non_oauth_config demo basic_config basic_common
              "https://example.test" "Basic" new_machine)
    as (m' & Hrun & Hauth & Hub & _); try by vm_compute.
  by exists m'.
Defined.

(** ** The further properties at concrete inputs *)

Ltac by_running := vm_compute; reflexivity.

(** A call that goes through 503, 503, 503 and 200. *)
Lemma X1_witness :
  let run := data_request demo "GET" None "/api/curves" None None None 4
               new_machine in
  exists new, sent run.2 = new /\ (length new <= 5)%nat
              /\ (sleeps run.2 <= 4)%nat.
Proof.
  intros run.
  destruct (X1_data_request_bounds demo "GET" None "/api/curves" None None None
              4 new_machine run.1 run.2)
    as (new & H1 & H2 & H3 & _); [by_running|].
  exists new. split_and!; [exact H1|exact H2|apply H3].
Defined.

Lemma X2_witness :
  let run := data_request demo "GET" None "/api/curves" None None None 4
               new_machine in
  exists new,
    sent run.2 = new
    /\ forall i e, new !! i = Some e -> (S i < length new)%nat ->
         exists res, e.2 = Ok res
           /\ (500 <= status_code res < 600 \/ status_code res = 408).
Proof.
  intros run.
  destruct (X2_data_request_retries_only_transient demo "GET" None
              "/api/curves" None None None 4 new_machine run.1 run.2)
    as (new & H1 & H2 & _); [by_running|].
  exists new. split; [exact H1|exact H2].
Defined.

(** A call given both [data] and [rawdata]. *)
Lemma X3_witness :
  let run := data_request demo "POST" (Some "") "/api/x"
               (Some (DataStr "{}")) (Some "raw") None 0 new_machine in
  exists new,
    sent run.2 = new
    /\ forall i e, new !! i = Some e ->
         req_method e.1 = "POST"
         /\ req_url e.1 = "https://api.wattsight.com/api/x"
         /\ req_data e.1 = Some "{}".
Proof.
  intros run.
  destruct (X3_data_request_requests demo "POST" (Some "") "/api/x"
              (Some (DataStr "{}")) (Some "raw") None 0 new_machine
              run.1 run.2)
    as (new & H1 & H2); [by_running|].
  exists new. split; [exact H1|].
  intros i e Hi. destruct (H2 i e Hi) as (Hm & _ & Hu & Hd & _).
  split_and!; [exact Hm|exact Hu|exact Hd].
Defined.

(** A call on a configured Session. *)
Lemma X4_witness :
  let run := data_request demo "GET" None "/api/curves" None None None 4
               configured_machine in
  exists new, sent run.2 = new /\ validations run.2 = length new.
Proof.
  intros run.
  destruct (X4_data_request_validates_each_attempt demo "GET" None
              "/api/curves" None None None 4 configured_machine run.1 run.2)
    as (new & H1 & _ & H3); [by_running|].
  exists new. split; [exact H1|].
  destruct (H3 (mkOAuth "id" "secret" "https://auth.wattsight.com/"))
    as [_ Hok]; [reflexivity|].
  apply (Hok (mkResponse 200 "[]")). by_running.
Defined.

(** A build, a bare curve and a search: the first object stays. *)
Lemma X5_witness :
  heap (run_ops demo [OpBuildCurve (PDict oslo_temp);
                      OpMakeCurve 7 (PStr "TAGGED");
                      OpSearch [("area", PStr "NO")]] new_machine).2 !! 0%nat
  = Some (mkCurve TimeSeriesCurve 42 (Some (PDict oslo_temp))).
Proof.
  destruct (X5_nothing_is_lost demo
              [OpMakeCurve 7 (PStr "TAGGED"); OpSearch [("area", PStr "NO")]]
              (run_ops demo [OpBuildCurve (PDict oslo_temp)] new_machine).2)
    as (_ & H & _).
  apply (H 0%nat). by_running.
Defined.

Lemma X6_witness :
  let m := (run_ops demo [OpBuildCurve (PDict oslo_temp);
                          OpMakeCurve 7 (PStr "TAGGED")] new_machine).2 in
  _curve_cache (session m) !! 42 = Some 0%nat
  /\ exists obj d,
       heap m !! 0%nat = Some obj
       /\ curve_id obj = 42
       /\ curve_metadata obj = Some (PDict d).
Proof.
  intros m.
  assert (Hc : _curve_cache (session m) !! 42 = Some 0%nat) by by_running.
  split; [exact Hc|].
  destruct (X6_cached_curves_are_built demo
              [OpBuildCurve (PDict oslo_temp); OpMakeCurve 7 (PStr "TAGGED")])
    as [H _].
  destruct (H 42 0%nat Hc) as (obj & d & H1 & H2 & H3 & _).
  exists obj, d. by split_and!.
Defined.

Lemma X7_witness :
  let run := run_op demo (OpGetAttribute "areas") configured_machine in
  auth (session run.2) = auth (session configured_machine)
  /\ urlbase (session run.2) = urlbase (session configured_machine).
Proof.
  intros run.
  destruct (X7_only_configuration_writes_auth_urlbase demo
              (OpGetAttribute "areas") configured_machine run.1 run.2)
    as [H _]; [by_running|].
  by apply H.
Defined.

(** A lookup by id and name on an empty cache. *)
Lemma X8_witness :
  let run := get_curve demo_404 (Some 42) (Some "Oslo Temp") new_machine in
  exists new,
    sent run.2 = new
    /\ forall j e, new !! j = Some e ->
         req_url e.1 = "https://api.wattsight.com/api/curves/get?id=42".
Proof.
  intros run.
  destruct (X8_get_curve_requests demo_404 (Some 42) (Some "Oslo Temp")
              new_machine run.1 run.2)
    as (_ & _ & new & H1 & H2); [by_running|].
  exists new. split; [exact H1|].
  intros j e Hj. by destruct (H2 j e Hj) as [_ Hu].
Defined.

(** A lookup answered with the record of the example. *)
Lemma X9_witness :
  let run := get_curve demo_one None (Some "Oslo Temp") new_machine in
  run.1 = Ok 0%nat
  /\ get_curve demo_one (Some 42) None run.2 = (Ok 0%nat, run.2).
Proof.
  intros run. split; [by_running|].
  destruct (X9_get_curve_then_cached demo_one None (Some "Oslo Temp")
              new_machine 0%nat run.2)
    as (obj & Hobj & _ & Hhit).
  - intros i c Hi. cbn in Hi. by rewrite lookup_empty in Hi.
  - by_running.
  - assert (obj = mkCurve TimeSeriesCurve 42 (Some (PDict oslo_temp))) as ->.
    { assert (H0 : heap run.2 !! 0%nat
                   = Some (mkCurve TimeSeriesCurve 42 (Some (PDict oslo_temp))))
        by by_running.
      pose proof (eq_trans (eq_sym Hobj) H0) as Heq. by injection Heq. }
    apply (Hhit None).
Defined.

Lemma X10_witness :
  let run := get_attribute demo "areas" new_machine in
  run.1 = Ok (PList [])
  /\ session run.2 = session new_machine
  /\ get_attribute demo "area" new_machine
     = (Raise (MetadataException "Attribute area is not valid"), new_machine)
  /\ (get_attribute demo_404 "areas" new_machine).1
     = Raise (MetadataException "Failed loading areas: not found")
  /\ (get_attribute demo_garbled "areas" new_machine).1
     = Raise (UnicodeDecodeError "'utf-8' codec can't decode bytes").
Proof.
  intros run.
  destruct (X10_get_attribute demo "areas" new_machine run.1 run.2)
    as (_ & Hs & _); [by_running|].
  destruct (X10_get_attribute demo "area" new_machine
              (get_attribute demo "area" new_machine).1
              (get_attribute demo "area" new_machine).2)
    as (Hbad & _); [by_running|].
  destruct (X10_get_attribute demo_404 "areas" new_machine
              (get_attribute demo_404 "areas" new_machine).1
              (get_attribute demo_404 "areas" new_machine).2)
    as (_ & _ & _ & _ & H404); [by_running|].
  destruct (X10_get_attribute demo_garbled "areas" new_machine
              (get_attribute demo_garbled "areas" new_machine).1
              (get_attribute demo_garbled "areas" new_machine).2)
    as (_ & _ & _ & _ & Hgarbled); [by_running|].
  split_and!; [by_running|exact Hs| | |].
  - destruct Hbad as [Hr Hm].
    + apply (bool_decide_unpack _). by vm_compute.
    + rewrite (surjective_pairing (get_attribute demo "area" new_machine)).
      by rewrite Hr, Hm.
  - destruct (H404 not_found
                (data_request demo_404 "GET" (Some "https://api.wattsight.com")
                   "/api/areas" None None None RETRY_COUNT new_machine).2)
      as (_ & Htext & _);
      [apply (bool_decide_unpack _); by vm_compute|by_running
      |by vm_compute|by vm_compute|].
    apply (Htext "not found"). by_running.
  - destruct (Hgarbled garbled
                (data_request demo_garbled "GET"
                   (Some "https://api.wattsight.com")
                   "/api/areas" None None None RETRY_COUNT new_machine).2)
      as (_ & _ & Hexc);
      [apply (bool_decide_unpack _); by vm_compute|by_running
      |by vm_compute|by vm_compute|].
    apply Hexc. by_running.
Defined.

Lemma X11_witness :
  let run := make_curve demo 7 (PStr "TAGGED") configured_machine in
  run.1 = Ok 0%nat
  /\ session run.2 = session configured_machine
  /\ heap run.2 = [mkCurve TaggedCurve 7 None].
Proof.
  intros run.
  destruct (X11_make_curve demo 7 (PStr "TAGGED") configured_machine
              run.1 run.2) as (Hs & _ & Hok & _); [by_running|].
  destruct (Hok 0%nat) as (_ & _ & (cls & Hcls & Hheap) & _); [by_running|].
  split_and!; [by_running|exact Hs|].
  rewrite Hheap. vm_compute in Hcls. by injection Hcls as <-.
Defined.

(** A lookup and a search answered 404, and a lookup answered 404 with
    a body that is not UTF-8. *)
Lemma X12_witness :
  (get_curve demo_404 (Some 42) None new_machine).1
  = Raise (failed_to_load "not found")
  /\ (search demo_404 [("area", PStr "NO")] new_machine).1
     = Raise (search_failed "not found")
  /\ (get_curve demo_garbled (Some 42) None new_machine).1
     = Raise (UnicodeDecodeError "'utf-8' codec can't decode bytes").
Proof.
  split_and!.
  - destruct (X12_error_status_raises demo_404 new_machine
                (mkRequest "GET"
                   "https://api.wattsight.com/api/curves/get?id=42"
                   None ∅ None) not_found) as [Hget _].
    + intros k a Ha. discriminate.
    + unfold is_error_status. cbn. lia.
    + destruct (Hget (Some 42) None
                  (get_curve demo_404 (Some 42) None new_machine).1
                  (get_curve demo_404 (Some 42) None new_machine).2)
        as (Htext & _).
      * by_running.
      * vm_compute. discriminate.
      * by_running.
      * apply Htext. by_running.
  - destruct (X12_error_status_raises demo_404 new_machine
                (mkRequest "GET" "https://api.wattsight.com/api/curves?area=NO"
                   None ∅ None) not_found) as [_ Hsearch].
    + intros k a Ha. discriminate.
    + unfold is_error_status. cbn. lia.
    + destruct (Hsearch [("area", PStr "NO")]
                  (search demo_404 [("area", PStr "NO")] new_machine).1
                  (search demo_404 [("area", PStr "NO")] new_machine).2)
        as (Htext & _).
      * by_running.
      * vm_compute. discriminate.
      * by_running.
      * apply Htext. by_running.
  - destruct (X12_error_status_raises demo_garbled new_machine
                (mkRequest "GET"
                   "https://api.wattsight.com/api/curves/get?id=42"
                   None ∅ None) garbled) as [Hget _].
    + intros k a Ha. discriminate.
    + unfold is_error_status. cbn. lia.
    + destruct (Hget (Some 42) None
                  (get_curve demo_garbled (Some 42) None new_machine).1
                  (get_curve demo_garbled (Some 42) None new_machine).2)
        as (_ & Hexc & _).
      * by_running.
      * vm_compute. discriminate.
      * by_running.
      * apply Hexc. by_running.
Defined.

(** A search answered with two records. *)
Lemma X13_witness :
  let run := handle_multi_curve_response demo_two (mkResponse 200 "[]")
               new_machine in
  run.1 = Ok [0%nat; 1%nat]
  /\ exists body items,
       json_loads demo_two "[]" = Ok body
       /\ py_iter body = Ok items
       /\ length items = 2%nat.
Proof.
  intros run. split; [by_running|].
  destruct (X13_multi_curve_order demo_two (mkResponse 200 "[]") new_machine
              [0%nat; 1%nat] run.2)
    as (body & items & H1 & H2 & H3 & _); [by_running|].
  exists body, items. split_and!; [exact H1|exact H2|by rewrite <- H3].
Defined.

(** A search answered with a record, a text and a record. *)
Lemma X14_witness :
  let m1 := (_build_curve demo_broken (PDict oslo_temp) new_machine).2 in
  handle_multi_curve_response demo_broken (mkResponse 200 "[]") new_machine
  = (Raise (missing_key_error "id"), m1)
  /\ _curve_cache (session m1) !! 42 = Some 0%nat.
Proof.
  intros m1.
  destruct (X14_multi_curve_stops_at_first_failure demo_broken
              (mkResponse 200 "[]")
              (PList [PDict oslo_temp; PStr "junk"; PDict oslo_renamed])
              [PDict oslo_temp] [PDict oslo_renamed] (PStr "junk")
              new_machine m1 m1 [0%nat] (missing_key_error "id"))
    as (H & _); [by_running..|].
  split; [exact H|by_running].
Defined.

(** The record of the example, then the same id under another name. *)
Lemma X15_witness :
  exists c1 c2 m1 m2,
    _build_curve demo (PDict oslo_temp) new_machine = (Ok c1, m1)
    /\ _build_curve demo (PDict oslo_renamed) m1 = (Ok c2, m2)
    /\ c1 <> c2
    /\ get_curve demo None (Some "Oslo Temp") m2 = (Ok c2, m2)
    /\ heap m2 !! c2
       = Some (mkCurve TaggedCurve 42 (Some (PDict oslo_renamed))).
Proof.
  destruct (X15_same_id_other_name demo oslo_temp oslo_renamed new_machine
              (PStr "42") (PInt 42) (PStr "TIME_SERIES") (PStr "TAGGED") 42
              TimeSeriesCurve TaggedCurve "Oslo Temp" "Oslo Temperature")
    as (c1 & c2 & m1 & m2 & H1 & H2 & H3 & _ & _ & _ & H7 & _ & H9 & _).
  - intros i c Hi. cbn in Hi. by rewrite lookup_empty in Hi.
  - intros key Hkey. unfold _meta_keys in Hkey. each_meta_key Hkey.
  - intros key Hkey. unfold _meta_keys in Hkey. each_meta_key Hkey.
  - by_running.
  - by_running.
  - by_running.
  - by_running.
  - by_running.
  - by_running.
  - by_running.
  - by_running.
  - by_running.
  - by_running.
  - discriminate.
  - exists c1, c2, m1, m2. by split_and!.
Defined.

(** The record whose name is a list. *)
Lemma X16_witness :
  exists m' msg,
    _build_curve demo (PDict oslo_listed) new_machine
    = (Raise (TypeError msg), m')
    /\ _curve_cache (session m') !! 42 = Some 0%nat
    /\ _name_cache (session m') = ∅.
Proof.
  destruct (X16_unhashable_name demo oslo_listed new_machine
              (PStr "42") (PStr "TIME_SERIES") (PList [PStr "Oslo"; PStr "Temp"])
              42 TimeSeriesCurve (TypeError "unhashable type: 'list'"))
    as (m' & msg & H1 & _ & H3 & _ & H5 & _).
  - intros key Hkey. unfold _meta_keys in Hkey. each_meta_key Hkey.
  - by_running.
  - by_running.
  - by_running.
  - by_running.
  - by_running.
  - by_running.
  - exists m', msg. split_and!; [exact H1|exact H3|exact H5].
Defined.

Lemma X17_witness :
  exists e, _build_curve demo PNone new_machine = (Raise e, new_machine)
            /\ exists msg, e = TypeError msg.
Proof.
  destruct (X17_not_a_record demo PNone new_machine) as (e & H1 & _ & H3).
  - discriminate.
  - exists e. split; [exact H1|exact H3].
Defined.

Lemma X18_witness :
  let run := read_config_file demo (Ok oauth_config) new_machine in
  run.1 = Ok tt
  /\ auth (session run.2)
     = Some (mkOAuth "me" "s3cret" "https://auth.example.test")
  /\ urlbase (session run.2) = "https://example.test".
Proof.
  intros run.
  destruct (X18_read_config_file_oauth demo oauth_config oauth_common
              oauth_section "https://example.test" new_machine run.1 run.2)
    as (Hu & _ & _ & _ & _ & _ & _ & Hok); try by_running.
  destruct Hok as (cid & secret & aub & H1 & H2 & H3 & Hauth); [by_running|].
  vm_compute in H1, H2, H3. injection H1 as <-. injection H2 as <-.
  injection H3 as <-.
  split_and!; [by_running|exact Hauth|exact Hu].
Defined.

Lemma X19_witness :
  exists m',
    read_config_file demo (Ok urlbase_only_config) new_machine
    = (Raise (NoOptionError "auth_type" "common"), m')
    /\ urlbase (session m') = "https://example.test"
    /\ auth (session m') = None.
Proof.
  destruct (X19_read_config_file_not_atomic demo urlbase_only_config
              urlbase_only "https://example.test" new_machine)
    as [H _]; try by_running.
  apply H. by_running.
Defined.

(** The constructor given a urlbase and credentials. *)
Lemma X20_witness :
  let run := __init__ demo (Some "https://example.test") None
               (Some "id") (Some "secret") None new_machine in
  urlbase (session run.2) = "https://example.test"
  /\ auth (session run.2)
     = Some (mkOAuth "id" "secret" "https://auth.wattsight.com/").
Proof.
  intros run.
  destruct (X20_init demo (Some "https://example.test") None
              (Some "id") (Some "secret") None new_machine run.1 run.2)
    as (_ & _ & _ & Hub & _ & Hauth & _); [by_running|].
  split.
  - apply Hub; by_running.
  - apply (Hauth "id" "secret"); by_running.
Defined.

(** [search(area=[])]. *)
Lemma X21_witness :
  search demo [("area", PList [])] new_machine = search demo [] new_machine.
Proof.
  destruct (X21_search_empty_criteria demo [("area", PList [])] new_machine)
    as (_ & H & _); [| |exact H].
  - unfold allowed_keys. apply (bool_decide_unpack _). by vm_compute.
  - intros kv Hkv. apply list_elem_of_singleton in Hkv as ->. by split.
Defined.

(** A lookup answered with the record of the example. *)
Lemma X22_witness :
  exists d obj,
    json_loads demo_one "{}" = Ok (PDict d)
    /\ heap (handle_single_curve_response demo_one (mkResponse 200 "{}")
               new_machine).2 = [obj]
    /\ curve_metadata obj = Some (PDict d).
Proof.
  destruct (X22_single_curve_built demo_one (mkResponse 200 "{}") new_machine
              0%nat
              (handle_single_curve_response demo_one (mkResponse 200 "{}")
                 new_machine).2)
    as (_ & d & obj & name & k & H1 & _ & H3 & H4 & _); [by_running|].
  exists d, obj. split_and!; [exact H1|exact H3|exact H4].
Defined.

(** A [common] section that gives no urlbase. *)
Lemma X23_witness :
  read_config_file demo (Ok auth_type_only_config) new_machine
  = (Raise (NoOptionError "urlbase" "common"), new_machine).
Proof.
  apply (read_config_file_without_urlbase demo auth_type_only_config
           auth_type_only new_machine); by_running.
Defined.
